(** * Foodtrace test driver: the RPC outcome normalizer

    A shallow embedding of the request/response normalisation layer shared by
    [test.py] and [gemtest.py]: the transport call [_req], the alias lookup
    [get_kaleido_kid_for_alias], the wrappers [invoke] and [query], and the
    outcome classifier [ok].

    Conventions of the embedding.
    - A Python [str] is a [string]; the model covers ASCII text, so [upper],
      [lower] and [strip] act on the ASCII letters and the ASCII white space
      only.
    - A decoded JSON document is a [value]; a Python [dict] is an association
      list in insertion order whose keys are pairwise different for Python's
      [==].  Finite floats are denoted by their exact rational value.
    - The two process-wide globals the code relies on ([method_type] and the
      log) and the trace of requests put on the wire form the [state]; every
      function that touches them is a computation in the monad [M], which also
      carries Python exceptions.
    - The HTTP peer and [json.loads] are taken as parameters.  The decoder
      returns a document or raises: [json.JSONDecodeError] on a text that is
      no JSON document, and other exceptions besides ([ValueError] on an
      integer literal over the digit limit of [int], [RecursionError] on a
      document nested too deep). *)

From Stdlib Require Import String Ascii List ZArith QArith Bool Lia DecimalString.
Import ListNotations.

Set Warnings "-register-all".
Local Open Scope string_scope.
Local Open Scope list_scope.

(* ------------------------------------------------------------------------- *)
(** ** Python strings *)

Module PyStr.

Definition is_lower_ascii (c : ascii) : bool :=
  let n := nat_of_ascii c in (97 <=? n)%nat && (n <=? 122)%nat.

Definition is_upper_ascii (c : ascii) : bool :=
  let n := nat_of_ascii c in (65 <=? n)%nat && (n <=? 90)%nat.

Definition upper_ascii (c : ascii) : ascii :=
  if is_lower_ascii c then ascii_of_nat (nat_of_ascii c - 32) else c.

Definition lower_ascii (c : ascii) : ascii :=
  if is_upper_ascii c then ascii_of_nat (nat_of_ascii c + 32) else c.

(** [str.upper()] and [str.lower()]. *)
Fixpoint upper (s : string) : string :=
  match s with
  | EmptyString => EmptyString
  | String c t => String (upper_ascii c) (upper t)
  end.

Fixpoint lower (s : string) : string :=
  match s with
  | EmptyString => EmptyString
  | String c t => String (lower_ascii c) (lower t)
  end.

(** The characters [str.strip()] removes: tab, line feed, vertical tab, form
    feed, carriage return, the four separators 28..31 and the space. *)
Definition is_space (c : ascii) : bool :=
  let n := nat_of_ascii c in
  ((9 <=? n)%nat && (n <=? 13)%nat) || ((28 <=? n)%nat && (n <=? 32)%nat).

Fixpoint lstrip (s : string) : string :=
  match s with
  | EmptyString => EmptyString
  | String c t => if is_space c then lstrip t else s
  end.

Fixpoint rev (s : string) : string :=
  match s with
  | EmptyString => EmptyString
  | String c t => rev t ++ String c EmptyString
  end.

Definition rstrip (s : string) : string := rev (lstrip (rev s)).

(** [str.strip()]. *)
Definition strip (s : string) : string := rstrip (lstrip s).


(** [needle in hay] for two strings. *)
Fixpoint contains (needle hay : string) : bool :=
  if prefix needle hay then true
  else match hay with
       | EmptyString => false
       | String _ t => contains needle t
       end.

(** [str(n)] for an integer, as an f-string prints it. *)
Definition of_Z (z : Z) : string := NilZero.string_of_int (Z.to_int z).

Definition of_nat (n : nat) : string := NilZero.string_of_uint (Nat.to_uint n).

(** The one-character strings a [str] yields when it is iterated. *)
Fixpoint chars (s : string) : list string :=
  match s with
  | EmptyString => []
  | String c t => String c EmptyString :: chars t
  end.

End PyStr.

(* ------------------------------------------------------------------------- *)
(** ** Python values, as [json.loads] produces them *)

Inductive value : Type :=
| VNone
| VBool (b : bool)
| VInt (z : Z)
| VFloat (q : Q)
| VStr (s : string)
| VList (l : list value)
| VDict (d : list (value * value)).

Definition dict : Type := list (value * value).

(** The outcome of reading a body: the text, or the exception raised. *)
Inductive read_outcome (E : Type) : Type :=
| ReadOk (text : string)
| ReadFails (e : E).
Arguments ReadOk {E} text.
Arguments ReadFails {E} e.

(** Python exceptions, by class.  [HTTPError] carries the response code and,
    when the error has a body stream ([e.fp]), the outcome of reading and
    decoding it. *)
Inductive exn : Type :=
| HTTPError (code : Z) (reason : string) (fp : option (read_outcome exn))
| URLError (msg : string)
| TimeoutError (msg : string)
| OSError (msg : string)
| UnicodeDecodeError (msg : string)
| TypeError (msg : string)
| ValueError (msg : string)
| AttributeError (msg : string)
| JSONDecodeError (msg : string)
| RecursionError (msg : string).

Inductive result (A : Type) : Type :=
| Ok (a : A)
| Raise (e : exn).
Arguments Ok {A} a.
Arguments Raise {A} e.

Module Py.

(** [str(exc)]. *)
Definition exn_str (e : exn) : string :=
  match e with
  | HTTPError code reason _ => "HTTP Error " ++ PyStr.of_Z code ++ ": " ++ reason
  | URLError msg => "<urlopen error " ++ msg ++ ">"
  | TimeoutError msg | OSError msg | UnicodeDecodeError msg
  | TypeError msg | ValueError msg | AttributeError msg
  | JSONDecodeError msg | RecursionError msg => msg
  end.

Definition is_HTTPError (e : exn) : bool :=
  match e with HTTPError _ _ _ => true | _ => false end.

(** [isinstance(e, json.JSONDecodeError)], the test of
    [except json.JSONDecodeError].  The class derives from [ValueError], so a
    plain [ValueError] does not pass it. *)
Definition is_JSONDecodeError (e : exn) : bool :=
  match e with JSONDecodeError _ => true | _ => false end.

(** [type(v).__name__]. *)
Definition type_name (v : value) : string :=
  match v with
  | VNone => "NoneType"
  | VBool _ => "bool"
  | VInt _ => "int"
  | VFloat _ => "float"
  | VStr _ => "str"
  | VList _ => "list"
  | VDict _ => "dict"
  end.

(** [bool(v)]. *)
Definition truthy (v : value) : bool :=
  match v with
  | VNone => false
  | VBool b => b
  | VInt z => negb (z =? 0)%Z
  | VFloat q => negb (Qeq_bool q 0)
  | VStr s => negb (s =? "")
  | VList l => match l with [] => false | _ => true end
  | VDict d => match d with [] => false | _ => true end
  end.

(** [a or b]. *)
Definition or_ (a b : value) : value := if truthy a then a else b.

(** [isinstance(v, int)]: a [bool] is an [int] in Python. *)
Definition as_int (v : value) : option Z :=
  match v with
  | VInt z => Some z
  | VBool b => Some (Z.b2z b)
  | _ => None
  end.

Definition is_dict (v : value) : bool :=
  match v with VDict _ => true | _ => false end.

Definition is_none (v : value) : bool :=
  match v with VNone => true | _ => false end.

(** The numeric value of a number, for [==] across [bool], [int], [float]. *)
Definition num_of (v : value) : option Q :=
  match v with
  | VBool b => Some (inject_Z (Z.b2z b))
  | VInt z => Some (inject_Z z)
  | VFloat q => Some q
  | _ => None
  end.

(** [v == z] for an integer literal [z]. *)
Definition eq_int (v : value) (z : Z) : bool :=
  match num_of v with
  | Some q => Qeq_bool q (inject_Z z)
  | None => false
  end.

(** [v == s] for a string literal [s]. *)
Definition eq_str (v : value) (s : string) : bool :=
  match v with VStr t => (t =? s) | _ => false end.

(** [hash(v)] succeeds: lists and dicts are unhashable. *)
Definition hashable (v : value) : bool :=
  match v with VList _ | VDict _ => false | _ => true end.

(** Two hashable keys denote the same dict slot. *)
Definition key_eqb (k1 k2 : value) : bool :=
  match k1, k2 with
  | VNone, VNone => true
  | VStr a, VStr b => (a =? b)
  | _, _ => match num_of k1, num_of k2 with
            | Some a, Some b => Qeq_bool a b
            | _, _ => false
            end
  end.

(** [d[k]] when present. *)
Fixpoint lookup (k : value) (d : dict) : option value :=
  match d with
  | [] => None
  | (k', v) :: t => if key_eqb k' k then Some v else lookup k t
  end.

(** [k in d]. *)
Definition has (d : dict) (k : string) : bool :=
  match lookup (VStr k) d with Some _ => true | None => false end.

(** [d.get(k, dflt)] and [d.get(k)]. *)
Definition get_d (d : dict) (k : string) (dflt : value) : value :=
  match lookup (VStr k) d with Some v => v | None => dflt end.

Definition get (d : dict) (k : string) : value := get_d d k VNone.

(** [d[k] = v]: an existing slot keeps its place and its key object. *)
Fixpoint set (k v : value) (d : dict) : dict :=
  match d with
  | [] => [(k, v)]
  | (k', v') :: t => if key_eqb k' k then (k', v) :: t else (k', v') :: set k v t
  end.

(** [d.update(other)] for a dict [other]. *)
Definition merge (d other : dict) : dict :=
  fold_left (fun acc kv => set (fst kv) (snd kv) acc) other d.

(** One element of a sequence handed to [dict.update]: it must itself be a
    sequence of exactly two items, the key and the value. *)
Definition pair_of_item (i : nat) (item : value) : result (value * value) :=
  let bad_len n :=
    Raise (ValueError ("dictionary update sequence element #" ++ PyStr.of_nat i
                       ++ " has length " ++ PyStr.of_nat n ++ "; 2 is required")) in
  match item with
  | VList [k; v] => Ok (k, v)
  | VList l => bad_len (List.length l)
  | VStr (String a (String b EmptyString)) =>
      Ok (VStr (String a EmptyString), VStr (String b EmptyString))
  | VStr s => bad_len (String.length s)
  | VDict [(k1, _); (k2, _)] => Ok (k1, k2)
  | VDict d => bad_len (List.length d)
  | _ => Raise (TypeError ("cannot convert dictionary update sequence element #"
                           ++ PyStr.of_nat i ++ " to a sequence"))
  end.

Fixpoint merge_seq (i : nat) (items : list value) (d : dict) : result dict :=
  match items with
  | [] => Ok d
  | item :: rest =>
      match pair_of_item i item with
      | Raise e => Raise e
      | Ok (k, v) =>
          if hashable k then merge_seq (S i) rest (set k v d)
          else Raise (TypeError ("unhashable type: '" ++ type_name k ++ "'"))
      end
  end.

(** [d.update(other)] for any decoded value [other]. *)
Definition update (d : dict) (other : value) : result dict :=
  match other with
  | VDict o => Ok (merge d o)
  | VList l => merge_seq 0 l d
  | VStr s => merge_seq 0 (map VStr (PyStr.chars s)) d
  | _ => Raise (TypeError ("'" ++ type_name other ++ "' object is not iterable"))
  end.

(** [needle in v] for a string literal [needle]: substring test on a [str],
    membership on a list, key test on a dict, [TypeError] otherwise. *)
Definition in_ (needle : string) (v : value) : result bool :=
  match v with
  | VStr s => Ok (PyStr.contains needle s)
  | VList l => Ok (existsb (fun x => eq_str x needle) l)
  | VDict d => Ok (has d needle)
  | _ => Raise (TypeError ("argument of type '" ++ type_name v ++ "' is not iterable"))
  end.

(** [v.lower()]: only a [str] has the method. *)
Definition lower (v : value) : result string :=
  match v with
  | VStr s => Ok (PyStr.lower s)
  | _ => Raise (AttributeError ("'" ++ type_name v ++ "' object has no attribute 'lower'"))
  end.

End Py.

(* ------------------------------------------------------------------------- *)
(** ** What goes on the wire *)

(** A request body before [json.dumps]: the envelope of a chaincode call is
    built from strings, a boolean and, in [gemtest.py], possibly [bytes]
    arguments, kept here by their printed form. *)
Inductive pyobj : Type :=
| PStr (s : string)
| PBytes (repr : string)
| PBool (b : bool)
| PList (l : list pyobj)
| PDict (d : list (string * pyobj)).

(** [json.dumps] accepts everything but [bytes].  Payloads are the shallow
    envelopes the scripts build: the recursion limit of the encoder is not
    modelled. *)
Fixpoint serializable (o : pyobj) : bool :=
  match o with
  | PBytes _ => false
  | PList l => forallb serializable l
  | PDict d => forallb (fun kv => serializable (snd kv)) d
  | PStr _ | PBool _ => true
  end.

Record request : Type := mkRequest {
  url : string;
  payload : option pyobj;
  http_method : string
}.

(** What [urlopen] does with a request.  Either a response arrives, with its
    code, the remaining length ([r.length], [None] when unknown) and the
    outcome of [r.read().decode()]; or an exception is raised, [HTTPError]
    for an error status, anything else for a transport failure. *)
Inductive net_outcome : Type :=
| Response (code : Z) (length : option Z) (content : result string)
| Raises (e : exn).

(** An argument of a chaincode call, [List[Any]] in the source: a [str], a
    [bytes] object or any other object, the last two with their [str()]. *)
Inductive pyarg : Type :=
| ArgStr (s : string)
| ArgBytes (repr : string)
| ArgObj (repr : string).

(* ------------------------------------------------------------------------- *)
(** ** Process state and the monad of the scripts *)

Inductive log_line : Type :=
| LogLine (text : string) (vals : list value).

Record state : Type := mkState {
  method_type : string;          (* the global [method_type] *)
  log_lines : list log_line;     (* what [log] has written, oldest first *)
  wire : list request            (* the requests handed to [urlopen], oldest first *)
}.

Definition M (A : Type) : Type := state -> result A * state.

Definition ret {A : Type} (a : A) : M A := fun st => (Ok a, st).

Definition bind {A B : Type} (m : M A) (k : A -> M B) : M B :=
  fun st =>
    match m st with
    | (Ok a, st') => k a st'
    | (Raise e, st') => (Raise e, st')
    end.

Definition lift {A : Type} (r : result A) : M A := fun st => (r, st).

Declare Scope py_scope.
Delimit Scope py_scope with py.
Notation "x <- m ;; k" := (bind m (fun x => k))
  (at level 61, m at next level, right associativity) : py_scope.
Notation "m ;;; k" := (bind m (fun _ => k))
  (at level 61, right associativity) : py_scope.
Local Open Scope py_scope.

(** [log(msg)]: the f-string is kept as its text with [{}] for each
    interpolated expression, followed by the values interpolated. *)
Definition log (text : string) (vals : list value) : M unit :=
  fun st => (Ok tt, mkState (method_type st) (log_lines st ++ [LogLine text vals]) (wire st)).

Definition get_method_type : M string := fun st => (Ok (method_type st), st).

Definition set_method_type (m : string) : M unit :=
  fun st => (Ok tt, mkState m (log_lines st) (wire st)).

(** [if c: body], with nothing to do otherwise. *)
Definition when (c : bool) (body : M unit) : M unit := if c then body else ret tt.

(* ------------------------------------------------------------------------- *)
(** ** Configuration constants *)

Definition KALEIDO_API_GATEWAY_BASE_URL : string :=
  "https://u0n7pgi2z4-u0lbsjef4v-connect.us0-aws-ws.kaleido.io".
Definition CONNECT_URL : string := KALEIDO_API_GATEWAY_BASE_URL ++ "/transactions".
Definition QUERY_URL : string := KALEIDO_API_GATEWAY_BASE_URL ++ "/query".
Definition CHANNEL_NAME : string := "default-channel".
Definition CHAINCODE_NAME : string := "banana".

Record roster_entry : Type := mkEntry { alias : string; role : string }.

Definition ID_ROSTER : list (string * roster_entry) :=
  [ ("admin_main_tester", mkEntry "MainAdminFT" "admin");
    ("farmer_alice_tester", mkEntry "AliceAcres" "farmer");
    ("processor_bob_tester", mkEntry "BobProcessing" "processor");
    ("processor_charlie_tester", mkEntry "CharlieTransform" "processor");
    ("distributor_dave_tester", mkEntry "DaveDistribution" "distributor");
    ("retailer_eve_tester", mkEntry "EveMart" "retailer");
    ("certifier_frank_tester", mkEntry "FrankCertify" "certifier");
    ("auditor_grace_tester", mkEntry "GraceAudits" "admin") ].

(* ------------------------------------------------------------------------- *)
(** ** The transport call and what else the two scripts share word for word *)

Section Transport.

(** [json.loads] on a [str]: the decoded document, or the exception raised. *)
Variable json_loads : string -> result value.

(** The HTTP peer: the outcome of the [n]-th request of the run. *)
Variable network : nat -> request -> net_outcome.

(** The body of the [try] block of [_req], from [urlopen] to [return out]. *)
Definition _req_try (o : net_outcome) : result dict :=
  match o with
  | Raises e => Raise e
  | Response code length content =>
      let read :=
        match length with
        | None => content
        | Some n => if (n >? 0)%Z then content else Ok EmptyString
        end in
      match read with
      | Raise e => Raise e
      | Ok body =>
          let out := [(VStr "status", VInt code)] in
          if negb (body =? "") then
            match json_loads body with
            | Ok doc => Py.update out doc
            | Raise e =>
                if Py.is_JSONDecodeError e then Ok (Py.set (VStr "raw") (VStr body) out)
                else Raise e
            end
          else Ok out
      end
  end.

(** The [details] of an HTTP error, from the text [raw] of the error body.
    The inner [try] catches [json.JSONDecodeError] only: any other exception
    of the decoder goes on. *)
Definition error_details (raw : string) : result value :=
  if negb (raw =? "") && negb (PyStr.contains "<html" raw) && PyStr.contains "{" raw then
    match json_loads raw with
    | Ok doc => Ok doc
    | Raise e =>
        if Py.is_JSONDecodeError e then
          Ok (VDict [(VStr "raw", VStr raw);
                     (VStr "note", VStr "Response could not be parsed as JSON.")])
        else Raise e
    end
  else Ok (VDict [(VStr "raw", VStr raw);
                  (VStr "note", VStr "Response not valid JSON or HTML.")]).

(** The two [except] clauses of [_req].  An exception raised inside the
    [HTTPError] handler, while the error body is read or decoded, is caught by
    no clause of the same [try], so it leaves [_req]. *)
Definition _req_except (e : exn) : result dict :=
  match e with
  | HTTPError code _ fp =>
      match fp with
      | Some (ReadFails e') => Raise e'
      | Some (ReadOk _) | None =>
          let raw := match fp with Some (ReadOk body) => body | _ => EmptyString end in
          match error_details raw with
          | Ok details =>
              Ok [(VStr "err", VStr ("HTTP " ++ PyStr.of_Z code));
                  (VStr "details", details);
                  (VStr "status", VInt code)]
          | Raise e' => Raise e'
          end
      end
  | _ => Ok [(VStr "err", VStr (Py.exn_str e)); (VStr "status", VInt 500)]
  end.

Definition _req (url : string) (payload : option pyobj) (method : string) : M dict :=
  fun st =>
    let dumps_ok := match payload with Some p => serializable p | None => true end in
    if dumps_ok then
      let rq := mkRequest url payload method in
      let st' := mkState (method_type st) (log_lines st) (wire st ++ [rq]) in
      match _req_try (network (List.length (wire st)) rq) with
      | Ok out => (Ok out, st')
      | Raise e => (_req_except e, st')
      end
    else (Raise (TypeError "Object of type bytes is not JSON serializable"), st).

(** The loop of [get_kaleido_kid_for_alias] over [ID_ROSTER.items()]: the
    first identity that carries the alias, or the warning and [None]. *)
Definition roster_lookup (warning chaincode_alias : string) : M (option string) :=
  match find (fun kv => alias (snd kv) =? chaincode_alias) ID_ROSTER with
  | Some (kid_name, _) => ret (Some kid_name)
  | None => log warning [VStr chaincode_alias] ;;; ret None
  end.

(** The synthetic record of an unresolved signer alias. *)
Definition signer_not_found (chaincode_alias_for_signer : string) : dict :=
  [(VStr "err", VStr ("Signer alias " ++ chaincode_alias_for_signer
                      ++ " not found in ID_ROSTER"));
   (VStr "status", VInt 0)].

(** [str(arg) if not isinstance(arg, str) else arg], the coercion of the
    arguments in [test.py] and in [query] of [gemtest.py]. *)
Definition str_arg (a : pyarg) : pyobj :=
  match a with
  | ArgStr s => PStr s
  | ArgBytes repr | ArgObj repr => PStr repr
  end.

(** The [headers] member of the envelope of a chaincode call. *)
Definition headers (signer : string) : pyobj :=
  PDict [("signer", PStr signer);
         ("channel", PStr CHANNEL_NAME);
         ("chaincode", PStr CHAINCODE_NAME)].

(** [error_message] as both wrappers and the classifier compute it:
    [details.get("error", "") or details.get("message", "")]. *)
Definition error_message_of (details : dict) : value :=
  Py.or_ (Py.get_d details "error" (VStr EmptyString))
         (Py.get_d details "message" (VStr EmptyString)).

(** [isinstance(v, str) and v.upper() == 'VALID']. *)
Definition is_VALID (v : value) : bool :=
  match v with
  | VStr s => (PyStr.upper s =? "VALID")
  | _ => false
  end.

(** [x in text.lower()], raising when [text] has no [lower]. *)
Definition in_lower (x : string) (text : value) : M bool :=
  l <- lift (Py.lower text) ;; ret (PyStr.contains x l).

(** [a or b] on two tests, the second evaluated only when needed. *)
Definition orM (a b : M bool) : M bool :=
  x <- a ;; if x then ret true else b.

End Transport.

(* ------------------------------------------------------------------------- *)
(** ** [test.py] *)

Module Test.

Definition get_kaleido_kid_for_alias : string -> M (option string) :=
  roster_lookup
    "WARNING: Could not find Kaleido kid_name for chaincode_alias '{}' in ID_ROSTER.".

(** [r.get("status") not in [202, 'VALID', 'valid']]. *)
Definition status_unexpected (status : value) : bool :=
  negb (Py.eq_int status 202 || Py.eq_str status "VALID" || Py.eq_str status "valid").

Section Wrappers.

Variable json_loads : string -> result value.
Variable network : nat -> request -> net_outcome.

Definition invoke (chaincode_alias_for_signer func : string) (args : list pyarg)
  : M dict :=
  set_method_type "invoke" ;;;
  let str_args := map str_arg args in
  kaleido_kid_to_sign_with <- get_kaleido_kid_for_alias chaincode_alias_for_signer ;;
  let not_found :=
    log "CRITICAL ERROR: Could not find Kaleido kid_name for chaincode_alias_for_signer '{}' in ID_ROSTER for invoke."
        [VStr chaincode_alias_for_signer] ;;;
    ret (signer_not_found chaincode_alias_for_signer) in
  match kaleido_kid_to_sign_with with
  | None => not_found
  | Some kid =>
    if kid =? "" then not_found else
    let payload := PDict [("headers", headers kid);
                          ("func", PStr func);
                          ("args", PList str_args);
                          ("strongread", PBool true)] in
    r <- _req json_loads network CONNECT_URL (Some payload) "POST" ;;
    let who := [VStr func; VStr kid; VStr chaincode_alias_for_signer] in
    let status := Py.get r "status" in
    let by_status :=
      if status_unexpected status then
        when (negb (is_VALID status))
             (log "TX '{}' by {}({}) -> UNEXPECTED HTTP Status {}, Full: {}"
                  (who ++ [status; VDict r]))
      else
        log "TX '{}' by {}({}) -> Sent/Committed ({}), Receipt/ID: {}"
            (who ++ [status;
                     Py.or_ (Py.get r "receipt")
                            (Py.or_ (Py.get r "id")
                                    (Py.get_d r "transactionID" (VStr "N/A")))]) in
    (match Py.get r "details" with
     | VDict details =>
         if Py.truthy (VDict details)
            && (Py.has details "error" || Py.has details "message") then
           let error_message := error_message_of details in
           chaincode_error <-
             orM (in_lower "chaincode response" error_message)
                 (orM (in_lower "transaction returned with failure" error_message)
                      (lift (Py.in_ "Description: " error_message))) ;;
           if chaincode_error then
             log "TX '{}' by {}({}) -> CHAINCODE ERROR: {}" (who ++ [VDict details])
           else
             log "TX '{}' by {}({}) -> KALEIDO RESPONSE: Status {}, Details: {}"
                 (who ++ [status; VDict details])
         else by_status
     | _ => by_status
     end) ;;;
    ret r
  end.

(** The unwrapping of the [result] member in [query], for a record of
    status 200: the processed result and the summary that is logged. *)
Definition process_result (func : string) (r : dict) : M (value * dict) :=
  let result := Py.get r "result" in
  if negb (Py.is_none result) then
    match result with
    | VStr text =>
        if PyStr.strip text =? "" then
          ret (VNone, [(VStr "status", Py.get r "status");
                       (VStr "parsed_result_summary", VStr "Empty result.")])
        else
          match json_loads text with
          | Ok doc =>
              ret (doc, [(VStr "status", Py.get r "status");
                         (VStr "parsed_result_summary",
                          VStr (if negb (Py.is_none doc) then "Successfully parsed."
                                else "Empty result."))])
          | Raise e =>
              log "Warning: Could not JSON parse query result for '{}': {}. Raw result: {}"
                  [VStr func; VStr (Py.exn_str e); result] ;;;
              ret (result, [(VStr "status", Py.get r "status");
                            (VStr "raw_result_summary",
                             VStr "Returned raw due to parse error.")])
          end
    | _ =>
        ret (result, [(VStr "status", Py.get r "status");
                      (VStr "parsed_result_summary", VStr "Successfully parsed.")])
    end
  else
    ret (VNone, [(VStr "status", Py.get r "status");
                 (VStr "note", VStr "No 'result' field in HTTP 200 response")]).

(** [query] returns either the processed result or the whole record. *)
Definition query (chaincode_alias_for_signer func : string) (args : list pyarg)
  : M value :=
  set_method_type "query" ;;;
  let str_args := map str_arg args in
  kaleido_kid_to_sign_with <- get_kaleido_kid_for_alias chaincode_alias_for_signer ;;
  let not_found :=
    log "CRITICAL ERROR: Could not find Kaleido kid_name for chaincode_alias_for_signer '{}' in ID_ROSTER for query."
        [VStr chaincode_alias_for_signer] ;;;
    ret (VDict (signer_not_found chaincode_alias_for_signer)) in
  match kaleido_kid_to_sign_with with
  | None => not_found
  | Some kid =>
    if kid =? "" then not_found else
    let payload := PDict [("headers", headers kid);
                          ("func", PStr func);
                          ("args", PList str_args)] in
    r <- _req json_loads network QUERY_URL (Some payload) "POST" ;;
    pl <- (if Py.eq_int (Py.get r "status") 200 then process_result func r
           else ret (VNone, r)) ;;
    let processed_result := fst pl in
    let log_detail := snd pl in
    log "Q '{}' by {}({}): {}"
        [VStr func; VStr kid; VStr chaincode_alias_for_signer; VDict log_detail] ;;;
    ret (if Py.eq_int (Py.get r "status") 200 && negb (Py.is_none processed_result)
         then processed_result else VDict r)
  end.

End Wrappers.

(** The scan for a chaincode error in [ok]:
    ["Description: " in error_msg or "chaincode response" in error_msg.lower()]. *)
Definition chaincode_marker (error_msg : value) : M bool :=
  orM (lift (Py.in_ "Description: " error_msg))
      (in_lower "chaincode response" error_msg).

(** The tail of [ok], reached when no success case applied. *)
Definition ok_fail (r : dict) (status : value) (expected_status_codes : list Z)
  : M bool :=
  log "DEBUG ok(): Status {} (type: {}) not in expected {} and not 'VALID' for invoke. Response: {}"
      [status; VStr (Py.type_name status); VList (map VInt expected_status_codes);
       VDict r] ;;;
  (match Py.get r "details" with
   | VDict details =>
       if Py.truthy (VDict details) then
         let error_msg := error_message_of details in
         found <- chaincode_marker error_msg ;;
         when found
              (log "DEBUG ok(): Chaincode-level error indicated in details. Message: {}"
                   [error_msg])
       else ret tt
   | _ => ret tt
   end) ;;;
  ret false.

(** The end of the query branch of [ok]: a diagnostic for a missing
    [result], then success. *)
Definition ok_query_pass (r : dict) : M bool :=
  when (negb (Py.has r "result")
        && negb (Py.eq_str (Py.get r "raw") EmptyString
                 || (negb (Py.truthy (Py.get r "details"))
                     && (List.length r <=? 2)%nat)))
       (log "DEBUG ok(): Query HTTP 200 but 'result' field missing and not a clear empty response. Response: {}"
            [VDict r]) ;;;
  ret true.

Definition ok (r : dict) (expected_status_codes : option (list Z)) : M bool :=
  mt <- get_method_type ;;
  let expected_status_codes :=
    match expected_status_codes with
    | Some codes => codes
    | None => if mt =? "invoke" then [202%Z] else [200%Z]
    end in
  let status := Py.get r "status" in
  if (mt =? "invoke") && is_VALID status then
    log "DEBUG ok(): Received 'VALID' status for invoke, treating as success. Response: {}"
        [Py.get_d r "transactionID" (Py.get r "id")] ;;;
    ret true
  else
    match Py.as_int status with
    | Some code =>
        if existsb (Z.eqb code) expected_status_codes then
          if (mt =? "query") && (code =? 200)%Z then
            match Py.get r "details" with
            | VDict details =>
                if Py.truthy (VDict details) then
                  let error_msg := error_message_of details in
                  found <- chaincode_marker error_msg ;;
                  if found then
                    log "DEBUG ok(): Query HTTP 200 but chaincode-level error indicated. Message: {}"
                        [error_msg] ;;;
                    ret false
                  else ok_query_pass r
                else ok_query_pass r
            | _ => ok_query_pass r
            end
          else if (mt =? "invoke") && (code =? 202)%Z then
            log "DEBUG ok(): Invoke HTTP 202 (Accepted). Caller should check for 'VALID' later if synchronous confirmation needed."
                [] ;;;
            ret true
          else ok_fail r status expected_status_codes
        else ok_fail r status expected_status_codes
    | None => ok_fail r status expected_status_codes
    end.

End Test.

(* ------------------------------------------------------------------------- *)
(** ** [gemtest.py] *)

Module Gemtest.

Definition get_kaleido_kid_for_alias : string -> M (option string) :=
  roster_lookup
    "WARNING: Could not find Kaleido kid_name for chaincode_alias_for_signer '{}' in ID_ROSTER.".

(** [str(arg) if not isinstance(arg, (str, bytes)) else arg], in [invoke]. *)
Definition str_arg_keep_bytes (a : pyarg) : pyobj :=
  match a with
  | ArgStr s => PStr s
  | ArgBytes repr => PBytes repr
  | ArgObj repr => PStr repr
  end.

Section Wrappers.

Variable json_loads : string -> result value.
Variable network : nat -> request -> net_outcome.

Definition invoke (chaincode_alias_for_signer func : string) (args : list pyarg)
  : M dict :=
  set_method_type "invoke" ;;;
  let str_args := map str_arg_keep_bytes args in
  kaleido_kid_to_sign_with <- get_kaleido_kid_for_alias chaincode_alias_for_signer ;;
  let not_found :=
    log "CRITICAL ERROR: Could not find Kaleido kid_name for chaincode_alias_for_signer '{}' in ID_ROSTER for invoke."
        [VStr chaincode_alias_for_signer] ;;;
    ret (signer_not_found chaincode_alias_for_signer) in
  match kaleido_kid_to_sign_with with
  | None => not_found
  | Some kid =>
    if kid =? "" then not_found else
    let payload := PDict [("headers", headers kid);
                          ("func", PStr func);
                          ("args", PList str_args);
                          ("strongread", PBool true)] in
    r <- _req json_loads network CONNECT_URL (Some payload) "POST" ;;
    let log_msg_prefix := [VStr func; VStr kid; VStr chaincode_alias_for_signer] in
    let status := Py.get r "status" in
    let by_status :=
      if negb (is_VALID status) && negb (Py.eq_int status 202) then
        log "TX '{}' by {}({}) -> UNEXPECTED HTTP Status {}, Full: {}"
            (log_msg_prefix ++ [status; VDict r])
      else
        let tx_id := Py.or_ (Py.get r "transactionID")
                            (Py.or_ (Py.get r "id")
                                    (Py.or_ (Py.get r "receipt") (VStr "N/A"))) in
        log "TX '{}' by {}({}) -> Sent/Committed ({}), TX_ID/Receipt: {}"
            (log_msg_prefix ++ [status; tx_id]) in
    (match Py.get r "details" with
     | VDict details =>
         if Py.has details "error" || Py.has details "message" then
           let error_message := error_message_of details in
           chaincode_error <-
             orM (in_lower "chaincode response" error_message)
                 (orM (in_lower "transaction returned with failure" error_message)
                      (lift (Py.in_ "Description: " error_message))) ;;
           if chaincode_error then
             log "TX '{}' by {}({}) -> CHAINCODE ERROR: {}"
                 (log_msg_prefix ++ [VDict details])
           else
             log "TX '{}' by {}({}) -> KALEIDO RESPONSE: Status {}, Details: {}"
                 (log_msg_prefix ++ [status; VDict details])
         else by_status
     | _ => by_status
     end) ;;;
    ret r
  end.

(** The unwrapping of the [result] member in [query], for a record of
    status 200: the processed result and the summary that is logged. *)
Definition process_result (func : string) (r : dict) : M (value * string) :=
  if Py.has r "result" && negb (Py.is_none (Py.get r "result")) then
    match Py.get r "result" with
    | VStr text =>
        if PyStr.strip text =? "" then
          ret (VNone, "Successfully queried, empty result string.")
        else
          match json_loads text with
          | Ok doc => ret (doc, "Successfully parsed JSON result.")
          | Raise e =>
              if Py.is_JSONDecodeError e then
                log "Warning: Could not JSON parse query result for '{}': {}. Raw result: {}"
                    [VStr func; VStr (Py.exn_str e); VStr text] ;;;
                ret (VStr text, "Returned raw result due to JSON parse error.")
              else
                log "Warning: Unexpected error parsing query result for '{}': {}. Raw result: {}"
                    [VStr func; VStr (Py.exn_str e); VStr text] ;;;
                ret (VStr text, "Returned raw result due to unexpected parse error.")
          end
    | other => ret (other, "Result was already parsed (not a string).")
    end
  else
    ret (VNone, "Successfully queried, no 'result' field or result is null.").

(** [query] returns either the processed result or the whole record. *)
Definition query (chaincode_alias_for_signer func : string) (args : list pyarg)
  : M value :=
  set_method_type "query" ;;;
  let str_args := map str_arg args in
  kaleido_kid_to_sign_with <- get_kaleido_kid_for_alias chaincode_alias_for_signer ;;
  let not_found :=
    log "CRITICAL ERROR: Could not find Kaleido kid_name for chaincode_alias_for_signer '{}' in ID_ROSTER for query."
        [VStr chaincode_alias_for_signer] ;;;
    ret (VDict (signer_not_found chaincode_alias_for_signer)) in
  match kaleido_kid_to_sign_with with
  | None => not_found
  | Some kid =>
    if kid =? "" then not_found else
    let payload := PDict [("headers", headers kid);
                          ("func", PStr func);
                          ("args", PList str_args)] in
    r <- _req json_loads network QUERY_URL (Some payload) "POST" ;;
    pl <- (if Py.eq_int (Py.get r "status") 200 then
             ps <- process_result func r ;;
             ret (fst ps, [(VStr "status", Py.get r "status");
                           (VStr "summary", VStr (snd ps))])
           else ret (VNone, r)) ;;
    let processed_result := fst pl in
    let log_detail_for_print := snd pl in
    log "Q '{}' by {}({}): {}"
        [VStr func; VStr kid; VStr chaincode_alias_for_signer;
         VDict log_detail_for_print] ;;;
    ret (if Py.eq_int (Py.get r "status") 200 && negb (Py.is_none processed_result)
         then processed_result else VDict r)
  end.

End Wrappers.

(** ["Description: " in error_msg or "chaincode response" in error_msg.lower()]. *)
Definition chaincode_marker (error_msg : value) : M bool :=
  orM (lift (Py.in_ "Description: " error_msg))
      (in_lower "chaincode response" error_msg).

(** The same test on the [result] member, guarded by [isinstance(_, str)]. *)
Definition result_has_marker (result : value) : bool :=
  match result with
  | VStr text =>
      PyStr.contains "Description: " text
      || PyStr.contains "chaincode response" (PyStr.lower text)
  | _ => false
  end.

(** The tail of [ok], reached when no success case applied. *)
Definition ok_fail (r : dict) (status : value) (expected_status_codes : list Z)
  : M bool :=
  let report :=
    log "DEBUG ok(): Status {} (type: {}) not in expected {} and not 'VALID' for invoke. Response: {}"
        [status; VStr (Py.type_name status); VList (map VInt expected_status_codes);
         VDict r] ;;;
    ret false in
  match Py.get r "details" with
  | VDict details =>
      let error_msg := error_message_of details in
      found <- chaincode_marker error_msg ;;
      if found then
        log "DEBUG ok(): Chaincode-level error explicitly found in details. Message: {}. Full Response: {}"
            [error_msg; VDict r] ;;;
        ret false
      else report
  | _ => report
  end.

Definition ok (r : dict) (expected_status_codes : option (list Z)) : M bool :=
  mt <- get_method_type ;;
  let expected_status_codes :=
    match expected_status_codes with
    | Some codes => codes
    | None => if mt =? "invoke" then [202%Z] else [200%Z]
    end in
  let status := Py.get r "status" in
  if (mt =? "invoke") && is_VALID status then
    log "DEBUG ok(): Received 'VALID' status for invoke, treating as success. TX_ID: {}"
        [Py.get_d r "transactionID" (Py.get_d r "id" (VStr "N/A"))] ;;;
    ret true
  else
    match Py.as_int status with
    | Some code =>
        if existsb (Z.eqb code) expected_status_codes then
          if (mt =? "query") && (code =? 200)%Z then
            if Py.truthy (Py.get r "err") then
              log "DEBUG ok(): Query HTTP 200 but _req indicated an error structure. Response: {}"
                  [VDict r] ;;;
              ret false
            else if result_has_marker (Py.get r "result") then
              log "DEBUG ok(): Query HTTP 200 but 'result' field contains chaincode error string. Result: {}"
                  [Py.get r "result"] ;;;
              ret false
            else ret true
          else if (mt =? "invoke") && (code =? 202)%Z then
            log "DEBUG ok(): Invoke HTTP 202 (Accepted). Caller should ideally check for 'VALID' status via other means if synchronous confirmation is critical."
                [] ;;;
            ret true
          else ok_fail r status expected_status_codes
        else ok_fail r status expected_status_codes
    | None => ok_fail r status expected_status_codes
    end.

End Gemtest.

(* ------------------------------------------------------------------------- *)
(** ** Sample peers and documents for the concrete runs below *)

Module Sample.

(** The double quote character, for JSON text. *)
Definition dq : string := String (ascii_of_nat 34) EmptyString.

(** [{"status": "VALID"}], [{"result": ""}] and [{"result": "  "}]. *)
Definition body_valid : string :=
  "{" ++ dq ++ "status" ++ dq ++ ": " ++ dq ++ "VALID" ++ dq ++ "}".
Definition body_empty_result : string :=
  "{" ++ dq ++ "result" ++ dq ++ ": " ++ dq ++ dq ++ "}".
Definition body_blank_result : string :=
  "{" ++ dq ++ "result" ++ dq ++ ": " ++ dq ++ "  " ++ dq ++ "}".

(** [{"error": "<html>bad gateway</html>"}] and [{"error": "denied"}]. *)
Definition body_html_in_json : string :=
  "{" ++ dq ++ "error" ++ dq ++ ": " ++ dq ++ "<html>bad gateway</html>" ++ dq ++ "}".
Definition body_denied : string :=
  "{" ++ dq ++ "error" ++ dq ++ ": " ++ dq ++ "denied" ++ dq ++ "}".

(** The text [[{"id":"SHIP1","status":"CREATED"}]] and the body that carries
    it as the JSON string of its [result] member. *)
Definition text_shipments : string :=
  "[{" ++ dq ++ "id" ++ dq ++ ":" ++ dq ++ "SHIP1" ++ dq ++ ","
       ++ dq ++ "status" ++ dq ++ ":" ++ dq ++ "CREATED" ++ dq ++ "}]".
Definition bs : string := String (ascii_of_nat 92) EmptyString.
Definition body_shipments : string :=
  "{" ++ dq ++ "result" ++ dq ++ ": " ++ dq
      ++ "[{" ++ bs ++ dq ++ "id" ++ bs ++ dq ++ ":" ++ bs ++ dq ++ "SHIP1" ++ bs ++ dq ++ ","
      ++ bs ++ dq ++ "status" ++ bs ++ dq ++ ":" ++ bs ++ dq ++ "CREATED" ++ bs ++ dq ++ "}]"
      ++ dq ++ "}".

(** A decoder that agrees with [json.loads] on the documents used below and
    rejects every other text with [json.JSONDecodeError]. *)
Definition loads (s : string) : result value :=
  if s =? "[]" then Ok (VList [])
  else if s =? "[1, 2]" then Ok (VList [VInt 1; VInt 2])
  else if s =? "42" then Ok (VInt 42)
  else if s =? "null" then Ok VNone
  else if s =? body_valid then Ok (VDict [(VStr "status", VStr "VALID")])
  else if s =? body_empty_result then Ok (VDict [(VStr "result", VStr EmptyString)])
  else if s =? body_blank_result then Ok (VDict [(VStr "result", VStr "  ")])
  else if s =? body_html_in_json then
    Ok (VDict [(VStr "error", VStr "<html>bad gateway</html>")])
  else if s =? body_denied then Ok (VDict [(VStr "error", VStr "denied")])
  else if s =? body_shipments then Ok (VDict [(VStr "result", VStr text_shipments)])
  else if s =? text_shipments then
    Ok (VList [VDict [(VStr "id", VStr "SHIP1"); (VStr "status", VStr "CREATED")]])
  else Raise (JSONDecodeError "Expecting value: line 1 column 1 (char 0)").

(** A peer that answers every request the same way. *)
Definition always (o : net_outcome) : nat -> request -> net_outcome := fun _ _ => o.

(** A peer that answers 200 with the given body, of unknown length. *)
Definition answers (code : Z) (body : string) : nat -> request -> net_outcome :=
  always (Response code None (Ok body)).

(** The state of a fresh process: [method_type = "invoke"], nothing logged,
    nothing sent. *)
Definition fresh : state := mkState "invoke" [] [].

Definition in_mode (m : string) : state := mkState m [] [].

End Sample.

(* ------------------------------------------------------------------------- *)
(** ** Vocabulary of the statements *)

(** Equality up to letter case, the way a caller would test it. *)
Definition eq_ignore_case (a b : string) : bool :=
  (PyStr.lower a =? PyStr.lower b).

(** A computation that leaves the call mode and the wire alone, and whose
    outcome is decided by the call mode alone: the log is written, never read. *)
Definition mode_only {A : Type} (m : M A) : Prop :=
  (forall st, method_type (snd (m st)) = method_type st
              /\ wire (snd (m st)) = wire st)
  /\ (forall st st', method_type st = method_type st' -> fst (m st) = fst (m st')).

(** The acceptable status codes of a call mode: the explicit list when one is
    given, else 202 for a mutating call and 200 for a read-only one. *)
Definition acceptable_set (mode : string) (codes : option (list Z)) : list Z :=
  match codes with
  | Some l => l
  | None => if mode =? "invoke" then [202%Z] else [200%Z]
  end.

(** The two failure markers the classifiers look for in a text. *)
Definition has_marker (text : string) : bool :=
  PyStr.contains "Description: " text
  || PyStr.contains "chaincode response" (PyStr.lower text).

(** The record has no usable [details], or the message selected from them is
    a text without a failure marker. *)
Definition details_clean (r : dict) : bool :=
  match Py.get r "details" with
  | VDict [] => true
  | VDict d =>
      match error_message_of d with
      | VStr text => negb (has_marker text)
      | _ => false
      end
  | _ => true
  end.

(** The alias is the one the roster gives to the signing identity [kid]. *)
Definition resolves_to (a kid : string) : Prop :=
  exists e, In (kid, e) ID_ROSTER /\ alias e = a.

(** No signing identity of the roster carries the alias. *)
Definition unresolved (a : string) : Prop :=
  forall kid e, In (kid, e) ID_ROSTER -> alias e <> a.

(** The request a read-only call puts on the wire. *)
Definition query_request (kid func : string) (args : list pyarg) : request :=
  mkRequest QUERY_URL
            (Some (PDict [("headers", headers kid);
                          ("func", PStr func);
                          ("args", PList (map str_arg args))]))
            "POST".

(** The record [_req] returns for a request, in a process that has already
    sent [n] requests. *)
Definition transport_record (json_loads : string -> result value)
           (network : nat -> request -> net_outcome) (n : nat) (rq : request)
  : result dict :=
  fst (_req json_loads network (url rq) (payload rq) (http_method rq)
            (mkState "invoke" [] (repeat rq n))).

(** [json.dumps] accepts the payload of the request. *)
Definition sendable (p : option pyobj) : bool :=
  match p with
  | Some body => serializable body
  | None => true
  end.

(** The body of a response is read unless its length is known to be zero. *)
Definition body_is_read (length : option Z) : bool :=
  match length with
  | None => true
  | Some n => (n >? 0)%Z
  end.

(** A transport failure: [e] is raised by [urlopen] itself, or while the body
    of the response is read and decoded. *)
Definition raised_in_transport (o : net_outcome) (e : exn) : Prop :=
  o = Raises e
  \/ exists code length, o = Response code length (Raise e) /\ body_is_read length = true.

(** An HTTP success: the peer answers with [code] and the text [body], the
    empty text standing for a response of length zero as well. *)
Definition responds (o : net_outcome) (code : Z) (body : string) : Prop :=
  (exists length, o = Response code length (Ok body) /\ body_is_read length = true)
  \/ (body = EmptyString
      /\ exists length content, o = Response code length content
                                /\ body_is_read length = false).

(** The text of the body of an HTTP error, once read: the empty text when the
    error has no body stream. *)
Definition error_body (fp : option (read_outcome exn)) (raw : string) : Prop :=
  (fp = None /\ raw = EmptyString) \/ fp = Some (ReadOk raw).

(** The error body is worth decoding: not empty, no [<html] in it, and an
    opening brace somewhere. *)
Definition looks_like_json (raw : string) : bool :=
  negb (raw =? "") && negb (PyStr.contains "<html" raw) && PyStr.contains "{" raw.

(** The keys of a dict are pairwise different. *)
Fixpoint distinct_keys (d : dict) : bool :=
  match d with
  | [] => true
  | (k, _) :: t => negb (existsb (fun kv => Py.key_eqb k (fst kv)) t) && distinct_keys t
  end.

(** A value [dict.update] can read as one key/value pair: a sequence of two
    items whose first item is hashable. *)
Definition pair_like (item : value) : bool :=
  match item with
  | VList [k; _] => Py.hashable k
  | VStr text => (String.length text =? 2)%nat
  | VDict [(k, _); _] => Py.hashable k
  | _ => false
  end.

(** A decoded document that is not an object and that [dict.update] still
    accepts: a sequence of pairs, the empty ones included. *)
Definition merges_as_pairs (doc : value) : bool :=
  match doc with
  | VList items => forallb pair_like items
  | VStr text => (text =? "")
  | _ => false
  end.

(* ------------------------------------------------------------------------- *)
(** ** Registration and enrollment of the signing identities
       (the same text in both scripts) *)

Definition ENABLE_ENROLLMENT : bool := true.

Definition KALEIDO_IDENTITY_SERVICE_HOSTNAME : string :=
  "u0n7pgi2z4-u0lbsjef4v-connect.us0-aws-ws.kaleido.io".
Definition IDENTITY_URL : string :=
  "https://" ++ KALEIDO_IDENTITY_SERVICE_HOSTNAME ++ "/identities".

(** [v.get(k, dflt)] on any value: only a dict has the method. *)
Definition get_method (v : value) (k : string) (dflt : value) : result value :=
  match v with
  | VDict d => Ok (Py.get_d d k dflt)
  | _ => Raise (AttributeError ("'" ++ Py.type_name v ++ "' object has no attribute 'get'"))
  end.

(** [a and b] on two tests, the second evaluated only when needed. *)
Definition andM (a b : M bool) : M bool :=
  x <- a ;; if x then b else ret false.

Section Identities.

Variable json_loads : string -> result value.
Variable network : nat -> request -> net_outcome.

(** [str(v)] of a decoded value. *)
Variable py_str : value -> string.

(** The form a decoded value takes inside a request body. *)
Variable to_wire : value -> pyobj.

(** The [GET] of an identity that both branches of
    [register_kaleido_identity] make once the gateway has reported the
    identity as known; [confirmed] is the text logged on success. *)
Definition confirm_identity (SECRETS : dict) (kid confirmed : string) : M (bool * dict) :=
  g <- _req json_loads network (IDENTITY_URL ++ "/" ++ kid) None "GET" ;;
  if Py.eq_int (Py.get g "status") 200 then
    log confirmed
        [VStr kid; VStr (if Py.truthy (Py.get g "enrollmentCert") then "yes" else "no")] ;;;
    ret (true, SECRETS)
  else
    log "WARNING: Kaleido identity {} reported as existing, but failed to GET details: {}"
        [VStr kid; VDict g] ;;;
    ret (false, SECRETS).

(** [register_kaleido_identity]: the global [SECRETS] is passed in and
    returned next to the verdict. *)
Definition register_kaleido_identity (SECRETS : dict) (kid : string) : M (bool * dict) :=
  if negb ENABLE_ENROLLMENT then
    log "Enrollment disabled - skipping Kaleido identity registration for: {}" [VStr kid] ;;;
    ret (true, SECRETS)
  else
    log "Attempting to register Kaleido identity: {}" [VStr kid] ;;;
    r <- _req json_loads network IDENTITY_URL
              (Some (PDict [("name", PStr kid); ("type", PStr "client")])) "POST" ;;
    if Py.truthy (Py.get r "secret") then
      log "Kaleido identity {} registered successfully, secret stored." [VStr kid] ;;;
      ret (true, Py.set (VStr kid) (Py.get r "secret") SECRETS)
    else
      let failed :=
        log "ERROR: Failed to register Kaleido identity {}. Response: {}"
            [VStr kid; VDict r] ;;;
        ret (false, SECRETS) in
      let second_test :=
        known <-
          orM (ret (Py.eq_int (Py.get r "status") 409))
              (error <- lift (get_method (Py.get_d r "details" (VDict [])) "error"
                                         (VStr EmptyString)) ;;
               ret (PyStr.contains "already exists" (PyStr.lower (py_str error)))) ;;
        if known then
          log "Kaleido identity {} likely already exists (409 or similar)." [VStr kid] ;;;
          confirm_identity SECRETS kid "Confirmed {} exists. Enrolled: {}"
        else failed in
      match Py.get r "details" with
      | VDict details =>
          if Py.eq_int (Py.get r "status") 500 then
            let error_detail := Py.get_d details "error" (VStr EmptyString) in
            already <- andM (lift (Py.in_ "Identity" error_detail))
                            (lift (Py.in_ "is already registered" error_detail)) ;;
            if already then
              log "Kaleido identity {} is already registered with Kaleido. Proceeding to check/enroll."
                  [VStr kid] ;;;
              confirm_identity SECRETS kid "Confirmed {} exists in Kaleido. Enrolled: {}"
            else failed
          else second_test
      | _ => second_test
      end.

(** [enroll_kaleido_identity], which only reads [SECRETS]. *)
Definition enroll_kaleido_identity (SECRETS : dict) (kid : string) : M bool :=
  if negb ENABLE_ENROLLMENT then
    log "Enrollment disabled - skipping Kaleido identity enrollment for: {}" [VStr kid] ;;;
    ret true
  else
    log "Attempting to enroll Kaleido identity: {}" [VStr kid] ;;;
    let secret := Py.get SECRETS kid in
    if negb (Py.truthy secret) then
      log "No new secret found for {} from registration attempt. Checking current enrollment status."
          [VStr kid] ;;;
      g <- _req json_loads network (IDENTITY_URL ++ "/" ++ kid) None "GET" ;;
      if Py.eq_int (Py.get g "status") 200 && Py.truthy (Py.get g "enrollmentCert") then
        log "Kaleido identity {} is already enrolled." [VStr kid] ;;;
        ret true
      else if Py.eq_int (Py.get g "status") 200 then
        log "Kaleido identity {} exists but is not enrolled, and no new secret available for enrollment attempt."
            [VStr kid] ;;;
        ret false
      else
        log "ERROR: Could not get details for {} to check enrollment status: {}"
            [VStr kid; VDict g] ;;;
        ret false
    else
      r <- _req json_loads network (IDENTITY_URL ++ "/" ++ kid ++ "/enroll")
                (Some (PDict [("secret", to_wire secret)])) "POST" ;;
      if Py.eq_int (Py.get r "status") 200 || Py.eq_int (Py.get r "status") 201 then
        log "Kaleido identity {} enrolled successfully with provided secret." [VStr kid] ;;;
        ret true
      else
        log "ERROR: Failed to enroll Kaleido identity {} with secret. Response: {}"
            [VStr kid; VDict r] ;;;
        ret false.

End Identities.

(* ------------------------------------------------------------------------- *)
(** ** Further vocabulary: requests, records and sample peers *)

(** The state once one more request has gone out. *)
Definition sent (st : state) (rq : request) : state :=
  mkState (method_type st) (log_lines st) (wire st ++ [rq]).

(** The request a mutating call puts on the wire, from the coerced
    arguments. *)
Definition invoke_request (kid func : string) (str_args : list pyobj) : request :=
  mkRequest CONNECT_URL
            (Some (PDict [("headers", headers kid);
                          ("func", PStr func);
                          ("args", PList str_args);
                          ("strongread", PBool true)]))
            "POST".

(** The three requests of the identity service. *)
Definition register_request (kid : string) : request :=
  mkRequest IDENTITY_URL (Some (PDict [("name", PStr kid); ("type", PStr "client")])) "POST".

Definition identity_request (kid : string) : request :=
  mkRequest (IDENTITY_URL ++ "/" ++ kid) None "GET".

Definition enroll_request (secret : pyobj) (kid : string) : request :=
  mkRequest (IDENTITY_URL ++ "/" ++ kid ++ "/enroll") (Some (PDict [("secret", secret)])) "POST".

(** One of the arguments is a [bytes] object. *)
Definition has_bytes (args : list pyarg) : bool :=
  existsb (fun a => match a with ArgBytes _ => true | _ => false end) args.

(** The details of the record give [invoke] nothing to scan, or a text. *)
Definition message_is_text (r : dict) : bool :=
  match Py.get r "details" with
  | VDict d =>
      if Py.has d "error" || Py.has d "message" then
        match error_message_of d with
        | VStr _ => true
        | _ => false
        end
      else true
  | _ => true
  end.

(** The scan of the details that [invoke] makes for its log line: it fails
    when the message it selects has no [lower]. *)
Definition invoke_scan (r : dict) : result unit :=
  match Py.get r "details" with
  | VDict d =>
      if Py.has d "error" || Py.has d "message" then
        match Py.lower (error_message_of d) with
        | Ok _ => Ok tt
        | Raise e => Raise e
        end
      else Ok tt
  | _ => Ok tt
  end.

(** What a call returns once its log line is written: the record, unless the
    scan failed. *)
Definition after_scan (r : dict) : result dict :=
  match invoke_scan r with
  | Ok _ => Ok r
  | Raise e => Raise e
  end.

(** What [query] makes of the record of [_req]: the decoded [result] when the
    status is 200 and the decoding produces a value, the record otherwise. *)
Definition unwrapped (json_loads : string -> result value) (r : dict) : value :=
  if Py.eq_int (Py.get r "status") 200 then
    match Py.get r "result" with
    | VNone => VDict r
    | VStr text =>
        if PyStr.strip text =? "" then VDict r
        else match json_loads text with
             | Ok VNone => VDict r
             | Ok doc => doc
             | Raise _ => VStr text
             end
    | other => other
    end
  else VDict r.

(** The details of the record give [ok] nothing to scan, or a text. *)
Definition scan_is_safe (r : dict) : bool :=
  match Py.get r "details" with
  | VDict d =>
      match error_message_of d with
      | VStr _ => true
      | _ => false
      end
  | _ => true
  end.

Module Runs.

(** [str()] on the values the runs below print: texts, [None], booleans and
    integers. *)
Definition str (v : value) : string :=
  match v with
  | VStr s => s
  | VNone => "None"
  | VBool true => "True"
  | VBool false => "False"
  | VInt z => PyStr.of_Z z
  | _ => EmptyString
  end.

(** The request-body form of the values the runs below send: texts,
    booleans and lists of them. *)
Fixpoint wire_form (v : value) : pyobj :=
  match v with
  | VStr s => PStr s
  | VBool b => PBool b
  | VList l => PList (map wire_form l)
  | _ => PList []
  end.

(** [{"secret": "s3cr3t"}], [{"error": "Identity farmer_alice_tester is
    already registered"}] and [{"enrollmentCert": "CERT"}]. *)
Definition body_secret : string :=
  "{" ++ Sample.dq ++ "secret" ++ Sample.dq ++ ": " ++ Sample.dq ++ "s3cr3t" ++ Sample.dq ++ "}".
Definition body_already : string :=
  "{" ++ Sample.dq ++ "error" ++ Sample.dq ++ ": " ++ Sample.dq
      ++ "Identity farmer_alice_tester is already registered" ++ Sample.dq ++ "}".
Definition body_cert : string :=
  "{" ++ Sample.dq ++ "enrollmentCert" ++ Sample.dq ++ ": " ++ Sample.dq ++ "CERT"
      ++ Sample.dq ++ "}".

(** [[{"error": "no"}]], an error body that is a JSON array, and
    [{"details": {"error": 7}}]. *)
Definition body_array : string :=
  "[{" ++ Sample.dq ++ "error" ++ Sample.dq ++ ": " ++ Sample.dq ++ "no" ++ Sample.dq ++ "}]".
Definition body_number_detail : string :=
  "{" ++ Sample.dq ++ "details" ++ Sample.dq ++ ": {" ++ Sample.dq ++ "error" ++ Sample.dq
      ++ ": 7}}".

(** [{"result": "<not json>"}], [{"result": {"id": "SHIP1"}}] and
    [{"result": "null"}]. *)
Definition body_note : string :=
  "{" ++ Sample.dq ++ "result" ++ Sample.dq ++ ": " ++ Sample.dq ++ "<not json>"
      ++ Sample.dq ++ "}".
Definition body_predecoded : string :=
  "{" ++ Sample.dq ++ "result" ++ Sample.dq ++ ": {" ++ Sample.dq ++ "id" ++ Sample.dq
      ++ ": " ++ Sample.dq ++ "SHIP1" ++ Sample.dq ++ "}}".
Definition body_null_text : string :=
  "{" ++ Sample.dq ++ "result" ++ Sample.dq ++ ": " ++ Sample.dq ++ "null" ++ Sample.dq ++ "}".

(** [{"n": 11...1}] with an integer literal of 4301 digits, one over the
    limit of [int] on a text. *)
Fixpoint ones (n : nat) : string :=
  match n with
  | O => EmptyString
  | S k => String "1" (ones k)
  end.
Definition body_long_integer : string :=
  "{" ++ Sample.dq ++ "n" ++ Sample.dq ++ ": " ++ ones 4301 ++ "}".
Definition long_integer_refused : exn :=
  ValueError "Exceeds the limit (4300 digits) for integer string conversion: value has 4301 digits; use sys.set_int_max_str_digits() to increase the limit".

(** A decoder that agrees with [json.loads] on these documents and on the
    ones of [Sample.loads]. *)
Definition loads (s : string) : result value :=
  if s =? body_long_integer then Raise long_integer_refused else
  if s =? body_note then Ok (VDict [(VStr "result", VStr "<not json>")])
  else if s =? body_predecoded then
    Ok (VDict [(VStr "result", VDict [(VStr "id", VStr "SHIP1")])])
  else if s =? body_null_text then Ok (VDict [(VStr "result", VStr "null")])
  else if s =? body_secret then Ok (VDict [(VStr "secret", VStr "s3cr3t")])
  else if s =? body_already then
    Ok (VDict [(VStr "error", VStr "Identity farmer_alice_tester is already registered")])
  else if s =? body_cert then Ok (VDict [(VStr "enrollmentCert", VStr "CERT")])
  else if s =? body_array then Ok (VList [VDict [(VStr "error", VStr "no")]])
  else if s =? body_number_detail then
    Ok (VDict [(VStr "details", VDict [(VStr "error", VInt 7)])])
  else Sample.loads s.

(** A peer that answers the requests of a run one after the other, and
    refuses the connection once the script is exhausted. *)
Definition script (answers : list net_outcome) : nat -> request -> net_outcome :=
  fun n _ => nth n answers (Raises (URLError "[Errno 111] Connection refused")).

Definition http_ok (code : Z) (body : string) : net_outcome :=
  Response code None (Ok body).

Definition http_error (code : Z) (reason body : string) : net_outcome :=
  Raises (HTTPError code reason (Some (ReadOk body))).

End Runs.

(* ------------------------------------------------------------------------- *)
(** ** Runs of the embedding on concrete inputs *)

Example upper_mixed_case : PyStr.upper "vAlId-7" = "VALID-7".
Proof. reflexivity. Qed.

Example strip_both_ends :
  PyStr.strip (String (ascii_of_nat 9) " a b  ") = "a b".
Proof. reflexivity. Qed.

Example contains_inside : PyStr.contains "<html" "<!doctype><html lang=en>" = true.
Proof. reflexivity. Qed.

Example http_code_text : PyStr.of_Z 404 = "404".
Proof. reflexivity. Qed.

Example update_with_number :
  Py.update [(VStr "status", VInt 200)] (VInt 7)
  = Raise (TypeError "'int' object is not iterable").
Proof. reflexivity. Qed.

Example update_with_text :
  Py.update [(VStr "status", VInt 200)] (VStr "ok")
  = Raise (ValueError "dictionary update sequence element #0 has length 1; 2 is required").
Proof. reflexivity. Qed.

Example update_keeps_slot :
  Py.update [(VStr "status", VInt 200); (VStr "id", VInt 1)]
            (VDict [(VStr "status", VStr "VALID"); (VStr "receipt", VStr "r1")])
  = Ok [(VStr "status", VStr "VALID"); (VStr "id", VInt 1); (VStr "receipt", VStr "r1")].
Proof. reflexivity. Qed.

(** A committed transaction: the body brings the status VALID, [invoke] returns
    the merged record after one request, and [ok] accepts it. *)
Example invoke_committed :
  let run := Test.invoke Sample.loads (Sample.answers 200 Sample.body_valid)
                         "AliceAcres" "CreateShipment" [ArgStr "SHIP1"; ArgObj "3"]
                         Sample.fresh in
  fst run = Ok [(VStr "status", VStr "VALID")]
  /\ method_type (snd run) = "invoke"
  /\ map url (wire (snd run)) = [CONNECT_URL]
  /\ fst (Test.ok [(VStr "status", VStr "VALID")] None (snd run)) = Ok true.
Proof. repeat split; vm_compute; reflexivity. Qed.

(** A read-only call whose [result] is the JSON text of a one-element list
    returns the decoded list. *)
Example query_decodes_list :
  fst (Gemtest.query Sample.loads (Sample.answers 200 Sample.body_shipments)
                     "EveMart" "GetAllShipments" [] Sample.fresh)
  = Ok (VList [VDict [(VStr "id", VStr "SHIP1"); (VStr "status", VStr "CREATED")]]).
Proof. vm_compute. reflexivity. Qed.

(** A refused connection during a query: the record of [_req] comes back
    whole and the classifier rejects it. *)
Example query_connection_refused :
  let run := Test.query Sample.loads
                        (Sample.always (Raises (URLError "[Errno 111] Connection refused")))
                        "EveMart" "GetAllShipments" [] Sample.fresh in
  fst run = Ok (VDict [(VStr "err", VStr "<urlopen error [Errno 111] Connection refused>");
                       (VStr "status", VInt 500)])
  /\ fst (Test.ok [(VStr "err", VStr "<urlopen error [Errno 111] Connection refused>");
                   (VStr "status", VInt 500)] None (snd run)) = Ok false.
Proof. split; vm_compute; reflexivity. Qed.

(** In [gemtest.py] a [bytes] argument reaches [json.dumps], which raises
    before anything is sent. *)
Example invoke_bytes_argument :
  let run := Gemtest.invoke Sample.loads (Sample.answers 202 EmptyString)
                            "AliceAcres" "CreateShipment" [ArgBytes "b'x'"]
                            Sample.fresh in
  fst run = Raise (TypeError "Object of type bytes is not JSON serializable")
  /\ wire (snd run) = [].
Proof. split; vm_compute; reflexivity. Qed.

(** A details member that is not a text makes the scan of [ok] raise. *)
Example ok_raises_on_number :
  fst (Test.ok [(VStr "status", VInt 500);
                (VStr "details", VDict [(VStr "error", VInt 7)])]
               None (Sample.in_mode "invoke"))
  = Raise (TypeError "argument of type 'int' is not iterable").
Proof. vm_compute. reflexivity. Qed.

(* ------------------------------------------------------------------------- *)
(** ** Facts about strings *)

Section StringFacts.

Lemma upper_lower_ascii (c : ascii) :
  PyStr.upper_ascii (PyStr.lower_ascii c) = PyStr.upper_ascii c.
Proof.
  destruct c as [b0 b1 b2 b3 b4 b5 b6 b7].
  destruct b0, b1, b2, b3, b4, b5, b6, b7; reflexivity.
Qed.

Lemma upper_lower (s : string) : PyStr.upper (PyStr.lower s) = PyStr.upper s.
Proof.
  induction s as [|c t IH]; simpl; [reflexivity|].
  now rewrite upper_lower_ascii, IH.
Qed.

Lemma eq_ignore_case_upper (a b : string) :
  eq_ignore_case a b = true -> PyStr.upper a = PyStr.upper b.
Proof.
  unfold eq_ignore_case. intros H. apply String.eqb_eq in H.
  rewrite <- (upper_lower a), <- (upper_lower b). now rewrite H.
Qed.

Lemma is_VALID_ignore_case (s : string) :
  eq_ignore_case s "VALID" = true -> is_VALID (VStr s) = true.
Proof.
  intros H. apply eq_ignore_case_upper in H. simpl. rewrite H. reflexivity.
Qed.







End StringFacts.

(* ------------------------------------------------------------------------- *)
(** ** The outcome classifier *)

Section ModeOnly.

Lemma mode_only_ret {A : Type} (a : A) : mode_only (ret a).
Proof. split; intros; simpl; auto. Qed.

Lemma mode_only_lift {A : Type} (x : result A) : mode_only (lift x).
Proof. split; intros; simpl; auto. Qed.

Lemma mode_only_log (text : string) (vals : list value) : mode_only (log text vals).
Proof. split; intros; simpl; auto. Qed.

Lemma mode_only_get_method_type : mode_only get_method_type.
Proof. split; intros; simpl; auto. now f_equal. Qed.

Lemma mode_only_bind {A B : Type} (m : M A) (k : A -> M B) :
  mode_only m -> (forall a, mode_only (k a)) -> mode_only (bind m k).
Proof.
  intros [Hm1 Hm2] Hk. split.
  - intros st. unfold bind. specialize (Hm1 st).
    destruct (m st) as [[a|e] st1]; simpl in *; [|exact Hm1].
    destruct (Hk a) as [Hk1 _]. specialize (Hk1 st1).
    destruct Hm1 as [E1 E2], Hk1 as [E3 E4]. split; congruence.
  - intros st st' E. unfold bind.
    pose proof (Hm2 st st' E) as F.
    pose proof (Hm1 st) as [G1 _]. pose proof (Hm1 st') as [G2 _].
    destruct (m st) as [[a|e] st1], (m st') as [[a'|e'] st1']; simpl in *;
      try discriminate; [|now injection F as ->].
    injection F as ->. destruct (Hk a') as [_ Hk2]. apply Hk2. congruence.
Qed.

Lemma mode_only_when (c : bool) (body : M unit) :
  mode_only body -> mode_only (when c body).
Proof. intros H. destruct c; simpl; [exact H | apply mode_only_ret]. Qed.

Lemma mode_only_in_lower (x : string) (text : value) : mode_only (in_lower x text).
Proof.
  unfold in_lower. apply mode_only_bind; [apply mode_only_lift|].
  intros l. apply mode_only_ret.
Qed.

Lemma mode_only_orM (a b : M bool) : mode_only a -> mode_only b -> mode_only (orM a b).
Proof.
  intros Ha Hb. unfold orM. apply mode_only_bind; [exact Ha|].
  intros [|]; [apply mode_only_ret | exact Hb].
Qed.

(** Decompose a computation built from the monad's operations. *)
Ltac mode_only_step :=
  first
    [ apply mode_only_ret
    | apply mode_only_lift
    | apply mode_only_log
    | apply mode_only_get_method_type
    | apply mode_only_in_lower
    | apply mode_only_orM
    | apply mode_only_when
    | apply mode_only_bind; [|intros ?]
    | match goal with
      | |- mode_only (if ?c then _ else _) => destruct c
      | |- mode_only (match ?x with _ => _ end) => destruct x
      end ].

Lemma Test_ok_mode_only (r : dict) (codes : option (list Z)) :
  mode_only (Test.ok r codes).
Proof.
  unfold Test.ok, Test.ok_fail, Test.ok_query_pass, Test.chaincode_marker.
  cbv zeta. repeat mode_only_step.
Qed.

Lemma Gemtest_ok_mode_only (r : dict) (codes : option (list Z)) :
  mode_only (Gemtest.ok r codes).
Proof.
  unfold Gemtest.ok, Gemtest.ok_fail, Gemtest.chaincode_marker.
  cbv zeta. repeat mode_only_step.
Qed.

End ModeOnly.

(** C1.  In invoke mode a record whose status is a string equal to VALID up
    to letter case is classified PASS by both classifiers, whatever list of
    expected status codes is passed (or none). *)
Theorem ok_VALID_passes (r : dict) (s : string) (codes : option (list Z)) (st : state) :
  method_type st = "invoke" ->
  Py.get r "status" = VStr s ->
  eq_ignore_case s "VALID" = true ->
  fst (Test.ok r codes st) = Ok true /\ fst (Gemtest.ok r codes st) = Ok true.
Proof.
  intros Hm Hs Hv. apply is_VALID_ignore_case in Hv.
  unfold Test.ok, Gemtest.ok, bind, get_method_type.
  rewrite Hm, Hs, Hv. split; reflexivity.
Qed.

Lemma ok_VALID_passes_witness :
  fst (Test.ok [(VStr "status", VStr "vAlId")] (Some [404%Z]) Sample.fresh) = Ok true
  /\ fst (Gemtest.ok [(VStr "status", VStr "vAlId")] (Some [404%Z]) Sample.fresh) = Ok true.
Proof.
  apply (ok_VALID_passes [(VStr "status", VStr "vAlId")] "vAlId" (Some [404%Z]) Sample.fresh);
    reflexivity.
Defined.

(** C9.  Classifying the same record twice in a row gives the same outcome,
    in both scripts: the first call changes neither the call mode nor the
    wire, only the log, and the outcome does not depend on the log. *)
Theorem ok_twice_same (r : dict) (codes : option (list Z)) (st : state) :
  (fst (Test.ok r codes (snd (Test.ok r codes st))) = fst (Test.ok r codes st)
   /\ method_type (snd (Test.ok r codes st)) = method_type st)
  /\ (fst (Gemtest.ok r codes (snd (Gemtest.ok r codes st))) = fst (Gemtest.ok r codes st)
      /\ method_type (snd (Gemtest.ok r codes st)) = method_type st)
  /\ (forall lg lg' w w',
        fst (Test.ok r codes (mkState (method_type st) lg w))
        = fst (Test.ok r codes (mkState (method_type st) lg' w'))
        /\ fst (Gemtest.ok r codes (mkState (method_type st) lg w))
           = fst (Gemtest.ok r codes (mkState (method_type st) lg' w'))).
Proof.
  destruct (Test_ok_mode_only r codes) as [T1 T2].
  destruct (Gemtest_ok_mode_only r codes) as [G1 G2].
  repeat split.
  - apply T2. apply T1.
  - apply T1.
  - apply G2. apply G1.
  - apply G1.
  - apply T2. reflexivity.
  - apply G2. reflexivity.
Qed.

(** C2 fails as stated: a 202 record whose details carry the marker is still
    classified PASS in invoke mode, by both classifiers; and a 202 record
    without details is classified FAIL when the caller's list of expected
    codes leaves 202 out. *)
Lemma ok_202_with_marker_passes :
  let r := [(VStr "status", VInt 202);
            (VStr "details", VDict [(VStr "error", VStr "Description: boom")])] in
  fst (Test.ok r None (Sample.in_mode "invoke")) = Ok true
  /\ fst (Gemtest.ok r None (Sample.in_mode "invoke")) = Ok true
  /\ fst (Test.ok [(VStr "status", VInt 202)] (Some [200%Z]) (Sample.in_mode "invoke"))
     = Ok false
  /\ fst (Gemtest.ok [(VStr "status", VInt 202)] (Some [200%Z]) (Sample.in_mode "invoke"))
     = Ok false.
Proof. repeat split; reflexivity. Qed.

(** C2, amended.  In invoke mode a record with integer status 202 is
    classified PASS by both classifiers whenever 202 is acceptable (the default,
    or an explicit list that holds it), whatever the details hold. *)
Theorem ok_invoke_202_passes (r : dict) (codes : option (list Z)) (st : state) :
  method_type st = "invoke" ->
  Py.get r "status" = VInt 202 ->
  In 202%Z (acceptable_set "invoke" codes) ->
  fst (Test.ok r codes st) = Ok true /\ fst (Gemtest.ok r codes st) = Ok true.
Proof.
  intros Hm Hs Hin.
  assert (Hex : existsb (Z.eqb 202) (acceptable_set "invoke" codes) = true).
  { apply existsb_exists. exists 202%Z. split; [exact Hin | apply Z.eqb_refl]. }
  unfold Test.ok, Gemtest.ok, bind, get_method_type.
  rewrite Hm, Hs. cbn [is_VALID Py.as_int andb String.eqb Ascii.eqb Bool.eqb].
  destruct codes as [l|]; cbn in Hex; [rewrite Hex|]; split; reflexivity.
Qed.

Lemma ok_invoke_202_passes_witness :
  let r := [(VStr "status", VInt 202);
            (VStr "details", VDict [(VStr "message", VStr "Description: boom")])] in
  fst (Test.ok r (Some [200%Z; 202%Z]) Sample.fresh) = Ok true
  /\ fst (Gemtest.ok r (Some [200%Z; 202%Z]) Sample.fresh) = Ok true.
Proof.
  apply (ok_invoke_202_passes
           [(VStr "status", VInt 202);
            (VStr "details", VDict [(VStr "message", VStr "Description: boom")])]
           (Some [200%Z; 202%Z]) Sample.fresh).
  - reflexivity.
  - reflexivity.
  - simpl. right. left. reflexivity.
Defined.

Lemma marker_scan (text : string) (st : state) :
  orM (lift (Py.in_ "Description: " (VStr text)))
      (in_lower "chaincode response" (VStr text)) st
  = (Ok (has_marker text), st).
Proof.
  unfold orM, in_lower, lift, bind, ret, has_marker. cbn [Py.in_ Py.lower].
  destruct (PyStr.contains "Description: " text); reflexivity.
Qed.

Lemma acceptable_existsb (code : Z) (mode : string) (codes : option (list Z)) :
  In code (acceptable_set mode codes) ->
  existsb (Z.eqb code) (acceptable_set mode codes) = true.
Proof.
  intros H. apply existsb_exists. exists code. split; [exact H | apply Z.eqb_refl].
Qed.

(** C3 fails as stated, on four query-mode records of status 200: the marker
    [transaction returned with failure] is not looked for by either classifier;
    [test.py] does not read [result]; [gemtest.py] does not read [details] on
    this path; and [test.py] reads [message] only when [error] is empty. *)
Lemma ok_query_200_markers_missed :
  let failure := [(VStr "status", VInt 200);
                  (VStr "details",
                   VDict [(VStr "error", VStr "transaction returned with failure")])] in
  let in_result := [(VStr "status", VInt 200); (VStr "result", VStr "Description: boom")] in
  let in_details := [(VStr "status", VInt 200);
                     (VStr "details", VDict [(VStr "error", VStr "Description: boom")])] in
  let in_message := [(VStr "status", VInt 200);
                     (VStr "details", VDict [(VStr "error", VStr "denied");
                                             (VStr "message", VStr "Description: boom")])] in
  fst (Test.ok failure None (Sample.in_mode "query")) = Ok true
  /\ fst (Gemtest.ok failure None (Sample.in_mode "query")) = Ok true
  /\ fst (Test.ok in_result None (Sample.in_mode "query")) = Ok true
  /\ fst (Gemtest.ok in_details None (Sample.in_mode "query")) = Ok true
  /\ fst (Test.ok in_message None (Sample.in_mode "query")) = Ok true.
Proof. repeat split; vm_compute; reflexivity. Qed.

(** C3, amended.  For a query-mode record whose status is the integer 200 and
    acceptable, and a text that contains [Description: ] or, in any letter
    case, [chaincode response]: the classifier of [test.py] answers FAIL when
    that text is the message selected from the details (the [error] member when
    it is truthy, else the [message] member), and the classifier of
    [gemtest.py] answers FAIL when that text is the [result] member. *)
Theorem ok_query_200_marker_fails
        (r : dict) (codes : option (list Z)) (st : state) (text : string) :
  method_type st = "query" ->
  Py.get r "status" = VInt 200 ->
  In 200%Z (acceptable_set "query" codes) ->
  has_marker text = true ->
  ((exists d, Py.get r "details" = VDict d /\ error_message_of d = VStr text) ->
   fst (Test.ok r codes st) = Ok false)
  /\ (Py.get r "result" = VStr text -> fst (Gemtest.ok r codes st) = Ok false).
Proof.
  intros Hm Hs Hin Hmark. apply acceptable_existsb in Hin.
  split.
  - intros [d [Hd He]].
    assert (Hne : Py.truthy (VDict d) = true).
    { destruct d; [|reflexivity]. cbv in He. injection He as <-. discriminate Hmark. }
    unfold Test.ok, bind, get_method_type. rewrite Hm, Hs, Hd, Hne.
    cbn [is_VALID Py.as_int andb String.eqb Ascii.eqb Bool.eqb].
    destruct codes as [l|]; cbn in Hin; [rewrite Hin|];
      cbn [existsb Z.eqb Pos.eqb orb andb];
      unfold Test.chaincode_marker; rewrite He, marker_scan, Hmark; reflexivity.
  - intros Hr.
    unfold Gemtest.ok, bind, get_method_type. rewrite Hm, Hs, Hr.
    cbn [is_VALID Py.as_int andb String.eqb Ascii.eqb Bool.eqb].
    assert (Hres : Gemtest.result_has_marker (VStr text) = true) by exact Hmark.
    rewrite Hres.
    destruct codes as [l|]; cbn in Hin; [rewrite Hin|];
      cbn [existsb Z.eqb Pos.eqb orb andb];
      destruct (Py.truthy (Py.get r "err")); reflexivity.
Qed.

Lemma ok_query_200_marker_fails_witness :
  fst (Test.ok [(VStr "status", VInt 200);
                (VStr "details", VDict [(VStr "message", VStr "Chaincode Response: no")])]
               None (Sample.in_mode "query")) = Ok false
  /\ fst (Gemtest.ok [(VStr "status", VInt 200);
                      (VStr "result", VStr "Chaincode Response: no")]
                     None (Sample.in_mode "query")) = Ok false.
Proof.
  split.
  - apply (ok_query_200_marker_fails
             [(VStr "status", VInt 200);
              (VStr "details", VDict [(VStr "message", VStr "Chaincode Response: no")])]
             None (Sample.in_mode "query") "Chaincode Response: no");
      try reflexivity.
    + simpl. left. reflexivity.
    + exists [(VStr "message", VStr "Chaincode Response: no")]. split; reflexivity.
  - apply (ok_query_200_marker_fails
             [(VStr "status", VInt 200); (VStr "result", VStr "Chaincode Response: no")]
             None (Sample.in_mode "query") "Chaincode Response: no");
      try reflexivity.
    simpl. left. reflexivity.
Defined.

(* ------------------------------------------------------------------------- *)
(** ** The alias lookup and the wrappers *)

Lemma lookup_resolved (w a kid : string) (st : state) :
  resolves_to a kid ->
  roster_lookup w a st = (Ok (Some kid), st) /\ (kid =? "") = false.
Proof.
  intros [e [Hin Ha]]. unfold ID_ROSTER in Hin. simpl in Hin.
  repeat (destruct Hin as [Hin|Hin];
          [injection Hin as <- <-; subst a; split; reflexivity|]).
  contradiction.
Qed.

Lemma lookup_unresolved (w a : string) (st : state) :
  unresolved a ->
  roster_lookup w a st
  = (Ok None,
     mkState (method_type st) (log_lines st ++ [LogLine w [VStr a]]) (wire st)).
Proof.
  intros Hun. unfold roster_lookup.
  destruct (find (fun kv => alias (snd kv) =? a) ID_ROSTER) as [[kid e]|] eqn:F.
  - apply find_some in F as [Hin Heq]. simpl in Heq.
    apply String.eqb_eq in Heq. exfalso. exact (Hun kid e Hin Heq).
  - reflexivity.
Qed.

(** C8.  A call whose signer alias is carried by no identity of the roster
    returns the synthetic record of status 0 with the message naming the alias,
    from both wrappers of both scripts, and puts nothing on the wire. *)
Theorem unresolved_alias_fails_fast
        (json_loads : string -> result value) (network : nat -> request -> net_outcome)
        (a func : string) (args : list pyarg) (st : state) :
  unresolved a ->
  let record := [(VStr "err", VStr ("Signer alias " ++ a ++ " not found in ID_ROSTER"));
                 (VStr "status", VInt 0)] in
  (fst (Test.invoke json_loads network a func args st) = Ok record
   /\ wire (snd (Test.invoke json_loads network a func args st)) = wire st)
  /\ (fst (Test.query json_loads network a func args st) = Ok (VDict record)
      /\ wire (snd (Test.query json_loads network a func args st)) = wire st)
  /\ (fst (Gemtest.invoke json_loads network a func args st) = Ok record
      /\ wire (snd (Gemtest.invoke json_loads network a func args st)) = wire st)
  /\ (fst (Gemtest.query json_loads network a func args st) = Ok (VDict record)
      /\ wire (snd (Gemtest.query json_loads network a func args st)) = wire st).
Proof.
  intros Hun record.
  unfold Test.invoke, Test.query, Gemtest.invoke, Gemtest.query, bind, set_method_type.
  unfold Test.get_kaleido_kid_for_alias, Gemtest.get_kaleido_kid_for_alias.
  rewrite !(lookup_unresolved _ a _ Hun).
  repeat split; reflexivity.
Qed.

Lemma unresolved_alias_fails_fast_witness :
  let record := [(VStr "err", VStr "Signer alias ghost_alias not found in ID_ROSTER");
                 (VStr "status", VInt 0)] in
  let peer := Sample.answers 202 Sample.body_valid in
  (fst (Test.invoke Sample.loads peer "ghost_alias" "CreateShipment" [] Sample.fresh)
   = Ok record
   /\ wire (snd (Test.invoke Sample.loads peer "ghost_alias" "CreateShipment" []
                             Sample.fresh)) = [])
  /\ (fst (Test.query Sample.loads peer "ghost_alias" "CreateShipment" [] Sample.fresh)
      = Ok (VDict record)
      /\ wire (snd (Test.query Sample.loads peer "ghost_alias" "CreateShipment" []
                               Sample.fresh)) = [])
  /\ (fst (Gemtest.invoke Sample.loads peer "ghost_alias" "CreateShipment" [] Sample.fresh)
      = Ok record
      /\ wire (snd (Gemtest.invoke Sample.loads peer "ghost_alias" "CreateShipment" []
                                   Sample.fresh)) = [])
  /\ (fst (Gemtest.query Sample.loads peer "ghost_alias" "CreateShipment" [] Sample.fresh)
      = Ok (VDict record)
      /\ wire (snd (Gemtest.query Sample.loads peer "ghost_alias" "CreateShipment" []
                                  Sample.fresh)) = []).
Proof.
  apply (unresolved_alias_fails_fast Sample.loads (Sample.answers 202 Sample.body_valid)
           "ghost_alias" "CreateShipment" [] Sample.fresh).
  intros kid e Hin. unfold ID_ROSTER in Hin. simpl in Hin.
  repeat (destruct Hin as [Hin|Hin]; [injection Hin as <- <-; discriminate|]).
  contradiction.
Defined.

Section TransportFacts.

Variable json_loads : string -> result value.
Variable network : nat -> request -> net_outcome.



End TransportFacts.

Lemma Test_ok_query_pass_true (r : dict) (st : state) :
  fst (Test.ok_query_pass r st) = Ok true
  /\ method_type (snd (Test.ok_query_pass r st)) = method_type st.
Proof.
  unfold Test.ok_query_pass, bind, when.
  match goal with |- context [if ?c then _ else _] => destruct c end;
    split; reflexivity.
Qed.

(** A query-mode record of status 200 with clean details passes [test.py]. *)
Lemma Test_ok_query_200_clean (r : dict) (codes : option (list Z)) (st : state) :
  method_type st = "query" ->
  Py.get r "status" = VInt 200 ->
  In 200%Z (acceptable_set "query" codes) ->
  details_clean r = true ->
  fst (Test.ok r codes st) = Ok true.
Proof.
  intros Hm Hs Hin Hc. apply acceptable_existsb in Hin.
  unfold Test.ok, bind, get_method_type. rewrite Hm, Hs.
  cbn [is_VALID Py.as_int andb String.eqb Ascii.eqb Bool.eqb].
  assert (Hex : existsb (Z.eqb 200)
                        match codes with Some l => l | None => [200%Z] end = true).
  { destruct codes; exact Hin. }
  rewrite Hex. cbn [Z.eqb Pos.eqb andb].
  unfold details_clean in Hc.
  destruct (Py.get r "details") as [| | | | |l|d]; try apply Test_ok_query_pass_true.
  destruct d as [|kv d]; [apply Test_ok_query_pass_true|].
  cbn [Py.truthy].
  destruct (error_message_of (kv :: d)) as [| | | |text| |]; try discriminate Hc.
  unfold Test.chaincode_marker. rewrite marker_scan.
  apply negb_true_iff in Hc. rewrite Hc. apply Test_ok_query_pass_true.
Qed.

(** A query-mode record of status 200 without [err] and without a marker in
    [result] passes [gemtest.py]. *)
Lemma Gemtest_ok_query_200_clean (r : dict) (codes : option (list Z)) (st : state) :
  method_type st = "query" ->
  Py.get r "status" = VInt 200 ->
  In 200%Z (acceptable_set "query" codes) ->
  Py.truthy (Py.get r "err") = false ->
  Gemtest.result_has_marker (Py.get r "result") = false ->
  fst (Gemtest.ok r codes st) = Ok true.
Proof.
  intros Hm Hs Hin He Hr. apply acceptable_existsb in Hin.
  unfold Gemtest.ok, bind, get_method_type. rewrite Hm, Hs, He, Hr.
  cbn [is_VALID Py.as_int andb String.eqb Ascii.eqb Bool.eqb].
  destruct codes as [l|]; cbn in Hin; [rewrite Hin|]; reflexivity.
Qed.




(* ------------------------------------------------------------------------- *)
(** ** Facts about dicts *)

Section DictFacts.

Lemma key_eqb_str_r (k : value) (s : string) :
  Py.key_eqb k (VStr s) = true <-> k = VStr s.
Proof.
  split.
  - destruct k; simpl; try discriminate. intros H. apply String.eqb_eq in H. now subst.
  - intros ->. simpl. apply String.eqb_refl.
Qed.

Lemma key_eqb_str_l (k : value) (s : string) :
  Py.key_eqb (VStr s) k = true <-> k = VStr s.
Proof.
  split.
  - destruct k; simpl; try discriminate. intros H. apply String.eqb_eq in H. now subst.
  - intros ->. simpl. apply String.eqb_refl.
Qed.

(** Two keys of the same slot are both, or neither, the string [s]. *)
Lemma key_eqb_same_slot (k' k : value) (s : string) :
  Py.key_eqb k' k = true -> Py.key_eqb k' (VStr s) = Py.key_eqb k (VStr s).
Proof.
  intros H. destruct (Py.key_eqb k (VStr s)) eqn:E.
  - apply key_eqb_str_r in E. subst k. exact H.
  - destruct (Py.key_eqb k' (VStr s)) eqn:E'; [|reflexivity].
    apply key_eqb_str_r in E'. subst k'.
    apply key_eqb_str_l in H. subst k. simpl in E. rewrite String.eqb_refl in E.
    discriminate.
Qed.

(** Reading a string key after a store. *)
Lemma lookup_set (s : string) (k v : value) (d : dict) :
  Py.lookup (VStr s) (Py.set k v d)
  = if Py.key_eqb k (VStr s) then Some v else Py.lookup (VStr s) d.
Proof.
  induction d as [|[k' v'] t IH]; simpl; [reflexivity|].
  destruct (Py.key_eqb k' k) eqn:E; simpl.
  - rewrite (key_eqb_same_slot k' k s E).
    destruct (Py.key_eqb k (VStr s)); reflexivity.
  - rewrite IH.
    destruct (Py.key_eqb k' (VStr s)) eqn:E1; [|reflexivity].
    destruct (Py.key_eqb k (VStr s)) eqn:E2; [|reflexivity].
    apply key_eqb_str_r in E1, E2. subst. simpl in E.
    rewrite String.eqb_refl in E. discriminate.
Qed.

Lemma lookup_merge_absent (s : string) (o d : dict) :
  Py.lookup (VStr s) o = None ->
  Py.lookup (VStr s) (Py.merge d o) = Py.lookup (VStr s) d.
Proof.
  unfold Py.merge. revert d.
  induction o as [|[k v] t IH]; intros d H; simpl in *; [reflexivity|].
  destruct (Py.key_eqb k (VStr s)) eqn:E; [discriminate|].
  rewrite (IH _ H), lookup_set, E. reflexivity.
Qed.

Lemma lookup_merge_present (s : string) (v : value) (o d : dict) :
  distinct_keys o = true ->
  Py.lookup (VStr s) o = Some v ->
  Py.lookup (VStr s) (Py.merge d o) = Some v.
Proof.
  unfold Py.merge. revert d.
  induction o as [|[k x] t IH]; intros d Hd H; simpl in *; [discriminate|].
  apply andb_true_iff in Hd as [Hk Ht].
  destruct (Py.key_eqb k (VStr s)) eqn:E.
  - injection H as ->. apply key_eqb_str_r in E. subst k.
    assert (Hnone : Py.lookup (VStr s) t = None).
    { apply negb_true_iff in Hk. clear -Hk.
      induction t as [|[k' v'] t IH]; simpl in *; [reflexivity|].
      apply orb_false_iff in Hk as [H1 H2].
      destruct (Py.key_eqb k' (VStr s)) eqn:E; [|now apply IH].
      apply key_eqb_str_r in E. subst k'. simpl in H1.
      rewrite String.eqb_refl in H1. discriminate. }
    pose proof (lookup_merge_absent s t (Py.set (VStr s) v d) Hnone) as L.
    unfold Py.merge in L. rewrite L, lookup_set. simpl.
    now rewrite String.eqb_refl.
  - now apply IH.
Qed.

Lemma pair_like_ok (i : nat) (item : value) :
  pair_like item = true ->
  exists k v, Py.pair_of_item i item = Ok (k, v) /\ Py.hashable k = true.
Proof.
  destruct item as [| | | |s|l|d]; simpl; try discriminate.
  - destruct s as [|a [|b [|c s]]]; simpl; try discriminate.
    intros _. eexists. eexists. split; reflexivity.
  - destruct l as [|k [|v [|w l]]]; try discriminate.
    intros H. exists k, v. split; [reflexivity | exact H].
  - destruct d as [|[k1 v1] [|[k2 v2] [|kv d]]]; try discriminate.
    intros H. exists k1, k2. split; [reflexivity | exact H].
Qed.

Lemma pair_unlike_raises (i : nat) (item : value) :
  pair_like item = false ->
  (exists e, Py.pair_of_item i item = Raise e /\ Py.is_HTTPError e = false)
  \/ (exists k v, Py.pair_of_item i item = Ok (k, v) /\ Py.hashable k = false).
Proof.
  destruct item as [| | | |s|l|d]; simpl;
    try (intros _; left; eexists; split; reflexivity).
  - destruct s as [|a [|b [|c s]]]; simpl; try discriminate;
      intros _; left; eexists; split; reflexivity.
  - destruct l as [|k [|v [|w l]]];
      try (intros _; left; eexists; split; reflexivity).
    intros H. right. exists k, v. split; [reflexivity | exact H].
  - destruct d as [|[k1 v1] [|[k2 v2] [|kv d]]];
      try (intros _; left; eexists; split; reflexivity).
    intros H. right. exists k1, k2. split; [reflexivity | exact H].
Qed.

Lemma merge_seq_pairs (items : list value) (i : nat) (d : dict) :
  forallb pair_like items = true -> exists d', Py.merge_seq i items d = Ok d'.
Proof.
  revert i d. induction items as [|item rest IH]; intros i d H; simpl in *.
  - now exists d.
  - apply andb_true_iff in H as [H1 H2].
    destruct (pair_like_ok i item H1) as [k [v [E Hh]]].
    rewrite E, Hh. apply IH. exact H2.
Qed.

Lemma merge_seq_raises (items : list value) (i : nat) (d : dict) :
  forallb pair_like items = false ->
  exists e, Py.merge_seq i items d = Raise e /\ Py.is_HTTPError e = false.
Proof.
  revert i d. induction items as [|item rest IH]; intros i d H; simpl in *.
  - discriminate.
  - destruct (pair_like item) eqn:P; simpl in H.
    + destruct (pair_like_ok i item P) as [k [v [E Hh]]].
      rewrite E, Hh. apply IH. exact H.
    + destruct (pair_unlike_raises i item P) as [[e [E He]]|[k [v [E Hh]]]].
      * rewrite E. now exists e.
      * rewrite E, Hh. eexists. split; reflexivity.
Qed.

(** [dict.update] with a document that is not an object succeeds exactly on
    the sequences of pairs. *)
Lemma update_non_object (d : dict) (doc : value) :
  Py.is_dict doc = false ->
  if merges_as_pairs doc
  then exists d', Py.update d doc = Ok d'
  else exists e, Py.update d doc = Raise e /\ Py.is_HTTPError e = false.
Proof.
  intros Hd. destruct doc as [| | | |s|l|o]; simpl; try discriminate;
    try (eexists; split; reflexivity).
  - destruct s as [|c s]; simpl.
    + now exists d.
    + eexists. split; reflexivity.
  - destruct (forallb pair_like l) eqn:F.
    + now apply merge_seq_pairs.
    + now apply merge_seq_raises.
Qed.

End DictFacts.

(* ------------------------------------------------------------------------- *)
(** ** The transport call *)

Section TransportCall.

Variable json_loads : string -> result value.
Variable network : nat -> request -> net_outcome.

(** With a payload that can be serialised, [_req] sends the request and
    answers as the [try] block does, or as the [except] clauses do. *)
Lemma req_sendable (u : string) (p : option pyobj) (m : string) (st : state) :
  sendable p = true ->
  fst (_req json_loads network u p m st)
  = match _req_try json_loads (network (List.length (wire st)) (mkRequest u p m)) with
    | Ok out => Ok out
    | Raise e => _req_except json_loads e
    end.
Proof.
  intros H. unfold _req. unfold sendable in H. rewrite H.
  destruct (_req_try json_loads _); reflexivity.
Qed.

Lemma req_try_transport_failure (o : net_outcome) (e : exn) :
  raised_in_transport o e -> _req_try json_loads o = Raise e.
Proof.
  intros [->|[code [len [-> Hread]]]]; simpl; [reflexivity|].
  destruct len as [n|]; simpl in Hread; [rewrite Hread|]; reflexivity.
Qed.

Lemma req_try_responds (o : net_outcome) (code : Z) (body : string) :
  responds o code body ->
  _req_try json_loads o
  = if negb (body =? "") then
      match json_loads body with
      | Ok doc => Py.update [(VStr "status", VInt code)] doc
      | Raise e =>
          if Py.is_JSONDecodeError e then
            Ok (Py.set (VStr "raw") (VStr body) [(VStr "status", VInt code)])
          else Raise e
      end
    else Ok [(VStr "status", VInt code)].
Proof.
  intros [[len [-> Hread]]|[-> [len [content [-> Hread]]]]]; simpl.
  - destruct len as [n|]; simpl in Hread; [rewrite Hread|]; reflexivity.
  - destruct len as [n|]; simpl in Hread; [rewrite Hread|discriminate]; reflexivity.
Qed.

End TransportCall.

(** X28.  When [urlopen], or the reading of the body of a response it
    returned, raises an exception that is not an [HTTPError], [_req] returns
    the record made of the text of the exception under [err] and of the status
    500; no exception leaves it. *)
Theorem req_transport_failure
        (json_loads : string -> result value) (network : nat -> request -> net_outcome)
        (u : string) (p : option pyobj) (m : string) (st : state) (e : exn) :
  sendable p = true ->
  Py.is_HTTPError e = false ->
  raised_in_transport (network (List.length (wire st)) (mkRequest u p m)) e ->
  fst (_req json_loads network u p m st)
  = Ok [(VStr "err", VStr (Py.exn_str e)); (VStr "status", VInt 500)].
Proof.
  intros Hp He Hr. rewrite req_sendable by exact Hp.
  rewrite (req_try_transport_failure json_loads _ e Hr).
  destruct e; try reflexivity. discriminate He.
Qed.

Lemma req_transport_failure_witness :
  fst (_req Sample.loads (Sample.always (Raises (TimeoutError "timed out")))
            CONNECT_URL None "POST" Sample.fresh)
  = Ok [(VStr "err", VStr "timed out"); (VStr "status", VInt 500)].
Proof.
  apply (req_transport_failure Sample.loads
           (Sample.always (Raises (TimeoutError "timed out")))
           CONNECT_URL None "POST" Sample.fresh (TimeoutError "timed out")).
  - reflexivity.
  - reflexivity.
  - left. reflexivity.
Defined.

(** C5.  The code breaks the claim where the failure comes while the body of
    an HTTP error response is read: [e.read()] runs inside the [except
    HTTPError] clause, where the [except Exception] clause of the same [try]
    no longer applies, so the exception of the read (a timeout, a connection
    reset) leaves [_req] instead of becoming a record of status 500. *)
Theorem req_error_body_read_escapes
        (json_loads : string -> result value) (network : nat -> request -> net_outcome)
        (u : string) (p : option pyobj) (m : string) (st : state)
        (code : Z) (reason : string) (e : exn) :
  sendable p = true ->
  network (List.length (wire st)) (mkRequest u p m)
  = Raises (HTTPError code reason (Some (ReadFails e))) ->
  fst (_req json_loads network u p m st) = Raise e.
Proof.
  intros Hp Hn. rewrite req_sendable by exact Hp. rewrite Hn. reflexivity.
Qed.

Lemma req_error_body_read_escapes_witness :
  fst (_req Sample.loads
            (Sample.always (Raises (HTTPError 502 "Bad Gateway"
                                              (Some (ReadFails (TimeoutError "timed out"))))))
            CONNECT_URL None "POST" Sample.fresh)
  = Raise (TimeoutError "timed out").
Proof.
  apply (req_error_body_read_escapes Sample.loads
           (Sample.always (Raises (HTTPError 502 "Bad Gateway"
                                             (Some (ReadFails (TimeoutError "timed out"))))))
           CONNECT_URL None "POST" Sample.fresh 502 "Bad Gateway"
           (TimeoutError "timed out")).
  - reflexivity.
  - reflexivity.
Defined.

(** C6 fails as stated: an error body that is a JSON document is kept as raw
    text, not decoded, when it holds [<html] or has no opening brace; and an
    exception of the decoder that is not a [json.JSONDecodeError] leaves
    [_req]. *)
Lemma req_error_json_body_kept_raw :
  Sample.loads Sample.body_html_in_json
  = Ok (VDict [(VStr "error", VStr "<html>bad gateway</html>")])
  /\ fst (_req Sample.loads
               (Sample.always (Raises (HTTPError 502 "Bad Gateway"
                                                 (Some (ReadOk Sample.body_html_in_json)))))
               CONNECT_URL None "POST" Sample.fresh)
     = Ok [(VStr "err", VStr "HTTP 502");
           (VStr "details", VDict [(VStr "raw", VStr Sample.body_html_in_json);
                                   (VStr "note", VStr "Response not valid JSON or HTML.")]);
           (VStr "status", VInt 502)]
  /\ Sample.loads "[1, 2]" = Ok (VList [VInt 1; VInt 2])
  /\ fst (_req Sample.loads
               (Sample.always (Raises (HTTPError 500 "Internal Server Error"
                                                 (Some (ReadOk "[1, 2]")))))
               CONNECT_URL None "POST" Sample.fresh)
     = Ok [(VStr "err", VStr "HTTP 500");
           (VStr "details", VDict [(VStr "raw", VStr "[1, 2]");
                                   (VStr "note", VStr "Response not valid JSON or HTML.")]);
           (VStr "status", VInt 500)]
  /\ fst (_req Runs.loads
               (Sample.always (Raises (HTTPError 500 "Internal Server Error"
                                                 (Some (ReadOk Runs.body_long_integer)))))
               CONNECT_URL None "POST" Sample.fresh)
     = Raise Runs.long_integer_refused.
Proof. repeat split; vm_compute; reflexivity. Qed.

(** C6, amended.  For an HTTP error response whose body has been read (or
    that has none), when the error body is not empty, holds no [<html] and
    holds an opening brace: a body that decodes as JSON gives the record of
    [err], [details] and [status] with the decoded document under [details];
    a body on which the decoder raises [json.JSONDecodeError] gives that
    record with the raw text and a note under [details], and the exception
    does not leave [_req].  Every other body, empty or missing ones included,
    is not decoded and gives the record with the raw text and a note. *)
Theorem req_http_error_details
        (json_loads : string -> result value) (network : nat -> request -> net_outcome)
        (u : string) (p : option pyobj) (m : string) (st : state)
        (code : Z) (reason : string) (fp : option (read_outcome exn)) (raw : string) :
  sendable p = true ->
  network (List.length (wire st)) (mkRequest u p m) = Raises (HTTPError code reason fp) ->
  error_body fp raw ->
  let record details := [(VStr "err", VStr ("HTTP " ++ PyStr.of_Z code));
                         (VStr "details", details);
                         (VStr "status", VInt code)] in
  (looks_like_json raw = true ->
   forall doc, json_loads raw = Ok doc ->
   fst (_req json_loads network u p m st) = Ok (record doc))
  /\ (looks_like_json raw = true ->
      forall e, json_loads raw = Raise e ->
      Py.is_JSONDecodeError e = true ->
      fst (_req json_loads network u p m st)
      = Ok (record (VDict [(VStr "raw", VStr raw);
                           (VStr "note", VStr "Response could not be parsed as JSON.")])))
  /\ (looks_like_json raw = false ->
      fst (_req json_loads network u p m st)
      = Ok (record (VDict [(VStr "raw", VStr raw);
                           (VStr "note", VStr "Response not valid JSON or HTML.")]))).
Proof.
  intros Hp Hn Hb record.
  rewrite req_sendable by exact Hp. rewrite Hn. cbn [_req_try].
  assert (E : _req_except json_loads (HTTPError code reason fp)
              = match error_details json_loads raw with
                | Ok details => Ok (record details)
                | Raise e => Raise e
                end)
    by (destruct Hb as [[-> ->]| ->]; reflexivity).
  rewrite E. unfold error_details, looks_like_json.
  split; [|split].
  - intros -> doc ->. reflexivity.
  - intros -> e -> ->. reflexivity.
  - intros ->. reflexivity.
Qed.

Lemma req_http_error_details_witness :
  fst (_req Sample.loads
            (Sample.always (Raises (HTTPError 403 "Forbidden"
                                              (Some (ReadOk Sample.body_denied)))))
            CONNECT_URL None "POST" Sample.fresh)
  = Ok [(VStr "err", VStr "HTTP 403");
        (VStr "details", VDict [(VStr "error", VStr "denied")]);
        (VStr "status", VInt 403)].
Proof.
  refine (proj1 (req_http_error_details Sample.loads
                   (Sample.always (Raises (HTTPError 403 "Forbidden"
                                                     (Some (ReadOk Sample.body_denied)))))
                   CONNECT_URL None "POST" Sample.fresh 403 "Forbidden"
                   (Some (ReadOk Sample.body_denied)) Sample.body_denied
                   eq_refl eq_refl (or_intror eq_refl))
                eq_refl (VDict [(VStr "error", VStr "denied")]) eq_refl).
Defined.

(** C7 fails as stated: the status of the returned record is not the response
    code when the decoded body brings a [status] of its own (this is how the
    symbolic status VALID reaches the classifier), nor when the body decodes
    to a bare number; and a body on which the decoder raises an exception that
    is not a [json.JSONDecodeError] is not kept under [raw]. *)
Lemma req_success_status_replaced :
  fst (_req Sample.loads (Sample.answers 200 Sample.body_valid)
            CONNECT_URL None "POST" Sample.fresh)
  = Ok [(VStr "status", VStr "VALID")]
  /\ fst (_req Sample.loads (Sample.answers 200 "42") CONNECT_URL None "POST" Sample.fresh)
     = Ok [(VStr "err", VStr "'int' object is not iterable"); (VStr "status", VInt 500)]
  /\ fst (_req Runs.loads (Sample.answers 200 Runs.body_long_integer)
               CONNECT_URL None "POST" Sample.fresh)
     = Ok [(VStr "err", VStr (Py.exn_str Runs.long_integer_refused));
           (VStr "status", VInt 500)].
Proof. repeat split; vm_compute; reflexivity. Qed.

(** C7, amended.  For an HTTP-success response: an empty body gives the
    record of the response code alone; a body on which the decoder raises
    [json.JSONDecodeError] gives the response code and the text under [raw];
    a body that decodes to an object
    gives the record of the response code updated with the members of the
    object, so that every member is in the record, and the status is the
    response code unless the object has a [status] member of its own. *)
Theorem req_success_record
        (json_loads : string -> result value) (network : nat -> request -> net_outcome)
        (u : string) (p : option pyobj) (m : string) (st : state)
        (code : Z) (body : string) :
  sendable p = true ->
  responds (network (List.length (wire st)) (mkRequest u p m)) code body ->
  let out := [(VStr "status", VInt code)] in
  (body = EmptyString -> fst (_req json_loads network u p m st) = Ok out)
  /\ (body <> EmptyString ->
      forall e, json_loads body = Raise e ->
      Py.is_JSONDecodeError e = true ->
      fst (_req json_loads network u p m st)
      = Ok [(VStr "status", VInt code); (VStr "raw", VStr body)])
  /\ (body <> EmptyString ->
      forall o, json_loads body = Ok (VDict o) ->
      fst (_req json_loads network u p m st) = Ok (Py.merge out o)
      /\ (Py.has o "status" = false -> Py.get (Py.merge out o) "status" = VInt code)
      /\ (distinct_keys o = true ->
          forall k v, Py.lookup (VStr k) o = Some v ->
                      Py.lookup (VStr k) (Py.merge out o) = Some v)).
Proof.
  intros Hp Hr out.
  rewrite req_sendable by exact Hp.
  rewrite (req_try_responds json_loads _ code body Hr).
  split; [|split].
  - intros ->. reflexivity.
  - intros Hne e Hl He. apply String.eqb_neq in Hne. rewrite Hne, Hl, He. reflexivity.
  - intros Hne o Hl. apply String.eqb_neq in Hne. rewrite Hne, Hl.
    split; [reflexivity|]. split.
    + intros Hno. unfold Py.get, Py.get_d. rewrite lookup_merge_absent; [reflexivity|].
      unfold Py.has in Hno.
      destruct (Py.lookup (VStr "status") o); [discriminate|reflexivity].
    + intros Hd k v Hk. now apply lookup_merge_present.
Qed.

Lemma req_success_record_witness :
  fst (_req Sample.loads (Sample.answers 200 Sample.body_empty_result)
            QUERY_URL None "POST" Sample.fresh)
  = Ok [(VStr "status", VInt 200); (VStr "result", VStr EmptyString)].
Proof.
  pose proof (req_success_record Sample.loads (Sample.answers 200 Sample.body_empty_result)
                QUERY_URL None "POST" Sample.fresh 200 Sample.body_empty_result eq_refl)
    as H.
  destruct H as [_ [_ H]].
  - left. exists None. split; reflexivity.
  - destruct (H ltac:(discriminate) [(VStr "result", VStr EmptyString)] eq_refl) as [E _].
    exact E.
Defined.

(** C10 fails as stated: the empty array and an array of two-item arrays are
    not objects, yet the merge step accepts them and the record keeps the
    shape of a success. *)
Lemma req_array_body_merges :
  Sample.loads "[]" = Ok (VList [])
  /\ fst (_req Sample.loads (Sample.answers 200 "[]") CONNECT_URL None "POST" Sample.fresh)
     = Ok [(VStr "status", VInt 200)]
  /\ Py.update [(VStr "status", VInt 200)]
               (VList [VList [VStr "id"; VStr "SHIP1"]; VStr "ab"])
     = Ok [(VStr "status", VInt 200); (VStr "id", VStr "SHIP1"); (VStr "a", VStr "b")].
Proof. repeat split; vm_compute; reflexivity. Qed.

(** C10, amended.  For an HTTP-success response whose non-empty body decodes
    to a value that is not an object, [_req] raises nothing.  When the value is
    not a sequence of pairs (null, a boolean, a number, a non-empty string, an
    array with an element that is not a two-item sequence with a hashable first
    item), the merge fails and the record is the one of a transport failure:
    a description under [err] and the status 500.  When the value is a
    sequence of pairs (the empty array and the empty string included), the
    record is the response code updated with those pairs. *)
Theorem req_non_object_body
        (json_loads : string -> result value) (network : nat -> request -> net_outcome)
        (u : string) (p : option pyobj) (m : string) (st : state)
        (code : Z) (body : string) (doc : value) :
  sendable p = true ->
  responds (network (List.length (wire st)) (mkRequest u p m)) code body ->
  body <> EmptyString ->
  json_loads body = Ok doc ->
  Py.is_dict doc = false ->
  exists record,
    fst (_req json_loads network u p m st) = Ok record
    /\ (merges_as_pairs doc = false ->
        exists description,
          record = [(VStr "err", VStr description); (VStr "status", VInt 500)])
    /\ (merges_as_pairs doc = true ->
        Py.update [(VStr "status", VInt code)] doc = Ok record).
Proof.
  intros Hp Hr Hne Hl Hd.
  rewrite req_sendable by exact Hp.
  rewrite (req_try_responds json_loads _ code body Hr).
  apply String.eqb_neq in Hne. rewrite Hne, Hl. cbn [negb].
  pose proof (update_non_object [(VStr "status", VInt code)] doc Hd) as U.
  destruct (merges_as_pairs doc).
  - destruct U as [d' E]. rewrite E. exists d'.
    split; [reflexivity|]. split; [discriminate | reflexivity].
  - destruct U as [e [E He]]. rewrite E.
    exists [(VStr "err", VStr (Py.exn_str e)); (VStr "status", VInt 500)].
    split; [destruct e; try reflexivity; discriminate He|].
    split; [|discriminate]. intros _. exists (Py.exn_str e). reflexivity.
Qed.

Lemma req_non_object_body_witness :
  exists record,
    fst (_req Sample.loads (Sample.answers 200 "null") CONNECT_URL None "POST" Sample.fresh)
    = Ok record
    /\ exists description,
         record = [(VStr "err", VStr description); (VStr "status", VInt 500)].
Proof.
  destruct (req_non_object_body Sample.loads (Sample.answers 200 "null")
              CONNECT_URL None "POST" Sample.fresh 200 "null" VNone eq_refl)
    as [record [E [Hbad _]]].
  - left. exists None. split; reflexivity.
  - discriminate.
  - reflexivity.
  - reflexivity.
  - exists record. split; [exact E | apply Hbad; reflexivity].
Defined.


(* ========================================================================= *)
(** * Further properties of the transport call, the wrappers, the classifier
      and the identity functions *)

(* ------------------------------------------------------------------------- *)
(** ** [_req]: when it raises, what its record always holds *)

Section ReqFacts.

Variable json_loads : string -> result value.
Variable network : nat -> request -> net_outcome.

(** The whole effect of [_req] for a payload that can be serialised. *)
Lemma req_run (u : string) (p : option pyobj) (m : string) (st : state) :
  sendable p = true ->
  _req json_loads network u p m st
  = (transport_record json_loads network (List.length (wire st)) (mkRequest u p m),
     sent st (mkRequest u p m)).
Proof.
  intros H. unfold transport_record, _req, sent. unfold sendable in H. simpl.
  rewrite H, repeat_length.
  destruct (_req_try json_loads _); reflexivity.
Qed.

Lemma req_unsendable (u : string) (p : option pyobj) (m : string) (st : state) :
  sendable p = false ->
  _req json_loads network u p m st
  = (Raise (TypeError "Object of type bytes is not JSON serializable"), st).
Proof. intros H. unfold _req. unfold sendable in H. now rewrite H. Qed.

Lemma merge_seq_raise_kind (items : list value) (i : nat) (d : dict) (e : exn) :
  Py.merge_seq i items d = Raise e -> Py.is_HTTPError e = false.
Proof.
  revert i d. induction items as [|item rest IH]; intros i d H; simpl in H.
  - discriminate.
  - destruct (pair_like item) eqn:P.
    + destruct (pair_like_ok i item P) as [k [v [E Hh]]].
      rewrite E, Hh in H. exact (IH _ _ H).
    + destruct (pair_unlike_raises i item P) as [[e' [E He]]|[k [v [E Hh]]]].
      * rewrite E in H. injection H as <-. exact He.
      * rewrite E, Hh in H. injection H as <-. reflexivity.
Qed.

(** [dict.update] fails with a [TypeError] or a [ValueError] only. *)
Lemma update_raise_kind (d : dict) (doc : value) (e : exn) :
  Py.update d doc = Raise e -> Py.is_HTTPError e = false.
Proof.
  destruct doc; simpl; intros H;
    try (injection H as <-; reflexivity);
    try discriminate; eauto using merge_seq_raise_kind.
Qed.

(** An exception that leaves the [try] block was raised by the transport,
    or is the failure of the merge, or was raised by the decoder. *)
Lemma req_try_raise_origin (o : net_outcome) (e : exn) :
  (forall s x, json_loads s = Raise x -> Py.is_HTTPError x = false) ->
  _req_try json_loads o = Raise e ->
  raised_in_transport o e \/ Py.is_HTTPError e = false.
Proof.
  intros Hdec.
  assert (Hbody : forall code body,
             (if negb (body =? "") then
                match json_loads body with
                | Ok doc => Py.update [(VStr "status", VInt code)] doc
                | Raise x =>
                    if Py.is_JSONDecodeError x then
                      Ok (Py.set (VStr "raw") (VStr body) [(VStr "status", VInt code)])
                    else Raise x
                end
              else Ok [(VStr "status", VInt code)]) = Raise e ->
             Py.is_HTTPError e = false).
  { intros code body. destruct (negb (body =? "")); [|discriminate].
    destruct (json_loads body) as [doc|x] eqn:J.
    - apply update_raise_kind.
    - destruct (Py.is_JSONDecodeError x); [discriminate|].
      intros H. injection H as <-. exact (Hdec _ _ J). }
  destruct o as [code len content|x]; simpl.
  - destruct len as [n|].
    + destruct (n >? 0)%Z eqn:G.
      * destruct content as [body|x].
        -- intros H. right. exact (Hbody _ _ H).
        -- intros H. injection H as <-. left. right.
           exists code, (Some n). split; [reflexivity | exact G].
      * simpl. discriminate.
    + destruct content as [body|x].
      * intros H. right. exact (Hbody _ _ H).
      * intros H. injection H as <-. left. right.
        exists code, None. split; reflexivity.
  - intros H. injection H as <-. left. left. reflexivity.
Qed.

(** The [HTTPError] clause raises what the reading of the error body raises,
    or what the decoder raises on it apart from a [json.JSONDecodeError]. *)
Lemma req_except_raises (code : Z) (reason : string) (fp : option (read_outcome exn))
      (e : exn) :
  _req_except json_loads (HTTPError code reason fp) = Raise e
  <-> fp = Some (ReadFails e)
      \/ exists raw, fp = Some (ReadOk raw)
                     /\ looks_like_json raw = true
                     /\ json_loads raw = Raise e
                     /\ Py.is_JSONDecodeError e = false.
Proof.
  destruct fp as [[raw|e']|]; simpl.
  - unfold error_details. fold (looks_like_json raw).
    destruct (looks_like_json raw) eqn:G.
    + destruct (json_loads raw) as [doc|x] eqn:J.
      * split; [discriminate|].
        intros [F|[raw' [F [_ [J' _]]]]]; [discriminate|].
        injection F as <-. rewrite J in J'. discriminate.
      * destruct (Py.is_JSONDecodeError x) eqn:D.
        -- split; [discriminate|].
           intros [F|[raw' [F [_ [J' D']]]]]; [discriminate|].
           injection F as <-. rewrite J in J'. injection J' as <-.
           rewrite D in D'. discriminate.
        -- split.
           ++ intros H. injection H as <-. right. exists raw. repeat split; assumption.
           ++ intros [F|[raw' [F [_ [J' _]]]]]; [discriminate|].
              injection F as <-. rewrite J in J'. injection J' as <-. reflexivity.
    + split; [discriminate|].
      intros [F|[raw' [F [G' _]]]]; [discriminate|].
      injection F as <-. rewrite G in G'. discriminate.
  - split.
    + intros H. injection H as <-. left. reflexivity.
    + intros [F|[raw [F _]]]; [|discriminate]. injection F as <-. reflexivity.
  - unfold error_details. simpl. split; [discriminate|].
    intros [F|[raw [F _]]]; discriminate.
Qed.

Lemma lookup_set_kept (s : string) (k v : value) (d : dict) :
  Py.lookup (VStr s) d <> None -> Py.lookup (VStr s) (Py.set k v d) <> None.
Proof.
  intros H. rewrite lookup_set. destruct (Py.key_eqb k (VStr s)); [discriminate | exact H].
Qed.

Lemma lookup_merge_kept (s : string) (o d : dict) :
  Py.lookup (VStr s) d <> None -> Py.lookup (VStr s) (Py.merge d o) <> None.
Proof.
  unfold Py.merge. revert d. induction o as [|[k v] t IH]; intros d H; simpl.
  - exact H.
  - apply IH. now apply lookup_set_kept.
Qed.

Lemma lookup_merge_seq_kept (s : string) (items : list value) (i : nat) (d d' : dict) :
  Py.lookup (VStr s) d <> None ->
  Py.merge_seq i items d = Ok d' ->
  Py.lookup (VStr s) d' <> None.
Proof.
  revert i d. induction items as [|item rest IH]; intros i d H E; simpl in E.
  - injection E as <-. exact H.
  - destruct (Py.pair_of_item i item) as [[k v]|x]; [|discriminate].
    destruct (Py.hashable k); [|discriminate].
    apply (IH _ _ (lookup_set_kept s k v d H) E).
Qed.

(** No update removes a member that is already there. *)
Lemma lookup_update_kept (s : string) (doc : value) (d d' : dict) :
  Py.lookup (VStr s) d <> None ->
  Py.update d doc = Ok d' ->
  Py.lookup (VStr s) d' <> None.
Proof.
  intros H. destruct doc; simpl; try discriminate.
  - now apply lookup_merge_seq_kept.
  - now apply lookup_merge_seq_kept.
  - intros E. injection E as <-. now apply lookup_merge_kept.
Qed.

End ReqFacts.

(** A sample decoder raises no [HTTPError], as [json.loads] raises none. *)
Lemma Runs_loads_raises_no_HTTPError (s : string) (x : exn) :
  Runs.loads s = Raise x -> Py.is_HTTPError x = false.
Proof.
  unfold Runs.loads, Sample.loads.
  repeat match goal with
         | |- context [if ?b then _ else _] => destruct b
         end;
    intros H; try discriminate H; injection H as <-; reflexivity.
Qed.

(** X1.  [_req] raises in three situations and no other: the payload holds
    [bytes], and then the [TypeError] of [json.dumps] leaves it before anything
    is sent; or the call ended in an [HTTPError] and, inside the clause that
    handles it, either the error body could not be read, or the decoder, tried
    on the error body, raised an exception that is not a
    [json.JSONDecodeError]: that exception leaves [_req].  The decoder is
    taken to raise no [HTTPError] of its own. *)
Theorem req_raises_iff
        (json_loads : string -> result value) (network : nat -> request -> net_outcome)
        (u : string) (p : option pyobj) (m : string) (st : state) (e : exn) :
  (forall s x, json_loads s = Raise x -> Py.is_HTTPError x = false) ->
  fst (_req json_loads network u p m st) = Raise e
  <-> (sendable p = false
       /\ e = TypeError "Object of type bytes is not JSON serializable")
      \/ (sendable p = true
          /\ exists code reason fp,
               raised_in_transport (network (List.length (wire st)) (mkRequest u p m))
                                   (HTTPError code reason fp)
               /\ (fp = Some (ReadFails e)
                   \/ exists raw, fp = Some (ReadOk raw)
                                  /\ looks_like_json raw = true
                                  /\ json_loads raw = Raise e
                                  /\ Py.is_JSONDecodeError e = false)).
Proof.
  intros Hdec. destruct (sendable p) eqn:S.
  - rewrite req_sendable by exact S. split.
    + intros H. right. split; [reflexivity|].
      destruct (_req_try json_loads _) as [out|x] eqn:T; [discriminate|].
      destruct (Py.is_HTTPError x) eqn:Hx.
      * destruct x as [code reason fp| | | | | | | | |]; try discriminate Hx.
        destruct (req_try_raise_origin json_loads _ _ Hdec T) as [Ho|Hk];
          [|discriminate Hk].
        exists code, reason, fp. split; [exact Ho|].
        exact (proj1 (req_except_raises json_loads code reason fp e) H).
      * destruct x; try discriminate Hx; discriminate H.
    + intros [[F _]|[_ [code [reason [fp [Ho Hc]]]]]]; [discriminate|].
      rewrite (req_try_transport_failure json_loads _ _ Ho).
      exact (proj2 (req_except_raises json_loads code reason fp e) Hc).
  - rewrite req_unsendable by exact S. simpl. split.
    + intros H. injection H as <-. left. split; reflexivity.
    + intros [[_ ->]|[F _]]; [reflexivity | discriminate].
Qed.

Lemma req_raises_iff_witness :
  fst (_req Runs.loads
            (Sample.always (Raises (HTTPError 500 "Internal Server Error"
                                              (Some (ReadOk Runs.body_long_integer)))))
            CONNECT_URL None "POST" Sample.fresh)
  = Raise Runs.long_integer_refused.
Proof.
  apply (proj2 (req_raises_iff Runs.loads
                  (Sample.always (Raises (HTTPError 500 "Internal Server Error"
                                                    (Some (ReadOk Runs.body_long_integer)))))
                  CONNECT_URL None "POST" Sample.fresh Runs.long_integer_refused
                  Runs_loads_raises_no_HTTPError)).
  right. split; [reflexivity|].
  exists 500%Z, "Internal Server Error", (Some (ReadOk Runs.body_long_integer)).
  split; [left; reflexivity|].
  right. exists Runs.body_long_integer.
  split; [reflexivity|]. split; [vm_compute; reflexivity|].
  split; [vm_compute; reflexivity | reflexivity].
Defined.

(** X2.  Every record [_req] returns has a [status] member, whatever the body
    merged into it. *)
Theorem req_record_has_status
        (json_loads : string -> result value) (network : nat -> request -> net_outcome)
        (u : string) (p : option pyobj) (m : string) (st : state) (record : dict) :
  fst (_req json_loads network u p m st) = Ok record ->
  Py.has record "status" = true.
Proof.
  intros H.
  assert (L : Py.lookup (VStr "status") record <> None).
  { destruct (sendable p) eqn:S.
    - rewrite req_sendable in H by exact S.
      destruct (_req_try json_loads _) as [out|x] eqn:T.
      + injection H as <-. revert T.
        destruct (network _ _) as [code len content|y]; simpl; [|discriminate].
        destruct (match len with
                  | Some n => if (n >? 0)%Z then content else Ok EmptyString
                  | None => content
                  end) as [body|y]; [|discriminate].
        destruct (negb (body =? "")).
        * destruct (json_loads body) as [doc|y].
          -- intros T.
             apply (lookup_update_kept "status" doc [(VStr "status", VInt code)] out);
               [simpl; discriminate | exact T].
          -- destruct (Py.is_JSONDecodeError y); [|discriminate].
             intros T. injection T as <-. simpl. discriminate.
        * intros T. injection T as <-. simpl. discriminate.
      + destruct x as [code reason fp| | | | | | | | |]; simpl in H;
          try (injection H as <-; simpl; discriminate).
        destruct fp as [[body|e']|]; try discriminate;
          destruct (error_details json_loads _); try discriminate;
          injection H as <-; simpl; discriminate.
    - rewrite req_unsendable in H by exact S. discriminate. }
  unfold Py.has. destruct (Py.lookup (VStr "status") record); [reflexivity | contradiction].
Qed.

Lemma req_record_has_status_witness :
  Py.has [(VStr "status", VStr "VALID")] "status" = true.
Proof.
  apply (req_record_has_status Sample.loads (Sample.answers 200 Sample.body_valid)
           CONNECT_URL None "POST" Sample.fresh).
  reflexivity.
Defined.

(* ------------------------------------------------------------------------- *)
(** ** The alias lookup and [invoke] *)

Lemma lookup_sound (w a kid : string) (st : state) :
  fst (roster_lookup w a st) = Ok (Some kid) -> resolves_to a kid.
Proof.
  unfold roster_lookup.
  destruct (find (fun kv => alias (snd kv) =? a) ID_ROSTER) as [[k e]|] eqn:F; simpl.
  - intros H. injection H as <-. apply find_some in F as [Hin Heq].
    exists e. split; [exact Hin | now apply String.eqb_eq in Heq].
  - discriminate.
Qed.

(** X3.  In both scripts [get_kaleido_kid_for_alias] returns the signing
    identity [kid] exactly when the roster gives the alias to [kid]; it then
    logs nothing, and [kid] is not the empty text. *)
Theorem alias_lookup_inverts_roster (a kid : string) (st : state) :
  (fst (Test.get_kaleido_kid_for_alias a st) = Ok (Some kid) <-> resolves_to a kid)
  /\ (fst (Gemtest.get_kaleido_kid_for_alias a st) = Ok (Some kid) <-> resolves_to a kid)
  /\ (resolves_to a kid ->
      snd (Test.get_kaleido_kid_for_alias a st) = st
      /\ snd (Gemtest.get_kaleido_kid_for_alias a st) = st
      /\ kid <> EmptyString).
Proof.
  unfold Test.get_kaleido_kid_for_alias, Gemtest.get_kaleido_kid_for_alias.
  repeat split.
  - apply lookup_sound.
  - intros H. now rewrite (proj1 (lookup_resolved _ a kid st H)).
  - apply lookup_sound.
  - intros H. now rewrite (proj1 (lookup_resolved _ a kid st H)).
  - now rewrite (proj1 (lookup_resolved _ a kid st H)).
  - now rewrite (proj1 (lookup_resolved _ a kid st H)).
  - intros ->. destruct (lookup_resolved "" a "" st H) as [_ E]. discriminate E.
Qed.

Lemma alias_lookup_inverts_roster_witness :
  fst (Test.get_kaleido_kid_for_alias "FrankCertify" Sample.fresh)
  = Ok (Some "certifier_frank_tester")
  /\ snd (Test.get_kaleido_kid_for_alias "FrankCertify" Sample.fresh) = Sample.fresh.
Proof.
  destruct (alias_lookup_inverts_roster "FrankCertify" "certifier_frank_tester" Sample.fresh)
    as [[_ H1] [_ H3]].
  assert (R : resolves_to "FrankCertify" "certifier_frank_tester").
  { exists (mkEntry "FrankCertify" "certifier"). split; [|reflexivity].
    simpl. do 6 right. left. reflexivity. }
  split; [exact (H1 R) | exact (proj1 (H3 R))].
Defined.

Section InvokeFacts.

Variable json_loads : string -> result value.
Variable network : nat -> request -> net_outcome.

(** Coerced arguments are texts: [json.dumps] accepts them. *)
Lemma str_args_sendable (args : list pyarg) :
  forallb serializable (map str_arg args) = true.
Proof. induction args as [|x xs IH]; [reflexivity|]. simpl. destruct x; exact IH. Qed.

Lemma has_key_truthy (d : dict) :
  Py.has d "error" || Py.has d "message" = true -> Py.truthy (VDict d) = true.
Proof. destruct d; [discriminate | reflexivity]. Qed.

(** Case analysis on every test left in the goal. *)
Ltac split_tests :=
  repeat match goal with
         | |- context [if ?c then _ else _] => destruct c eqn:?
         end.

(** The outcome of [invoke] in [test.py] once the signer is resolved and
    [_req] has returned. *)
Lemma Test_invoke_resolved (a func : string) (args : list pyarg) (st : state)
      (kid : string) :
  resolves_to a kid ->
  fst (Test.invoke json_loads network a func args st)
  = match transport_record json_loads network (List.length (wire st))
                           (invoke_request kid func (map str_arg args)) with
    | Ok r => after_scan r
    | Raise e => Raise e
    end
  /\ wire (snd (Test.invoke json_loads network a func args st))
     = wire st ++ [invoke_request kid func (map str_arg args)]
  /\ method_type (snd (Test.invoke json_loads network a func args st)) = "invoke".
Proof.
  intros Hres.
  unfold Test.invoke, bind, set_method_type, Test.get_kaleido_kid_for_alias.
  match goal with
  | |- context [roster_lookup ?w a ?s] =>
      destruct (lookup_resolved w a kid s Hres) as [E1 E2]
  end.
  rewrite E1, E2. rewrite req_run.
  2:{ simpl. rewrite andb_true_r. apply str_args_sendable. }
  unfold invoke_request. simpl wire.
  destruct (transport_record json_loads network _ _) as [r|e];
    [|repeat split; reflexivity].
  unfold after_scan, invoke_scan, sent.
  destruct (Py.get r "details") as [| | | | | |d] eqn:D;
    try (unfold when, log, ret; split_tests; repeat split; reflexivity).
  destruct d as [|kv d'].
  { cbn. unfold when, log, ret; split_tests; repeat split; reflexivity. }
  cbn [Py.truthy andb].
  destruct (Py.has (kv :: d') "error" || Py.has (kv :: d') "message") eqn:K.
  - unfold orM, in_lower, lift, bind, ret, log.
    destruct (error_message_of (kv :: d')); cbn [Py.lower Py.in_];
      try (repeat split; reflexivity).
    split_tests; repeat split; reflexivity.
  - unfold when, log, ret; split_tests; repeat split; reflexivity.
Qed.

Lemma keep_bytes_without_bytes (args : list pyarg) :
  has_bytes args = false -> map Gemtest.str_arg_keep_bytes args = map str_arg args.
Proof.
  induction args as [|x xs IH]; [reflexivity|]. simpl.
  destruct x; simpl; try discriminate; intros H; now rewrite IH.
Qed.

Lemma keep_bytes_unsendable (args : list pyarg) :
  has_bytes args = true ->
  forallb serializable (map Gemtest.str_arg_keep_bytes args) = false.
Proof.
  induction args as [|x xs IH]; [discriminate|]. simpl.
  destruct x; simpl; auto.
Qed.

(** The same for [invoke] in [gemtest.py], when no argument is [bytes]. *)
Lemma Gemtest_invoke_resolved (a func : string) (args : list pyarg) (st : state)
      (kid : string) :
  resolves_to a kid ->
  has_bytes args = false ->
  fst (Gemtest.invoke json_loads network a func args st)
  = match transport_record json_loads network (List.length (wire st))
                           (invoke_request kid func (map str_arg args)) with
    | Ok r => after_scan r
    | Raise e => Raise e
    end
  /\ wire (snd (Gemtest.invoke json_loads network a func args st))
     = wire st ++ [invoke_request kid func (map str_arg args)]
  /\ method_type (snd (Gemtest.invoke json_loads network a func args st)) = "invoke".
Proof.
  intros Hres Hb.
  unfold Gemtest.invoke, bind, set_method_type, Gemtest.get_kaleido_kid_for_alias.
  match goal with
  | |- context [roster_lookup ?w a ?s] =>
      destruct (lookup_resolved w a kid s Hres) as [E1 E2]
  end.
  rewrite E1, E2. rewrite (keep_bytes_without_bytes args Hb). rewrite req_run.
  2:{ simpl. rewrite andb_true_r. apply str_args_sendable. }
  unfold invoke_request. simpl wire.
  destruct (transport_record json_loads network _ _) as [r|e];
    [|repeat split; reflexivity].
  unfold after_scan, invoke_scan, sent.
  destruct (Py.get r "details") as [| | | | | |d] eqn:D;
    try (unfold log, ret; split_tests; repeat split; reflexivity).
  destruct (Py.has d "error" || Py.has d "message") eqn:K.
  - unfold orM, in_lower, lift, bind, ret, log.
    destruct (error_message_of d); cbn [Py.lower Py.in_];
      try (repeat split; reflexivity).
    split_tests; repeat split; reflexivity.
  - unfold log, ret; split_tests; repeat split; reflexivity.
Qed.

(** An alias either belongs to an identity of the roster or to none. *)
Lemma resolved_or_not (a : string) : (exists kid, resolves_to a kid) \/ unresolved a.
Proof.
  destruct (find (fun kv => alias (snd kv) =? a) ID_ROSTER) as [[kid e]|] eqn:F.
  - left. exists kid, e. apply find_some in F as [Hin Heq].
    split; [exact Hin | now apply String.eqb_eq in Heq].
  - right. intros kid e Hin Ha.
    pose proof (find_none _ _ F (kid, e) Hin) as N. simpl in N.
    apply String.eqb_neq in N. contradiction.
Qed.

Lemma after_scan_text (r : dict) :
  message_is_text r = true -> after_scan r = Ok r.
Proof.
  unfold message_is_text, after_scan, invoke_scan.
  destruct (Py.get r "details"); try reflexivity.
  destruct (Py.has d "error" || Py.has d "message"); [|reflexivity].
  destruct (error_message_of d); try discriminate. reflexivity.
Qed.

Lemma after_scan_not_text (r : dict) :
  message_is_text r = false -> exists msg, after_scan r = Raise (AttributeError msg).
Proof.
  unfold message_is_text, after_scan, invoke_scan.
  destruct (Py.get r "details"); try discriminate.
  destruct (Py.has d "error" || Py.has d "message"); [|discriminate].
  destruct (error_message_of d); try discriminate; intros _; eexists; reflexivity.
Qed.

End InvokeFacts.

(** X4.  Once the signer is resolved, [invoke] puts exactly one request on
    the wire, the envelope of the call with every argument coerced to text and
    [strongread] set, leaves the call mode at invoke, and returns the record of
    [_req] unchanged whenever the details of that record give its log line
    nothing to scan or a text.  In [gemtest.py] this holds when no argument is
    [bytes]. *)
Theorem invoke_returns_transport_record
        (json_loads : string -> result value) (network : nat -> request -> net_outcome)
        (a func : string) (args : list pyarg) (st : state) (kid : string) (r : dict) :
  resolves_to a kid ->
  transport_record json_loads network (List.length (wire st))
                   (invoke_request kid func (map str_arg args)) = Ok r ->
  message_is_text r = true ->
  (fst (Test.invoke json_loads network a func args st) = Ok r
   /\ wire (snd (Test.invoke json_loads network a func args st))
      = wire st ++ [invoke_request kid func (map str_arg args)]
   /\ method_type (snd (Test.invoke json_loads network a func args st)) = "invoke")
  /\ (has_bytes args = false ->
      fst (Gemtest.invoke json_loads network a func args st) = Ok r
      /\ wire (snd (Gemtest.invoke json_loads network a func args st))
         = wire st ++ [invoke_request kid func (map str_arg args)]
      /\ method_type (snd (Gemtest.invoke json_loads network a func args st)) = "invoke").
Proof.
  intros Hres Htr Htext. split.
  - destruct (Test_invoke_resolved json_loads network a func args st kid Hres)
      as [E [W Mo]].
    rewrite Htr in E. rewrite E, (after_scan_text r Htext). auto.
  - intros Hb.
    destruct (Gemtest_invoke_resolved json_loads network a func args st kid Hres Hb)
      as [E [W Mo]].
    rewrite Htr in E. rewrite E, (after_scan_text r Htext). auto.
Qed.

Lemma invoke_returns_transport_record_witness :
  let peer := Runs.script [Runs.http_ok 202 EmptyString] in
  let run := Test.invoke Sample.loads peer "BobProcessing" "ProcessShipment"
                         [ArgStr "SHIP1"; ArgObj "3"] Sample.fresh in
  fst run = Ok [(VStr "status", VInt 202)]
  /\ wire (snd run)
     = [invoke_request "processor_bob_tester" "ProcessShipment" [PStr "SHIP1"; PStr "3"]]
  /\ method_type (snd run) = "invoke".
Proof.
  refine (proj1 (invoke_returns_transport_record Sample.loads
                   (Runs.script [Runs.http_ok 202 EmptyString])
                   "BobProcessing" "ProcessShipment" [ArgStr "SHIP1"; ArgObj "3"]
                   Sample.fresh "processor_bob_tester" [(VStr "status", VInt 202)]
                   _ _ _)).
  - exists (mkEntry "BobProcessing" "processor"). split; [|reflexivity].
    simpl. do 2 right. left. reflexivity.
  - vm_compute. reflexivity.
  - reflexivity.
Defined.

(** X5.  [invoke] is not exception free: when the details of the record
    returned by [_req] carry an [error] or [message] member and the message
    selected from them is not a text (a number, a list, an object, null), the
    scan made for the log line calls [lower] on it and the [AttributeError]
    leaves [invoke], after the request has been sent. *)
Theorem invoke_raises_on_non_text_message
        (json_loads : string -> result value) (network : nat -> request -> net_outcome)
        (a func : string) (args : list pyarg) (st : state) (kid : string) (r : dict) :
  resolves_to a kid ->
  transport_record json_loads network (List.length (wire st))
                   (invoke_request kid func (map str_arg args)) = Ok r ->
  message_is_text r = false ->
  exists msg,
    (fst (Test.invoke json_loads network a func args st) = Raise (AttributeError msg)
     /\ wire (snd (Test.invoke json_loads network a func args st))
        = wire st ++ [invoke_request kid func (map str_arg args)])
    /\ (has_bytes args = false ->
        fst (Gemtest.invoke json_loads network a func args st) = Raise (AttributeError msg)).
Proof.
  intros Hres Htr Htext.
  destruct (after_scan_not_text r Htext) as [msg Hmsg]. exists msg. split.
  - destruct (Test_invoke_resolved json_loads network a func args st kid Hres)
      as [E [W Mo]].
    rewrite Htr in E. rewrite E, Hmsg. auto.
  - intros Hb.
    destruct (Gemtest_invoke_resolved json_loads network a func args st kid Hres Hb)
      as [E [W Mo]].
    rewrite Htr in E. rewrite E, Hmsg. reflexivity.
Qed.

Lemma invoke_raises_on_non_text_message_witness :
  exists msg,
    fst (Test.invoke Runs.loads (Runs.script [Runs.http_ok 200 Runs.body_number_detail])
                     "AliceAcres" "CreateShipment" [] Sample.fresh)
    = Raise (AttributeError msg).
Proof.
  destruct (invoke_raises_on_non_text_message Runs.loads
              (Runs.script [Runs.http_ok 200 Runs.body_number_detail])
              "AliceAcres" "CreateShipment" [] Sample.fresh "farmer_alice_tester"
              [(VStr "status", VInt 200);
               (VStr "details", VDict [(VStr "error", VInt 7)])])
    as [msg [[E _] _]].
  - exists (mkEntry "AliceAcres" "farmer"). split; [|reflexivity].
    simpl. right. left. reflexivity.
  - vm_compute. reflexivity.
  - reflexivity.
  - exists msg. exact E.
Defined.

(** X6.  In [gemtest.py] a [bytes] argument is kept as it is, so
    [json.dumps] refuses the envelope: [invoke] raises the [TypeError] and
    sends nothing.  In [test.py] the same call coerces the argument to text and
    sends its request. *)
Theorem invoke_bytes_argument_refused
        (json_loads : string -> result value) (network : nat -> request -> net_outcome)
        (a func : string) (args : list pyarg) (st : state) (kid : string) :
  resolves_to a kid ->
  has_bytes args = true ->
  (fst (Gemtest.invoke json_loads network a func args st)
   = Raise (TypeError "Object of type bytes is not JSON serializable")
   /\ wire (snd (Gemtest.invoke json_loads network a func args st)) = wire st)
  /\ wire (snd (Test.invoke json_loads network a func args st))
     = wire st ++ [invoke_request kid func (map str_arg args)].
Proof.
  intros Hres Hb. split.
  - unfold Gemtest.invoke, bind, set_method_type, Gemtest.get_kaleido_kid_for_alias.
    match goal with
    | |- context [roster_lookup ?w a ?s] =>
        destruct (lookup_resolved w a kid s Hres) as [E1 E2]
    end.
    rewrite E1, E2. rewrite req_unsendable.
    + split; reflexivity.
    + simpl. rewrite (keep_bytes_unsendable args Hb). reflexivity.
  - apply (Test_invoke_resolved json_loads network a func args st kid Hres).
Qed.

Lemma invoke_bytes_argument_refused_witness :
  let peer := Runs.script [Runs.http_ok 202 EmptyString] in
  (fst (Gemtest.invoke Sample.loads peer "DaveDistribution" "DistributeShipment"
                       [ArgStr "SHIP1"; ArgBytes "b'raw'"] Sample.fresh)
   = Raise (TypeError "Object of type bytes is not JSON serializable")
   /\ wire (snd (Gemtest.invoke Sample.loads peer "DaveDistribution" "DistributeShipment"
                                [ArgStr "SHIP1"; ArgBytes "b'raw'"] Sample.fresh)) = [])
  /\ wire (snd (Test.invoke Sample.loads peer "DaveDistribution" "DistributeShipment"
                            [ArgStr "SHIP1"; ArgBytes "b'raw'"] Sample.fresh))
     = [invoke_request "distributor_dave_tester" "DistributeShipment"
                       [PStr "SHIP1"; PStr "b'raw'"]].
Proof.
  apply (invoke_bytes_argument_refused Sample.loads
           (Runs.script [Runs.http_ok 202 EmptyString])
           "DaveDistribution" "DistributeShipment" [ArgStr "SHIP1"; ArgBytes "b'raw'"]
           Sample.fresh "distributor_dave_tester").
  - exists (mkEntry "DaveDistribution" "distributor"). split; [|reflexivity].
    simpl. do 4 right. left. reflexivity.
  - reflexivity.
Defined.

(** X7.  When no argument is [bytes], [invoke] of [gemtest.py] and [invoke]
    of [test.py] agree on every call: the same value returned or exception
    raised, the same requests sent, the same call mode left behind.  They
    differ in what they log only. *)
Theorem invoke_scripts_agree
        (json_loads : string -> result value) (network : nat -> request -> net_outcome)
        (a func : string) (args : list pyarg) (st : state) :
  has_bytes args = false ->
  fst (Gemtest.invoke json_loads network a func args st)
  = fst (Test.invoke json_loads network a func args st)
  /\ wire (snd (Gemtest.invoke json_loads network a func args st))
     = wire (snd (Test.invoke json_loads network a func args st))
  /\ method_type (snd (Gemtest.invoke json_loads network a func args st))
     = method_type (snd (Test.invoke json_loads network a func args st)).
Proof.
  intros Hb. destruct (resolved_or_not a) as [[kid Hres]|Hun].
  - destruct (Test_invoke_resolved json_loads network a func args st kid Hres)
      as [E [W Mo]].
    destruct (Gemtest_invoke_resolved json_loads network a func args st kid Hres Hb)
      as [E' [W' Mo']].
    rewrite E, E', W, W', Mo, Mo'. auto.
  - unfold Test.invoke, Gemtest.invoke, bind, set_method_type.
    unfold Test.get_kaleido_kid_for_alias, Gemtest.get_kaleido_kid_for_alias.
    rewrite !(lookup_unresolved _ a _ Hun). repeat split; reflexivity.
Qed.

Lemma invoke_scripts_agree_witness :
  let peer := Runs.script [Runs.http_error 500 "Internal Server Error" Sample.body_denied] in
  fst (Gemtest.invoke Sample.loads peer "EveMart" "ReceiveShipment" [ArgObj "7"]
                      Sample.fresh)
  = fst (Test.invoke Sample.loads peer "EveMart" "ReceiveShipment" [ArgObj "7"]
                     Sample.fresh).
Proof.
  apply (invoke_scripts_agree Sample.loads
           (Runs.script [Runs.http_error 500 "Internal Server Error" Sample.body_denied])
           "EveMart" "ReceiveShipment" [ArgObj "7"] Sample.fresh).
  reflexivity.
Defined.

(* ------------------------------------------------------------------------- *)
(** ** [query] *)

Section QueryFacts.

Variable json_loads : string -> result value.
Variable network : nat -> request -> net_outcome.

Ltac split_tests :=
  repeat match goal with
         | |- context [if ?c then _ else _] => destruct c eqn:?
         end.

Lemma get_present (r : dict) (k : string) :
  Py.is_none (Py.get r k) = false -> Py.has r k = true.
Proof.
  unfold Py.get, Py.get_d, Py.has. destruct (Py.lookup (VStr k) r); [reflexivity|].
  discriminate.
Qed.

Lemma query_payload_sendable (kid func : string) (args : list pyarg) :
  sendable (payload (query_request kid func args)) = true.
Proof. simpl. rewrite andb_true_r. apply str_args_sendable. Qed.

(** The outcome of [query] in [test.py] once the signer is resolved. *)
Lemma Test_query_resolved (a func : string) (args : list pyarg) (st : state)
      (kid : string) :
  resolves_to a kid ->
  fst (Test.query json_loads network a func args st)
  = match transport_record json_loads network (List.length (wire st))
                           (query_request kid func args) with
    | Ok r => Ok (unwrapped json_loads r)
    | Raise e => Raise e
    end
  /\ wire (snd (Test.query json_loads network a func args st))
     = wire st ++ [query_request kid func args]
  /\ method_type (snd (Test.query json_loads network a func args st)) = "query".
Proof.
  intros Hres.
  unfold Test.query, bind, set_method_type, Test.get_kaleido_kid_for_alias.
  match goal with
  | |- context [roster_lookup ?w a ?s] =>
      destruct (lookup_resolved w a kid s Hres) as [E1 E2]
  end.
  rewrite E1, E2. rewrite req_run by apply (query_payload_sendable kid func args).
  unfold query_request. simpl wire.
  destruct (transport_record json_loads network _ _) as [r|e];
    [|repeat split; reflexivity].
  unfold unwrapped, Test.process_result, sent.
  destruct (Py.eq_int (Py.get r "status") 200); [|repeat split; reflexivity].
  destruct (Py.get r "result") as [| | | |text| |];
    try (repeat split; reflexivity).
  cbn [Py.is_none negb].
  destruct (PyStr.strip text =? ""); [repeat split; reflexivity|].
  destruct (json_loads text) as [doc|e]; [|repeat split; reflexivity].
  destruct doc; repeat split; reflexivity.
Qed.

(** The same for [query] in [gemtest.py]. *)
Lemma Gemtest_query_resolved (a func : string) (args : list pyarg) (st : state)
      (kid : string) :
  resolves_to a kid ->
  fst (Gemtest.query json_loads network a func args st)
  = match transport_record json_loads network (List.length (wire st))
                           (query_request kid func args) with
    | Ok r => Ok (unwrapped json_loads r)
    | Raise e => Raise e
    end
  /\ wire (snd (Gemtest.query json_loads network a func args st))
     = wire st ++ [query_request kid func args]
  /\ method_type (snd (Gemtest.query json_loads network a func args st)) = "query".
Proof.
  intros Hres.
  unfold Gemtest.query, bind, set_method_type, Gemtest.get_kaleido_kid_for_alias.
  match goal with
  | |- context [roster_lookup ?w a ?s] =>
      destruct (lookup_resolved w a kid s Hres) as [E1 E2]
  end.
  rewrite E1, E2. rewrite req_run by apply (query_payload_sendable kid func args).
  unfold query_request. simpl wire.
  destruct (transport_record json_loads network _ _) as [r|e];
    [|repeat split; reflexivity].
  unfold unwrapped, Gemtest.process_result, sent.
  destruct (Py.eq_int (Py.get r "status") 200); [|repeat split; reflexivity].
  destruct (Py.is_none (Py.get r "result")) eqn:N.
  - rewrite andb_false_r.
    destruct (Py.get r "result"); try discriminate N. repeat split; reflexivity.
  - rewrite (get_present r "result" N). cbn [andb negb].
    destruct (Py.get r "result") as [| | | |text| |];
      try discriminate N; try (repeat split; reflexivity).
    destruct (PyStr.strip text =? ""); [repeat split; reflexivity|].
    destruct (json_loads text) as [doc|e];
      [|destruct (Py.is_JSONDecodeError e); repeat split; reflexivity].
    destruct doc; repeat split; reflexivity.
Qed.

End QueryFacts.

(** X8.  A read-only call whose record has status 200 and a [result] text
    that is not blank and decodes to a value other than null returns that
    decoded value, in both scripts, after exactly one request to the query
    endpoint. *)
Theorem query_returns_decoded_result
        (json_loads : string -> result value) (network : nat -> request -> net_outcome)
        (a func : string) (args : list pyarg) (st : state)
        (kid : string) (r : dict) (text : string) (doc : value) :
  resolves_to a kid ->
  transport_record json_loads network (List.length (wire st)) (query_request kid func args)
  = Ok r ->
  Py.eq_int (Py.get r "status") 200 = true ->
  Py.get r "result" = VStr text ->
  PyStr.strip text <> EmptyString ->
  json_loads text = Ok doc ->
  doc <> VNone ->
  fst (Test.query json_loads network a func args st) = Ok doc
  /\ fst (Gemtest.query json_loads network a func args st) = Ok doc
  /\ wire (snd (Test.query json_loads network a func args st))
     = wire st ++ [query_request kid func args].
Proof.
  intros Hres Htr Hs Hr Hb Hl Hd.
  destruct (Test_query_resolved json_loads network a func args st kid Hres) as [E [W _]].
  destruct (Gemtest_query_resolved json_loads network a func args st kid Hres) as [E' _].
  rewrite Htr in E, E'.
  assert (U : unwrapped json_loads r = doc).
  { unfold unwrapped. rewrite Hs, Hr. apply String.eqb_neq in Hb. rewrite Hb, Hl.
    destruct doc; try reflexivity. contradiction. }
  rewrite U in E, E'. auto.
Qed.

Lemma query_returns_decoded_result_witness :
  let peer := Runs.script [Runs.http_ok 200 Sample.body_shipments] in
  let shipments := VList [VDict [(VStr "id", VStr "SHIP1"); (VStr "status", VStr "CREATED")]] in
  fst (Test.query Sample.loads peer "EveMart" "GetAllShipments" [] Sample.fresh)
  = Ok shipments
  /\ fst (Gemtest.query Sample.loads peer "EveMart" "GetAllShipments" [] Sample.fresh)
     = Ok shipments
  /\ wire (snd (Test.query Sample.loads peer "EveMart" "GetAllShipments" [] Sample.fresh))
     = [query_request "retailer_eve_tester" "GetAllShipments" []].
Proof.
  apply (query_returns_decoded_result Sample.loads
           (Runs.script [Runs.http_ok 200 Sample.body_shipments])
           "EveMart" "GetAllShipments" [] Sample.fresh "retailer_eve_tester"
           [(VStr "status", VInt 200); (VStr "result", VStr Sample.text_shipments)]
           Sample.text_shipments).
  - exists (mkEntry "EveMart" "retailer"). split; [|reflexivity].
    simpl. do 5 right. left. reflexivity.
  - vm_compute. reflexivity.
  - reflexivity.
  - reflexivity.
  - vm_compute. discriminate.
  - vm_compute. reflexivity.
  - discriminate.
Defined.

(** X9.  A read-only call whose record has status 200 and a [result] text
    that is not blank and on which the decoder raises, a
    [json.JSONDecodeError] or any other exception, returns that text itself, in
    both scripts: the exception is caught, none is raised. *)
Theorem query_falls_back_to_raw_text
        (json_loads : string -> result value) (network : nat -> request -> net_outcome)
        (a func : string) (args : list pyarg) (st : state)
        (kid : string) (r : dict) (text : string) (e : exn) :
  resolves_to a kid ->
  transport_record json_loads network (List.length (wire st)) (query_request kid func args)
  = Ok r ->
  Py.eq_int (Py.get r "status") 200 = true ->
  Py.get r "result" = VStr text ->
  PyStr.strip text <> EmptyString ->
  json_loads text = Raise e ->
  fst (Test.query json_loads network a func args st) = Ok (VStr text)
  /\ fst (Gemtest.query json_loads network a func args st) = Ok (VStr text).
Proof.
  intros Hres Htr Hs Hr Hb Hl.
  destruct (Test_query_resolved json_loads network a func args st kid Hres) as [E _].
  destruct (Gemtest_query_resolved json_loads network a func args st kid Hres) as [E' _].
  rewrite Htr in E, E'.
  assert (U : unwrapped json_loads r = VStr text).
  { unfold unwrapped. rewrite Hs, Hr. apply String.eqb_neq in Hb. now rewrite Hb, Hl. }
  rewrite U in E, E'. auto.
Qed.

Lemma query_falls_back_to_raw_text_witness :
  let peer := Runs.script [Runs.http_ok 200 Runs.body_note] in
  fst (Test.query Runs.loads peer "EveMart" "GetNote" [] Sample.fresh)
  = Ok (VStr "<not json>")
  /\ fst (Gemtest.query Runs.loads peer "EveMart" "GetNote" [] Sample.fresh)
     = Ok (VStr "<not json>").
Proof.
  apply (query_falls_back_to_raw_text Runs.loads
           (Runs.script [Runs.http_ok 200 Runs.body_note])
           "EveMart" "GetNote" [] Sample.fresh "retailer_eve_tester"
           [(VStr "status", VInt 200); (VStr "result", VStr "<not json>")] "<not json>"
           (JSONDecodeError "Expecting value: line 1 column 1 (char 0)")).
  - exists (mkEntry "EveMart" "retailer"). split; [|reflexivity].
    simpl. do 5 right. left. reflexivity.
  - vm_compute. reflexivity.
  - reflexivity.
  - reflexivity.
  - vm_compute. discriminate.
  - reflexivity.
Defined.

(** X10.  A read-only call whose record has status 200 and a [result] that
    the gateway has already decoded (anything but a text or null) returns that
    value unchanged, in both scripts. *)
Theorem query_passes_decoded_result_through
        (json_loads : string -> result value) (network : nat -> request -> net_outcome)
        (a func : string) (args : list pyarg) (st : state) (kid : string) (r : dict) :
  resolves_to a kid ->
  transport_record json_loads network (List.length (wire st)) (query_request kid func args)
  = Ok r ->
  Py.eq_int (Py.get r "status") 200 = true ->
  Py.is_none (Py.get r "result") = false ->
  (forall text, Py.get r "result" <> VStr text) ->
  fst (Test.query json_loads network a func args st) = Ok (Py.get r "result")
  /\ fst (Gemtest.query json_loads network a func args st) = Ok (Py.get r "result").
Proof.
  intros Hres Htr Hs Hn Ht.
  destruct (Test_query_resolved json_loads network a func args st kid Hres) as [E _].
  destruct (Gemtest_query_resolved json_loads network a func args st kid Hres) as [E' _].
  rewrite Htr in E, E'.
  assert (U : unwrapped json_loads r = Py.get r "result").
  { unfold unwrapped. rewrite Hs.
    destruct (Py.get r "result") as [| | | |text| |]; try reflexivity.
    - discriminate Hn.
    - exfalso. exact (Ht text eq_refl). }
  rewrite U in E, E'. auto.
Qed.

Lemma query_passes_decoded_result_through_witness :
  let peer := Runs.script [Runs.http_ok 200 Runs.body_predecoded] in
  fst (Test.query Runs.loads peer "AliceAcres" "GetShipment" [ArgStr "SHIP1"] Sample.fresh)
  = Ok (VDict [(VStr "id", VStr "SHIP1")])
  /\ fst (Gemtest.query Runs.loads peer "AliceAcres" "GetShipment" [ArgStr "SHIP1"]
                        Sample.fresh)
     = Ok (VDict [(VStr "id", VStr "SHIP1")]).
Proof.
  apply (query_passes_decoded_result_through Runs.loads
           (Runs.script [Runs.http_ok 200 Runs.body_predecoded])
           "AliceAcres" "GetShipment" [ArgStr "SHIP1"] Sample.fresh "farmer_alice_tester"
           [(VStr "status", VInt 200); (VStr "result", VDict [(VStr "id", VStr "SHIP1")])]).
  - exists (mkEntry "AliceAcres" "farmer"). split; [|reflexivity].
    simpl. right. left. reflexivity.
  - vm_compute. reflexivity.
  - reflexivity.
  - reflexivity.
  - intros text. discriminate.
Defined.

(** X11.  A read-only call returns the whole record of [_req], in both
    scripts, in each of these cases: the status is not 200; the record has no
    [result] or a null one; the [result] is a text that decodes to null. *)
Theorem query_returns_record_without_value
        (json_loads : string -> result value) (network : nat -> request -> net_outcome)
        (a func : string) (args : list pyarg) (st : state) (kid : string) (r : dict) :
  resolves_to a kid ->
  transport_record json_loads network (List.length (wire st)) (query_request kid func args)
  = Ok r ->
  Py.eq_int (Py.get r "status") 200 = false
  \/ Py.is_none (Py.get r "result") = true
  \/ (exists text, Py.get r "result" = VStr text /\ json_loads text = Ok VNone) ->
  fst (Test.query json_loads network a func args st) = Ok (VDict r)
  /\ fst (Gemtest.query json_loads network a func args st) = Ok (VDict r).
Proof.
  intros Hres Htr Hc.
  destruct (Test_query_resolved json_loads network a func args st kid Hres) as [E _].
  destruct (Gemtest_query_resolved json_loads network a func args st kid Hres) as [E' _].
  rewrite Htr in E, E'.
  assert (U : unwrapped json_loads r = VDict r).
  { unfold unwrapped. destruct (Py.eq_int (Py.get r "status") 200); [|reflexivity].
    destruct Hc as [Hc|[Hc|[text [Hr Hl]]]].
    - discriminate.
    - destruct (Py.get r "result"); try discriminate Hc. reflexivity.
    - rewrite Hr, Hl. destruct (PyStr.strip text =? ""); reflexivity. }
  rewrite U in E, E'. auto.
Qed.

Lemma query_returns_record_without_value_witness :
  let peer := Runs.script [Runs.http_ok 200 Runs.body_null_text] in
  let r := [(VStr "status", VInt 200); (VStr "result", VStr "null")] in
  fst (Test.query Runs.loads peer "AliceAcres" "GetShipment" [ArgStr "SHIP9"] Sample.fresh)
  = Ok (VDict r)
  /\ fst (Gemtest.query Runs.loads peer "AliceAcres" "GetShipment" [ArgStr "SHIP9"]
                        Sample.fresh) = Ok (VDict r).
Proof.
  apply (query_returns_record_without_value Runs.loads
           (Runs.script [Runs.http_ok 200 Runs.body_null_text])
           "AliceAcres" "GetShipment" [ArgStr "SHIP9"] Sample.fresh "farmer_alice_tester"
           [(VStr "status", VInt 200); (VStr "result", VStr "null")]).
  - exists (mkEntry "AliceAcres" "farmer"). split; [|reflexivity].
    simpl. right. left. reflexivity.
  - vm_compute. reflexivity.
  - right. right. exists "null". split; reflexivity.
Defined.

(** X12.  [query] of [gemtest.py] and [query] of [test.py] agree on every
    call: the same value returned or exception raised, the same requests sent,
    the call mode left at query.  Neither raises on its own: an exception that
    leaves [query] is the one that left [_req] for the request of a resolved
    signer. *)
Theorem query_scripts_agree
        (json_loads : string -> result value) (network : nat -> request -> net_outcome)
        (a func : string) (args : list pyarg) (st : state) :
  fst (Gemtest.query json_loads network a func args st)
  = fst (Test.query json_loads network a func args st)
  /\ wire (snd (Gemtest.query json_loads network a func args st))
     = wire (snd (Test.query json_loads network a func args st))
  /\ method_type (snd (Gemtest.query json_loads network a func args st)) = "query"
  /\ method_type (snd (Test.query json_loads network a func args st)) = "query"
  /\ (forall e,
        fst (Test.query json_loads network a func args st) = Raise e ->
        exists kid,
          resolves_to a kid
          /\ transport_record json_loads network (List.length (wire st))
                              (query_request kid func args) = Raise e).
Proof.
  destruct (resolved_or_not a) as [[kid Hres]|Hun].
  - destruct (Test_query_resolved json_loads network a func args st kid Hres)
      as [E [W Mo]].
    destruct (Gemtest_query_resolved json_loads network a func args st kid Hres)
      as [E' [W' Mo']].
    rewrite E', W', Mo'. repeat split; auto.
    intros e He. exists kid. split; [exact Hres|].
    rewrite E in He.
    destruct (transport_record json_loads network _ _); [discriminate|].
    injection He as ->. reflexivity.
  - unfold Test.query, Gemtest.query, bind, set_method_type.
    unfold Test.get_kaleido_kid_for_alias, Gemtest.get_kaleido_kid_for_alias.
    rewrite !(lookup_unresolved _ a _ Hun). repeat split; try reflexivity.
    intros e He. discriminate He.
Qed.

Lemma query_scripts_agree_witness :
  let peer := Runs.script [Runs.http_error 404 "Not Found" Sample.body_denied] in
  fst (Gemtest.query Sample.loads peer "EveMart" "GetAllShipments" [] Sample.fresh)
  = fst (Test.query Sample.loads peer "EveMart" "GetAllShipments" [] Sample.fresh)
  /\ fst (Test.query Sample.loads peer "EveMart" "GetAllShipments" [] Sample.fresh)
     = Ok (VDict [(VStr "err", VStr "HTTP 404");
                  (VStr "details", VDict [(VStr "error", VStr "denied")]);
                  (VStr "status", VInt 404)]).
Proof.
  split.
  - apply (query_scripts_agree Sample.loads
             (Runs.script [Runs.http_error 404 "Not Found" Sample.body_denied])
             "EveMart" "GetAllShipments" [] Sample.fresh).
  - vm_compute. reflexivity.
Defined.

(* ------------------------------------------------------------------------- *)
(** ** [ok]: the exact conditions of a PASS *)

Section OkFacts.

Ltac split_tests :=
  repeat match goal with
         | |- context [if ?c then _ else _] => destruct c eqn:?
         end.

(** A computation that ends in [return False] does not answer PASS. *)
Lemma ends_false_not_true {A : Type} (m : M A) (st : state) :
  fst (bind m (fun _ => ret false) st) <> Ok true.
Proof. unfold bind, ret. destruct (m st) as [[x|e] st']; simpl; discriminate. Qed.

Lemma Test_ok_fail_not_true (r : dict) (status : value) (codes : list Z) (st : state) :
  fst (Test.ok_fail r status codes st) <> Ok true.
Proof.
  unfold Test.ok_fail. unfold bind at 1. cbn [log]. apply ends_false_not_true.
Qed.

Lemma Gemtest_ok_fail_not_true (r : dict) (status : value) (codes : list Z) (st : state) :
  fst (Gemtest.ok_fail r status codes st) <> Ok true.
Proof.
  unfold Gemtest.ok_fail.
  destruct (Py.get r "details") as [| | | | | |d]; try apply ends_false_not_true.
  unfold bind at 1.
  destruct (Gemtest.chaincode_marker (error_message_of d) st) as [[found|e] st'];
    [destruct found|]; try apply ends_false_not_true.
  simpl. discriminate.
Qed.

Lemma Test_ok_fail_safe (r : dict) (status : value) (codes : list Z) (st : state) :
  scan_is_safe r = true -> fst (Test.ok_fail r status codes st) = Ok false.
Proof.
  unfold scan_is_safe, Test.ok_fail, Test.chaincode_marker, bind, log, ret, when.
  destruct (Py.get r "details") as [| | | | | |d]; try reflexivity.
  destruct (Py.truthy (VDict d)); [|reflexivity].
  destruct (error_message_of d) as [| | | |text| |]; try discriminate.
  intros _. rewrite marker_scan. destruct (has_marker text); reflexivity.
Qed.

Lemma Gemtest_ok_fail_safe (r : dict) (status : value) (codes : list Z) (st : state) :
  scan_is_safe r = true -> fst (Gemtest.ok_fail r status codes st) = Ok false.
Proof.
  unfold scan_is_safe, Gemtest.ok_fail, Gemtest.chaincode_marker, bind, log, ret.
  destruct (Py.get r "details") as [| | | | | |d]; try reflexivity.
  destruct (error_message_of d) as [| | | |text| |]; try discriminate.
  intros _. rewrite marker_scan. destruct (has_marker text); reflexivity.
Qed.

(** An integer status equal to a literal is that literal. *)
Lemma as_int_literal (status : value) (code lit : Z) :
  Py.as_int status = Some code -> (code =? lit)%Z = true -> (1 < lit)%Z ->
  status = VInt lit.
Proof.
  intros H E L. apply Z.eqb_eq in E. subst code.
  destruct status; try discriminate.
  - destruct b; simpl in H; injection H as H; lia.
  - simpl in H. now injection H as ->.
Qed.

Lemma existsb_In (code : Z) (l : list Z) : existsb (Z.eqb code) l = true <-> In code l.
Proof.
  rewrite existsb_exists. split.
  - intros [x [Hin E]]. apply Z.eqb_eq in E. now subst.
  - intros H. exists code. split; [exact H | apply Z.eqb_refl].
Qed.

End OkFacts.

(** X13.  In invoke mode [ok] answers PASS in exactly two cases, in both
    scripts: the status is a text that reads VALID in any letter case; or the
    status is the integer 202 and 202 is acceptable.  A list of expected codes
    can therefore withdraw 202 but cannot make any other code pass. *)
Theorem ok_invoke_pass_iff (r : dict) (codes : option (list Z)) (st : state) :
  method_type st = "invoke" ->
  (fst (Test.ok r codes st) = Ok true
   <-> is_VALID (Py.get r "status") = true
       \/ (Py.get r "status" = VInt 202 /\ In 202%Z (acceptable_set "invoke" codes)))
  /\ (fst (Gemtest.ok r codes st) = Ok true
      <-> is_VALID (Py.get r "status") = true
          \/ (Py.get r "status" = VInt 202 /\ In 202%Z (acceptable_set "invoke" codes))).
Proof.
  intros Hm.
  assert (Hacc : acceptable_set "invoke" codes
                 = match codes with Some l => l | None => [202%Z] end)
    by (destruct codes; reflexivity).
  rewrite Hacc. clear Hacc.
  unfold Test.ok, Gemtest.ok, bind, get_method_type. rewrite Hm.
  cbn [String.eqb Ascii.eqb Bool.eqb andb].
  set (expected := match codes with Some l => l | None => [202%Z] end).
  destruct (is_VALID (Py.get r "status")) eqn:V.
  { split; split; intros _; auto; reflexivity. }
  destruct (Py.as_int (Py.get r "status")) as [code|] eqn:A.
  - destruct (existsb (Z.eqb code) expected) eqn:X.
    + destruct (code =? 202)%Z eqn:C.
      * pose proof (as_int_literal _ _ _ A C ltac:(lia)) as S.
        apply Z.eqb_eq in C. subst code. apply existsb_In in X.
        split; split; intros _; auto; reflexivity.
      * split; split.
        -- intros H. exfalso. exact (Test_ok_fail_not_true _ _ _ _ H).
        -- intros [F|[S _]]; [discriminate|].
           rewrite S in A. simpl in A. injection A as <-. discriminate C.
        -- intros H. exfalso. exact (Gemtest_ok_fail_not_true _ _ _ _ H).
        -- intros [F|[S _]]; [discriminate|].
           rewrite S in A. simpl in A. injection A as <-. discriminate C.
    + split; split.
      * intros H. exfalso. exact (Test_ok_fail_not_true _ _ _ _ H).
      * intros [F|[S I]]; [discriminate|].
        rewrite S in A. simpl in A. injection A as <-.
        apply existsb_In in I. rewrite I in X. discriminate.
      * intros H. exfalso. exact (Gemtest_ok_fail_not_true _ _ _ _ H).
      * intros [F|[S I]]; [discriminate|].
        rewrite S in A. simpl in A. injection A as <-.
        apply existsb_In in I. rewrite I in X. discriminate.
  - split; split.
    + intros H. exfalso. exact (Test_ok_fail_not_true _ _ _ _ H).
    + intros [F|[S _]]; [discriminate|]. rewrite S in A. discriminate.
    + intros H. exfalso. exact (Gemtest_ok_fail_not_true _ _ _ _ H).
    + intros [F|[S _]]; [discriminate|]. rewrite S in A. discriminate.
Qed.

Lemma ok_invoke_pass_iff_witness :
  fst (Test.ok [(VStr "status", VInt 201)] (Some [201%Z; 202%Z]) Sample.fresh) <> Ok true
  /\ fst (Gemtest.ok [(VStr "status", VInt 201)] (Some [201%Z; 202%Z]) Sample.fresh)
     <> Ok true.
Proof.
  destruct (ok_invoke_pass_iff [(VStr "status", VInt 201)] (Some [201%Z; 202%Z])
                               Sample.fresh eq_refl) as [[T _] [G _]].
  split; intros H; [apply T in H | apply G in H];
    destruct H as [H|[H _]]; discriminate H.
Defined.

Lemma Test_marker_non_text (msg : value) (st : state) :
  (forall text, msg <> VStr text) ->
  (exists e, Test.chaincode_marker msg st = (Raise e, st))
  \/ Test.chaincode_marker msg st = (Ok true, st).
Proof.
  intros H. unfold Test.chaincode_marker, orM, in_lower, lift, bind, ret.
  destruct msg as [| | | |text|l|d]; simpl;
    try (left; eexists; reflexivity).
  - exfalso. exact (H text eq_refl).
  - destruct (existsb _ l); [right; reflexivity | left; eexists; reflexivity].
  - destruct (Py.has d "Description: "); [right; reflexivity | left; eexists; reflexivity].
Qed.

Lemma as_int_200 (status : value) (code : Z) :
  Py.as_int status = Some code -> (code =? 200)%Z = true -> status = VInt 200.
Proof. intros A C. apply (as_int_literal status code 200 A C). lia. Qed.

(** X14.  In query mode the classifier of [test.py] answers PASS exactly
    when the status is the integer 200, 200 is acceptable, and the details are
    clean: absent, not an object, empty, or with a selected message that is a
    text without a failure marker.  The [result] member plays no part. *)
Theorem Test_ok_query_pass_iff (r : dict) (codes : option (list Z)) (st : state) :
  method_type st = "query" ->
  fst (Test.ok r codes st) = Ok true
  <-> Py.get r "status" = VInt 200
      /\ In 200%Z (acceptable_set "query" codes)
      /\ details_clean r = true.
Proof.
  intros Hm. split.
  - unfold Test.ok, bind, get_method_type. rewrite Hm.
    cbn [String.eqb Ascii.eqb Bool.eqb andb].
    replace (match codes with Some l => l | None => [200%Z] end)
      with (acceptable_set "query" codes) by (destruct codes; reflexivity).
    destruct (Py.as_int (Py.get r "status")) as [code|] eqn:A;
      [|intros H; exfalso; exact (Test_ok_fail_not_true _ _ _ _ H)].
    destruct (existsb (Z.eqb code) (acceptable_set "query" codes)) eqn:X;
      [|intros H; exfalso; exact (Test_ok_fail_not_true _ _ _ _ H)].
    destruct (code =? 200)%Z eqn:C;
      [|intros H; exfalso; exact (Test_ok_fail_not_true _ _ _ _ H)].
    pose proof (as_int_200 _ _ A C) as S.
    apply Z.eqb_eq in C. subst code. apply existsb_In in X.
    intros H. split; [exact S|]. split; [exact X|].
    unfold details_clean.
    destruct (Py.get r "details") as [| | | | | |d]; try reflexivity.
    destruct d as [|kv d]; [reflexivity|].
    cbn [Py.truthy] in H. unfold bind in H.
    destruct (error_message_of (kv :: d)) as [| | | |text| |] eqn:M;
      try (exfalso;
           match type of H with
           | context [Test.chaincode_marker ?m ?s] =>
               destruct (Test_marker_non_text m s ltac:(intros ?; discriminate))
                 as [[e Hc]|Hc]; rewrite Hc in H; simpl in H; discriminate H
           end).
    unfold Test.chaincode_marker in H. rewrite marker_scan in H.
    destruct (has_marker text); [simpl in H; discriminate H | reflexivity].
  - intros [S [I C]]. now apply Test_ok_query_200_clean.
Qed.

Lemma Test_ok_query_pass_iff_witness :
  fst (Test.ok [(VStr "status", VInt 200); (VStr "result", VStr "Description: boom")]
               None (Sample.in_mode "query")) = Ok true.
Proof.
  apply (Test_ok_query_pass_iff
           [(VStr "status", VInt 200); (VStr "result", VStr "Description: boom")]
           None (Sample.in_mode "query") eq_refl).
  split; [reflexivity|]. split; [simpl; now left | reflexivity].
Defined.

(** X15.  In query mode the classifier of [gemtest.py] answers PASS exactly
    when the status is the integer 200, 200 is acceptable, the record has no
    truthy [err] member, and its [result] is not a text with a failure marker.
    The [details] member plays no part. *)
Theorem Gemtest_ok_query_pass_iff (r : dict) (codes : option (list Z)) (st : state) :
  method_type st = "query" ->
  fst (Gemtest.ok r codes st) = Ok true
  <-> Py.get r "status" = VInt 200
      /\ In 200%Z (acceptable_set "query" codes)
      /\ Py.truthy (Py.get r "err") = false
      /\ (forall text, Py.get r "result" = VStr text -> has_marker text = false).
Proof.
  intros Hm. split.
  - unfold Gemtest.ok, bind, get_method_type. rewrite Hm.
    cbn [String.eqb Ascii.eqb Bool.eqb andb].
    replace (match codes with Some l => l | None => [200%Z] end)
      with (acceptable_set "query" codes) by (destruct codes; reflexivity).
    destruct (Py.as_int (Py.get r "status")) as [code|] eqn:A;
      [|intros H; exfalso; exact (Gemtest_ok_fail_not_true _ _ _ _ H)].
    destruct (existsb (Z.eqb code) (acceptable_set "query" codes)) eqn:X;
      [|intros H; exfalso; exact (Gemtest_ok_fail_not_true _ _ _ _ H)].
    destruct (code =? 200)%Z eqn:C;
      [|intros H; exfalso; exact (Gemtest_ok_fail_not_true _ _ _ _ H)].
    pose proof (as_int_200 _ _ A C) as S.
    apply Z.eqb_eq in C. subst code. apply existsb_In in X.
    destruct (Py.truthy (Py.get r "err")); [simpl; discriminate|].
    destruct (Gemtest.result_has_marker (Py.get r "result")) eqn:R;
      [simpl; discriminate|].
    intros _. repeat split; auto.
    intros text Ht. rewrite Ht in R. exact R.
  - intros [S [I [E R]]]. apply Gemtest_ok_query_200_clean; auto.
    destruct (Py.get r "result") as [| | | |text| |]; try reflexivity.
    exact (R text eq_refl).
Qed.

Lemma Gemtest_ok_query_pass_iff_witness :
  fst (Gemtest.ok [(VStr "status", VInt 200);
                   (VStr "details", VDict [(VStr "error", VStr "Description: boom")])]
                  None (Sample.in_mode "query")) = Ok true.
Proof.
  apply (Gemtest_ok_query_pass_iff
           [(VStr "status", VInt 200);
            (VStr "details", VDict [(VStr "error", VStr "Description: boom")])]
           None (Sample.in_mode "query") eq_refl).
  split; [reflexivity|]. split; [simpl; now left|]. split; [reflexivity|].
  intros text H. discriminate H.
Defined.

(** A record whose integer status is neither 200 nor 202, and whose details
    are safe to scan, is classified FAIL in every mode. *)
Lemma ok_other_code_fails (r : dict) (c : Z) (codes : option (list Z)) (st : state) :
  Py.get r "status" = VInt c ->
  c <> 200%Z -> c <> 202%Z ->
  scan_is_safe r = true ->
  fst (Test.ok r codes st) = Ok false /\ fst (Gemtest.ok r codes st) = Ok false.
Proof.
  intros S H200 H202 Hsafe.
  apply Z.eqb_neq in H200. apply Z.eqb_neq in H202.
  unfold Test.ok, Gemtest.ok, bind, get_method_type. rewrite S.
  cbn [is_VALID Py.as_int andb]. rewrite !andb_false_r. rewrite H200, H202.
  rewrite !andb_false_r.
  split.
  - destruct (existsb _ _); apply (Test_ok_fail_safe r _ _ _ Hsafe).
  - destruct (existsb _ _); apply (Gemtest_ok_fail_safe r _ _ _ Hsafe).
Qed.

(** X16.  [ok] returns a verdict, PASS or FAIL, and raises nothing, in every
    mode and in both scripts, whenever the details of the record are absent,
    not an object, or an object whose selected message is a text. *)
Theorem ok_returns_verdict_when_scan_is_safe
        (r : dict) (codes : option (list Z)) (st : state) :
  scan_is_safe r = true ->
  (exists verdict, fst (Test.ok r codes st) = Ok verdict)
  /\ (exists verdict, fst (Gemtest.ok r codes st) = Ok verdict).
Proof.
  intros Hsafe. split.
  - unfold Test.ok, bind, get_method_type.
    destruct (_ && is_VALID _); [eexists; reflexivity|].
    destruct (Py.as_int _) as [code|];
      [|eexists; apply (Test_ok_fail_safe r _ _ _ Hsafe)].
    destruct (existsb _ _); [|eexists; apply (Test_ok_fail_safe r _ _ _ Hsafe)].
    destruct (_ && (code =? 200)%Z).
    + unfold scan_is_safe in Hsafe.
      destruct (Py.get r "details") as [| | | | | |d];
        try (eexists; apply Test_ok_query_pass_true).
      destruct (Py.truthy (VDict d)); [|eexists; apply Test_ok_query_pass_true].
      destruct (error_message_of d) as [| | | |text| |]; try discriminate Hsafe.
      unfold Test.chaincode_marker. rewrite marker_scan.
      destruct (has_marker text); eexists; [reflexivity | apply Test_ok_query_pass_true].
    + destruct (_ && (code =? 202)%Z); eexists;
        [reflexivity | apply (Test_ok_fail_safe r _ _ _ Hsafe)].
  - unfold Gemtest.ok, bind, get_method_type.
    destruct (_ && is_VALID _); [eexists; reflexivity|].
    destruct (Py.as_int _) as [code|];
      [|eexists; apply (Gemtest_ok_fail_safe r _ _ _ Hsafe)].
    destruct (existsb _ _); [|eexists; apply (Gemtest_ok_fail_safe r _ _ _ Hsafe)].
    destruct (_ && (code =? 200)%Z).
    + destruct (Py.truthy _); [eexists; reflexivity|].
      destruct (Gemtest.result_has_marker _); eexists; reflexivity.
    + destruct (_ && (code =? 202)%Z); eexists;
        [reflexivity | apply (Gemtest_ok_fail_safe r _ _ _ Hsafe)].
Qed.

Lemma ok_returns_verdict_when_scan_is_safe_witness :
  (exists verdict,
     fst (Test.ok [(VStr "status", VInt 500);
                   (VStr "details", VDict [(VStr "message", VStr "peer unreachable")])]
                  None Sample.fresh) = Ok verdict)
  /\ (exists verdict,
        fst (Gemtest.ok [(VStr "status", VInt 500);
                         (VStr "details", VDict [(VStr "message", VStr "peer unreachable")])]
                        None Sample.fresh) = Ok verdict).
Proof.
  apply (ok_returns_verdict_when_scan_is_safe
           [(VStr "status", VInt 500);
            (VStr "details", VDict [(VStr "message", VStr "peer unreachable")])]
           None Sample.fresh).
  reflexivity.
Defined.

(** X17.  The record that [invoke] and [query] return for an unresolved
    signer alias is classified FAIL by the classifier that runs next, whatever
    list of expected codes it is given, even one that holds 0. *)
Theorem unresolved_alias_is_classified_fail
        (json_loads : string -> result value) (network : nat -> request -> net_outcome)
        (a func : string) (args : list pyarg) (st : state) (codes : option (list Z)) :
  unresolved a ->
  (exists r, fst (Test.invoke json_loads network a func args st) = Ok r
             /\ fst (Test.ok r codes (snd (Test.invoke json_loads network a func args st)))
                = Ok false)
  /\ (exists r, fst (Gemtest.invoke json_loads network a func args st) = Ok r
                /\ fst (Gemtest.ok r codes
                                   (snd (Gemtest.invoke json_loads network a func args st)))
                   = Ok false)
  /\ (exists r, fst (Test.query json_loads network a func args st) = Ok (VDict r)
                /\ fst (Test.ok r codes (snd (Test.query json_loads network a func args st)))
                   = Ok false)
  /\ (exists r, fst (Gemtest.query json_loads network a func args st) = Ok (VDict r)
                /\ fst (Gemtest.ok r codes
                                   (snd (Gemtest.query json_loads network a func args st)))
                   = Ok false).
Proof.
  intros Hun.
  assert (F : forall st', fst (Test.ok (signer_not_found a) codes st') = Ok false
                          /\ fst (Gemtest.ok (signer_not_found a) codes st') = Ok false).
  { intros st'. apply (ok_other_code_fails (signer_not_found a) 0); try reflexivity; lia. }
  unfold Test.invoke, Test.query, Gemtest.invoke, Gemtest.query, bind, set_method_type.
  unfold Test.get_kaleido_kid_for_alias, Gemtest.get_kaleido_kid_for_alias.
  rewrite !(lookup_unresolved _ a _ Hun).
  repeat split; exists (signer_not_found a); (split; [reflexivity | apply F]).
Qed.

Lemma unresolved_alias_is_classified_fail_witness :
  exists r,
    fst (Test.invoke Sample.loads (Sample.answers 202 EmptyString) "ghost_alias"
                     "CreateShipment" [] Sample.fresh) = Ok r
    /\ fst (Test.ok r (Some [0%Z; 202%Z])
                    (snd (Test.invoke Sample.loads (Sample.answers 202 EmptyString)
                                      "ghost_alias" "CreateShipment" [] Sample.fresh)))
       = Ok false.
Proof.
  refine (proj1 (unresolved_alias_is_classified_fail Sample.loads
                   (Sample.answers 202 EmptyString) "ghost_alias" "CreateShipment" []
                   Sample.fresh (Some [0%Z; 202%Z]) _)).
  intros kid e Hin. unfold ID_ROSTER in Hin. simpl in Hin.
  repeat (destruct Hin as [Hin|Hin]; [injection Hin as <- <-; discriminate|]).
  contradiction.
Defined.




(* ------------------------------------------------------------------------- *)
(** ** Registration and enrollment of the signing identities *)

Section IdentityFacts.

Variable json_loads : string -> result value.
Variable network : nat -> request -> net_outcome.
Variable py_str : value -> string.
Variable to_wire : value -> pyobj.

Lemma get_set_same (kid : string) (v : value) (d : dict) :
  Py.get (Py.set (VStr kid) v d) kid = v.
Proof.
  unfold Py.get, Py.get_d. rewrite lookup_set. simpl. now rewrite String.eqb_refl.
Qed.

Lemma get_set_other (kid k : string) (v : value) (d : dict) :
  k <> kid -> Py.get (Py.set (VStr kid) v d) k = Py.get d k.
Proof.
  intros H. unfold Py.get, Py.get_d. rewrite lookup_set. simpl.
  apply not_eq_sym in H. apply String.eqb_neq in H. now rewrite H.
Qed.

(** The outcome of the confirming [GET]. *)
Lemma confirm_identity_run (SECRETS : dict) (kid confirmed : string) (st : state) :
  fst (confirm_identity json_loads network SECRETS kid confirmed st)
  = match transport_record json_loads network (List.length (wire st))
                           (identity_request kid) with
    | Ok g => Ok (Py.eq_int (Py.get g "status") 200, SECRETS)
    | Raise e => Raise e
    end
  /\ wire (snd (confirm_identity json_loads network SECRETS kid confirmed st))
     = wire st ++ [identity_request kid].
Proof.
  unfold confirm_identity, bind. rewrite req_run by reflexivity.
  unfold identity_request.
  destruct (transport_record json_loads network _ _) as [g|e];
    [|split; reflexivity].
  destruct (Py.eq_int (Py.get g "status") 200); split; reflexivity.
Qed.

(** Two literals that differ are not both equal to the same status. *)
Lemma eq_int_409_not_500 (v : value) :
  Py.eq_int v 409 = true -> Py.eq_int v 500 = false.
Proof.
  unfold Py.eq_int. destruct (Py.num_of v) as [q|]; [|discriminate].
  intros H. apply Qeq_bool_iff in H.
  destruct (Qeq_bool q (inject_Z 500)) eqn:E; [|reflexivity].
  apply Qeq_bool_iff in E. rewrite H in E. discriminate E.
Qed.

End IdentityFacts.

(** X19.  When the gateway answers the registration with a truthy [secret],
    [register_kaleido_identity] returns True after that single request and
    stores the secret under the identity's name: it is what [SECRETS] then
    gives for that name, and the secrets of the other names are untouched. *)
Theorem register_stores_secret
        (json_loads : string -> result value) (network : nat -> request -> net_outcome)
        (py_str : value -> string)
        (SECRETS : dict) (kid : string) (st : state) (r : dict) :
  transport_record json_loads network (List.length (wire st)) (register_request kid)
  = Ok r ->
  Py.truthy (Py.get r "secret") = true ->
  let run := register_kaleido_identity json_loads network py_str SECRETS kid st in
  exists SECRETS',
    fst run = Ok (true, SECRETS')
    /\ Py.get SECRETS' kid = Py.get r "secret"
    /\ (forall other, other <> kid -> Py.get SECRETS' other = Py.get SECRETS other)
    /\ wire (snd run) = wire st ++ [register_request kid].
Proof.
  intros Htr Hs run. exists (Py.set (VStr kid) (Py.get r "secret") SECRETS).
  assert (R : exists st',
             run = (Ok (true, Py.set (VStr kid) (Py.get r "secret") SECRETS), st')
             /\ wire st' = wire st ++ [register_request kid]).
  { subst run. unfold register_kaleido_identity, ENABLE_ENROLLMENT. cbn [negb].
    unfold bind at 1. cbn [log]. unfold bind at 1.
    rewrite req_run by reflexivity. unfold register_request in Htr. simpl wire.
    rewrite Htr, Hs. eexists. split; reflexivity. }
  destruct R as [st' [R W]]. rewrite R. cbn [fst snd].
  split; [reflexivity|]. split; [apply get_set_same|].
  split; [|exact W].
  intros other Ho. now apply get_set_other.
Qed.

Lemma register_stores_secret_witness :
  let run := register_kaleido_identity Runs.loads
               (Runs.script [Runs.http_ok 200 Runs.body_secret]) Runs.str
               [] "farmer_alice_tester" Sample.fresh in
  exists SECRETS',
    fst run = Ok (true, SECRETS')
    /\ Py.get SECRETS' "farmer_alice_tester" = VStr "s3cr3t"
    /\ (forall other, other <> "farmer_alice_tester" ->
                      Py.get SECRETS' other = Py.get [] other)
    /\ wire (snd run) = [register_request "farmer_alice_tester"].
Proof.
  apply (register_stores_secret Runs.loads
           (Runs.script [Runs.http_ok 200 Runs.body_secret]) Runs.str
           [] "farmer_alice_tester" Sample.fresh
           [(VStr "status", VInt 200); (VStr "secret", VStr "s3cr3t")]).
  - vm_compute. reflexivity.
  - reflexivity.
Defined.

(** X20.  When the gateway answers the registration with status 500 and
    details whose [error] text holds both [Identity] and [is already
    registered], and no secret, [register_kaleido_identity] makes a second
    request, the [GET] of that identity, and returns True exactly when this
    second record has status 200; [SECRETS] is left as it was. *)
Theorem register_already_registered
        (json_loads : string -> result value) (network : nat -> request -> net_outcome)
        (py_str : value -> string)
        (SECRETS : dict) (kid : string) (st : state) (r g : dict)
        (details : dict) (text : string) :
  transport_record json_loads network (List.length (wire st)) (register_request kid)
  = Ok r ->
  transport_record json_loads network (S (List.length (wire st))) (identity_request kid)
  = Ok g ->
  Py.truthy (Py.get r "secret") = false ->
  Py.eq_int (Py.get r "status") 500 = true ->
  Py.get r "details" = VDict details ->
  Py.get_d details "error" (VStr EmptyString) = VStr text ->
  PyStr.contains "Identity" text = true ->
  PyStr.contains "is already registered" text = true ->
  let run := register_kaleido_identity json_loads network py_str SECRETS kid st in
  fst run = Ok (Py.eq_int (Py.get g "status") 200, SECRETS)
  /\ wire (snd run) = wire st ++ [register_request kid; identity_request kid].
Proof.
  intros Htr Hg Hs H500 Hd He H1 H2 run.
  assert (R : exists st',
             run = (Ok (Py.eq_int (Py.get g "status") 200, SECRETS), st')
             /\ wire st' = wire st ++ [register_request kid; identity_request kid]).
  { subst run. unfold register_kaleido_identity, ENABLE_ENROLLMENT. cbn [negb].
    unfold bind at 1. cbn [log]. unfold bind at 1.
    rewrite req_run by reflexivity. unfold register_request in Htr. simpl wire.
    rewrite Htr, Hs, Hd, H500, He.
    unfold andM, lift, bind at 1. cbn [Py.in_]. rewrite H1.
    unfold bind at 1. rewrite H2. cbn [ret]. unfold bind at 1. cbn [log].
    match goal with
    | |- context [confirm_identity ?l ?n ?s ?k ?c ?st'] =>
        destruct (confirm_identity_run l n s k c st') as [E W];
        destruct (confirm_identity l n s k c st') as [res st2]
    end.
    cbn [fst snd wire sent] in E, W.
    rewrite length_app, Nat.add_comm in E. cbn [List.length Nat.add] in E.
    rewrite Hg in E. subst res. exists st2. split; [reflexivity|].
    rewrite W. now rewrite <- app_assoc. }
  destruct R as [st' [R W]]. rewrite R. cbn [fst snd]. split; [reflexivity | exact W].
Qed.

Lemma register_already_registered_witness :
  let run := register_kaleido_identity Runs.loads
               (Runs.script [Runs.http_error 500 "Internal Server Error" Runs.body_already;
                             Runs.http_ok 200 Runs.body_cert])
               Runs.str [] "farmer_alice_tester" Sample.fresh in
  fst run = Ok (true, [])
  /\ wire (snd run)
     = [register_request "farmer_alice_tester"; identity_request "farmer_alice_tester"].
Proof.
  apply (register_already_registered Runs.loads
           (Runs.script [Runs.http_error 500 "Internal Server Error" Runs.body_already;
                         Runs.http_ok 200 Runs.body_cert])
           Runs.str [] "farmer_alice_tester" Sample.fresh
           [(VStr "err", VStr "HTTP 500");
            (VStr "details",
             VDict [(VStr "error",
                     VStr "Identity farmer_alice_tester is already registered")]);
            (VStr "status", VInt 500)]
           [(VStr "status", VInt 200); (VStr "enrollmentCert", VStr "CERT")]
           [(VStr "error", VStr "Identity farmer_alice_tester is already registered")]
           "Identity farmer_alice_tester is already registered").
  - vm_compute. reflexivity.
  - vm_compute. reflexivity.
  - reflexivity.
  - reflexivity.
  - reflexivity.
  - reflexivity.
  - reflexivity.
  - reflexivity.
Defined.

(** A run is described by its outcome and a property of its final state. *)
Lemma run_split {A : Type} (m : M A) (st : state) (a : result A) (P : state -> Prop) :
  (exists st', m st = (a, st') /\ P st') -> fst (m st) = a /\ P (snd (m st)).
Proof. intros [st' [E H]]. rewrite E. split; [reflexivity | exact H]. Qed.

Section RegisterFacts.

Variable json_loads : string -> result value.
Variable network : nat -> request -> net_outcome.
Variable py_str : value -> string.

(** The run of [register_kaleido_identity] up to the record of its first
    request, when that record carries no secret: what remains is the choice
    between the two tests on the record. *)
Lemma register_without_secret (SECRETS : dict) (kid : string) (st : state) (r : dict) :
  transport_record json_loads network (List.length (wire st)) (register_request kid)
  = Ok r ->
  Py.truthy (Py.get r "secret") = false ->
  Py.eq_int (Py.get r "status") 500 && Py.is_dict (Py.get r "details") = false ->
  exists st1,
    wire st1 = wire st ++ [register_request kid]
    /\ register_kaleido_identity json_loads network py_str SECRETS kid st
       = (known <-
            orM (ret (Py.eq_int (Py.get r "status") 409))
                (error <- lift (get_method (Py.get_d r "details" (VDict [])) "error"
                                           (VStr EmptyString)) ;;
                 ret (PyStr.contains "already exists" (PyStr.lower (py_str error)))) ;;
          if known then
            log "Kaleido identity {} likely already exists (409 or similar)." [VStr kid] ;;;
            confirm_identity json_loads network SECRETS kid
                             "Confirmed {} exists. Enrolled: {}"
          else
            log "ERROR: Failed to register Kaleido identity {}. Response: {}"
                [VStr kid; VDict r] ;;;
            ret (false, SECRETS)) st1.
Proof.
  intros Htr Hs Hnot.
  unfold register_kaleido_identity, ENABLE_ENROLLMENT. cbn [negb].
  unfold bind at 1. cbn [log]. unfold bind at 1.
  rewrite req_run by reflexivity. unfold register_request in Htr. simpl wire.
  rewrite Htr, Hs.
  exists (sent (mkState (method_type st)
                        (log_lines st ++
                         [LogLine "Attempting to register Kaleido identity: {}" [VStr kid]])
                        (wire st))
               (register_request kid)).
  split; [reflexivity|].
  destruct (Py.get r "details"); try reflexivity.
  rewrite andb_true_r in Hnot. rewrite Hnot. reflexivity.
Qed.

End RegisterFacts.

(** X21.  When the record of the registration has no secret and either its
    status is 409, or its status is not 500 and the [error] of its details
    reads [already exists] in any letter case, [register_kaleido_identity]
    makes the [GET] of the identity as its second request and returns True
    exactly when that second record has status 200; [SECRETS] is left as it
    was. *)
Theorem register_conflict_is_confirmed
        (json_loads : string -> result value) (network : nat -> request -> net_outcome)
        (py_str : value -> string)
        (SECRETS : dict) (kid : string) (st : state) (r g : dict) :
  transport_record json_loads network (List.length (wire st)) (register_request kid)
  = Ok r ->
  transport_record json_loads network (S (List.length (wire st))) (identity_request kid)
  = Ok g ->
  Py.truthy (Py.get r "secret") = false ->
  Py.eq_int (Py.get r "status") 409 = true
  \/ (Py.eq_int (Py.get r "status") 500 = false
      /\ exists details,
           Py.get_d r "details" (VDict []) = VDict details
           /\ PyStr.contains "already exists"
                (PyStr.lower (py_str (Py.get_d details "error" (VStr EmptyString))))
              = true) ->
  let run := register_kaleido_identity json_loads network py_str SECRETS kid st in
  fst run = Ok (Py.eq_int (Py.get g "status") 200, SECRETS)
  /\ wire (snd run) = wire st ++ [register_request kid; identity_request kid].
Proof.
  intros Htr Hg Hs Hcase run.
  assert (Hnot : Py.eq_int (Py.get r "status") 500 && Py.is_dict (Py.get r "details")
                 = false).
  { destruct Hcase as [H409|[H500 _]].
    - now rewrite (eq_int_409_not_500 _ H409).
    - now rewrite H500. }
  destruct (register_without_secret json_loads network py_str SECRETS kid st r
              Htr Hs Hnot) as [st1 [W1 R]].
  assert (RR : exists st',
              run = (Ok (Py.eq_int (Py.get g "status") 200, SECRETS), st')
              /\ wire st' = wire st ++ [register_request kid; identity_request kid]);
    [|destruct RR as [st' [RR W]]; rewrite RR; split; [reflexivity | exact W]].
  subst run. rewrite R. clear R.
  assert (K : exists st2,
             wire st2 = wire st1
             /\ forall (k : bool -> M (bool * dict)),
                  bind (orM (ret (Py.eq_int (Py.get r "status") 409))
                            (error <- lift (get_method (Py.get_d r "details" (VDict []))
                                                       "error" (VStr EmptyString)) ;;
                             ret (PyStr.contains "already exists"
                                                 (PyStr.lower (py_str error))))) k st1
                  = k true st2).
  { exists st1. split; [reflexivity|]. intros k. unfold orM, bind, ret, lift.
    destruct Hcase as [H409|[_ [details [Hd Hc]]]].
    - rewrite H409. reflexivity.
    - destruct (Py.eq_int (Py.get r "status") 409); [reflexivity|].
      rewrite Hd. cbn [get_method]. rewrite Hc. reflexivity. }
  destruct K as [st2 [W2 K]]. rewrite K. unfold bind at 1. cbn [log].
  match goal with
  | |- context [confirm_identity ?l ?n ?s ?k ?c ?st'] =>
      destruct (confirm_identity_run l n s k c st') as [E W];
      destruct (confirm_identity l n s k c st') as [res st3]
  end.
  cbn [fst snd wire] in E, W. rewrite W2, W1 in E, W.
  rewrite length_app, Nat.add_comm in E. cbn [List.length Nat.add] in E.
  rewrite Hg in E. subst res. exists st3.
  split; [reflexivity|]. rewrite W. now rewrite <- app_assoc.
Qed.

Lemma register_conflict_is_confirmed_witness :
  let run := register_kaleido_identity Runs.loads
               (Runs.script [Runs.http_error 409 "Conflict" Sample.body_denied;
                             Runs.http_error 404 "Not Found" Sample.body_denied])
               Runs.str [] "retailer_eve_tester" Sample.fresh in
  fst run = Ok (false, [])
  /\ wire (snd run)
     = [register_request "retailer_eve_tester"; identity_request "retailer_eve_tester"].
Proof.
  apply (register_conflict_is_confirmed Runs.loads
           (Runs.script [Runs.http_error 409 "Conflict" Sample.body_denied;
                         Runs.http_error 404 "Not Found" Sample.body_denied])
           Runs.str [] "retailer_eve_tester" Sample.fresh
           [(VStr "err", VStr "HTTP 409");
            (VStr "details", VDict [(VStr "error", VStr "denied")]);
            (VStr "status", VInt 409)]
           [(VStr "err", VStr "HTTP 404");
            (VStr "details", VDict [(VStr "error", VStr "denied")]);
            (VStr "status", VInt 404)]).
  - vm_compute. reflexivity.
  - vm_compute. reflexivity.
  - reflexivity.
  - left. reflexivity.
Defined.



(** X23.  [register_kaleido_identity] is not exception free: when the record
    of the registration has no secret, a status other than 409 and a [details]
    member that is not an object (an error body that is a JSON array, a null),
    the second test calls [get] on it and the [AttributeError] leaves the
    function, after the request has been sent. *)
Theorem register_raises_on_non_object_details
        (json_loads : string -> result value) (network : nat -> request -> net_outcome)
        (py_str : value -> string)
        (SECRETS : dict) (kid : string) (st : state) (r : dict) :
  transport_record json_loads network (List.length (wire st)) (register_request kid)
  = Ok r ->
  Py.truthy (Py.get r "secret") = false ->
  Py.eq_int (Py.get r "status") 409 = false ->
  Py.has r "details" = true ->
  Py.is_dict (Py.get r "details") = false ->
  let run := register_kaleido_identity json_loads network py_str SECRETS kid st in
  exists msg,
    fst run = Raise (AttributeError msg)
    /\ wire (snd run) = wire st ++ [register_request kid].
Proof.
  intros Htr Hs H409 Hhas Hnd run.
  destruct (register_without_secret json_loads network py_str SECRETS kid st r
              Htr Hs) as [st1 [W1 R]].
  { rewrite Hnd. apply andb_false_r. }
  subst run.
  assert (G : Py.get_d r "details" (VDict []) = Py.get r "details").
  { unfold Py.get, Py.get_d, Py.has in *.
    destruct (Py.lookup (VStr "details") r); [reflexivity | discriminate]. }
  assert (X : exists msg,
             get_method (Py.get r "details") "error" (VStr EmptyString)
             = Raise (AttributeError msg)).
  { destruct (Py.get r "details"); try discriminate Hnd; eexists; reflexivity. }
  destruct X as [msg X]. exists msg.
  apply (run_split _ st (Raise (AttributeError msg))
                   (fun s => wire s = wire st ++ [register_request kid])).
  rewrite R. unfold orM, bind, ret, lift. rewrite H409, G, X.
  eexists. split; [reflexivity | exact W1].
Qed.

Lemma register_raises_on_non_object_details_witness :
  let run := register_kaleido_identity Runs.loads
               (Runs.script [Runs.http_error 404 "Not Found" Runs.body_array])
               Runs.str [] "admin_main_tester" Sample.fresh in
  exists msg,
    fst run = Raise (AttributeError msg)
    /\ wire (snd run) = [register_request "admin_main_tester"].
Proof.
  apply (register_raises_on_non_object_details Runs.loads
           (Runs.script [Runs.http_error 404 "Not Found" Runs.body_array])
           Runs.str [] "admin_main_tester" Sample.fresh
           [(VStr "err", VStr "HTTP 404");
            (VStr "details", VList [VDict [(VStr "error", VStr "no")]]);
            (VStr "status", VInt 404)]).
  - vm_compute. reflexivity.
  - reflexivity.
  - reflexivity.
  - reflexivity.
  - reflexivity.
Defined.

Section RegisterFrame.

Variable json_loads : string -> result value.
Variable network : nat -> request -> net_outcome.
Variable py_str : value -> string.

Lemma confirm_identity_frame (SECRETS : dict) (kid confirmed : string) (st : state)
      (b : bool) (S' : dict) :
  fst (confirm_identity json_loads network SECRETS kid confirmed st) = Ok (b, S') ->
  S' = SECRETS.
Proof.
  destruct (confirm_identity_run json_loads network SECRETS kid confirmed st) as [E _].
  rewrite E. destruct (transport_record json_loads network _ _); [|discriminate].
  intros H. now injection H as _ <-.
Qed.

(** Both tails of [register_kaleido_identity] hand [SECRETS] back as it is. *)
Lemma register_tail_frame (SECRETS : dict) (kid : string) (test : M bool)
      (announce confirmed : string) (failed_text : string) (vals : list value)
      (st : state) (b : bool) (S' : dict) :
  fst ((known <- test ;;
        if known then
          log announce [VStr kid] ;;;
          confirm_identity json_loads network SECRETS kid confirmed
        else
          log failed_text vals ;;; ret (false, SECRETS)) st) = Ok (b, S') ->
  S' = SECRETS.
Proof.
  unfold bind at 1. destruct (test st) as [[known|e] st1]; [|discriminate].
  destruct known.
  - unfold bind. cbn [log]. apply confirm_identity_frame.
  - unfold bind, log, ret. simpl. intros H. now injection H as _ <-.
Qed.

End RegisterFrame.

(** X24.  Whatever the gateway answers, a run of [register_kaleido_identity]
    that returns leaves the secrets of every other identity as they were, and
    leaves [SECRETS] wholly unchanged when its verdict is False. *)
Theorem register_touches_one_secret
        (json_loads : string -> result value) (network : nat -> request -> net_outcome)
        (py_str : value -> string)
        (SECRETS : dict) (kid : string) (st : state) (b : bool) (S' : dict) :
  fst (register_kaleido_identity json_loads network py_str SECRETS kid st) = Ok (b, S') ->
  (forall other, other <> kid -> Py.get S' other = Py.get SECRETS other)
  /\ (b = false -> S' = SECRETS).
Proof.
  unfold register_kaleido_identity, ENABLE_ENROLLMENT. cbn [negb].
  unfold bind at 1. cbn [log]. unfold bind at 1.
  destruct (_req json_loads network IDENTITY_URL _ "POST" _) as [[r|e] st1];
    [|discriminate].
  destruct (Py.truthy (Py.get r "secret")).
  - unfold bind, log, ret. simpl. intros H. injection H as <- <-.
    split; [|discriminate]. intros other Ho. now apply get_set_other.
  - intros H.
    assert (F : S' = SECRETS).
    { destruct (Py.get r "details") as [| | | | | |details];
        try exact (register_tail_frame json_loads network SECRETS kid _ _ _ _ _ _ _ _ H).
      destruct (Py.eq_int (Py.get r "status") 500);
        exact (register_tail_frame json_loads network SECRETS kid _ _ _ _ _ _ _ _ H). }
    subst S'. split; auto.
Qed.

Lemma register_touches_one_secret_witness :
  Py.get [(VStr "processor_bob_tester", VStr "old"); (VStr "farmer_alice_tester", VStr "s3cr3t")]
         "processor_bob_tester"
  = Py.get [(VStr "processor_bob_tester", VStr "old")] "processor_bob_tester".
Proof.
  refine (proj1 (register_touches_one_secret Runs.loads
                   (Runs.script [Runs.http_ok 200 Runs.body_secret]) Runs.str
                   [(VStr "processor_bob_tester", VStr "old")] "farmer_alice_tester"
                   Sample.fresh true
                   [(VStr "processor_bob_tester", VStr "old");
                    (VStr "farmer_alice_tester", VStr "s3cr3t")] _)
                "processor_bob_tester" _).
  - vm_compute. reflexivity.
  - discriminate.
Defined.

Section EnrollFacts.

Variable json_loads : string -> result value.
Variable network : nat -> request -> net_outcome.
Variable py_str : value -> string.
Variable to_wire : value -> pyobj.

Lemma register_secret_run (SECRETS : dict) (kid : string) (st : state) (r : dict) :
  transport_record json_loads network (List.length (wire st)) (register_request kid)
  = Ok r ->
  Py.truthy (Py.get r "secret") = true ->
  exists st',
    register_kaleido_identity json_loads network py_str SECRETS kid st
    = (Ok (true, Py.set (VStr kid) (Py.get r "secret") SECRETS), st')
    /\ wire st' = wire st ++ [register_request kid].
Proof.
  intros Htr Hs.
  unfold register_kaleido_identity, ENABLE_ENROLLMENT. cbn [negb].
  unfold bind at 1. cbn [log]. unfold bind at 1.
  rewrite req_run by reflexivity. unfold register_request in Htr. simpl wire.
  rewrite Htr, Hs. eexists. split; reflexivity.
Qed.

Lemma enroll_with_secret_run (SECRETS : dict) (kid : string) (st : state) (r : dict) :
  Py.truthy (Py.get SECRETS kid) = true ->
  serializable (to_wire (Py.get SECRETS kid)) = true ->
  transport_record json_loads network (List.length (wire st))
                   (enroll_request (to_wire (Py.get SECRETS kid)) kid) = Ok r ->
  exists st',
    enroll_kaleido_identity json_loads network to_wire SECRETS kid st
    = (Ok (Py.eq_int (Py.get r "status") 200 || Py.eq_int (Py.get r "status") 201), st')
    /\ wire st' = wire st ++ [enroll_request (to_wire (Py.get SECRETS kid)) kid].
Proof.
  intros Hs Hw Htr.
  unfold enroll_kaleido_identity, ENABLE_ENROLLMENT. cbn [negb].
  unfold bind at 1. cbn [log]. rewrite Hs. cbn [negb]. unfold bind at 1.
  rewrite req_run by (simpl; now rewrite Hw).
  unfold enroll_request in Htr. simpl wire. rewrite Htr.
  destruct (Py.eq_int (Py.get r "status") 200 || Py.eq_int (Py.get r "status") 201);
    eexists; split; reflexivity.
Qed.

Lemma enroll_without_secret_run (SECRETS : dict) (kid : string) (st : state) (g : dict) :
  Py.truthy (Py.get SECRETS kid) = false ->
  transport_record json_loads network (List.length (wire st)) (identity_request kid)
  = Ok g ->
  exists st',
    enroll_kaleido_identity json_loads network to_wire SECRETS kid st
    = (Ok (Py.eq_int (Py.get g "status") 200 && Py.truthy (Py.get g "enrollmentCert")), st')
    /\ wire st' = wire st ++ [identity_request kid].
Proof.
  intros Hs Htr.
  unfold enroll_kaleido_identity, ENABLE_ENROLLMENT. cbn [negb].
  unfold bind at 1. cbn [log]. rewrite Hs. cbn [negb].
  unfold bind at 1. cbn [log]. unfold bind at 1.
  rewrite req_run by reflexivity.
  unfold identity_request in Htr. simpl wire. rewrite Htr.
  destruct (Py.eq_int (Py.get g "status") 200); cbn [andb];
    [destruct (Py.truthy (Py.get g "enrollmentCert"))|];
    eexists; split; reflexivity.
Qed.

End EnrollFacts.

(** X25.  Without a stored secret for the identity,
    [enroll_kaleido_identity] makes one request, the [GET] of the identity, and
    returns True exactly when the record has status 200 and a truthy
    [enrollmentCert]. *)
Theorem enroll_without_secret_checks_certificate
        (json_loads : string -> result value) (network : nat -> request -> net_outcome)
        (to_wire : value -> pyobj)
        (SECRETS : dict) (kid : string) (st : state) (g : dict) :
  Py.truthy (Py.get SECRETS kid) = false ->
  transport_record json_loads network (List.length (wire st)) (identity_request kid)
  = Ok g ->
  let run := enroll_kaleido_identity json_loads network to_wire SECRETS kid st in
  fst run
  = Ok (Py.eq_int (Py.get g "status") 200 && Py.truthy (Py.get g "enrollmentCert"))
  /\ wire (snd run) = wire st ++ [identity_request kid].
Proof.
  intros Hs Htr run. subst run.
  apply (run_split _ st _ (fun s => wire s = wire st ++ [identity_request kid])).
  now apply enroll_without_secret_run.
Qed.

Lemma enroll_without_secret_checks_certificate_witness :
  let run := enroll_kaleido_identity Runs.loads
               (Runs.script [Runs.http_ok 200 Runs.body_cert]) Runs.wire_form
               [] "certifier_frank_tester" Sample.fresh in
  fst run = Ok true
  /\ wire (snd run) = [identity_request "certifier_frank_tester"].
Proof.
  apply (enroll_without_secret_checks_certificate Runs.loads
           (Runs.script [Runs.http_ok 200 Runs.body_cert]) Runs.wire_form
           [] "certifier_frank_tester" Sample.fresh
           [(VStr "status", VInt 200); (VStr "enrollmentCert", VStr "CERT")]).
  - reflexivity.
  - vm_compute. reflexivity.
Defined.

(** X26.  With a stored secret for the identity, [enroll_kaleido_identity]
    makes one request, the [POST] of that secret to the enroll address of the
    identity, and returns True exactly when the record has status 200 or
    201. *)
Theorem enroll_with_secret_posts_it
        (json_loads : string -> result value) (network : nat -> request -> net_outcome)
        (to_wire : value -> pyobj)
        (SECRETS : dict) (kid : string) (st : state) (r : dict) :
  Py.truthy (Py.get SECRETS kid) = true ->
  serializable (to_wire (Py.get SECRETS kid)) = true ->
  transport_record json_loads network (List.length (wire st))
                   (enroll_request (to_wire (Py.get SECRETS kid)) kid) = Ok r ->
  let run := enroll_kaleido_identity json_loads network to_wire SECRETS kid st in
  fst run = Ok (Py.eq_int (Py.get r "status") 200 || Py.eq_int (Py.get r "status") 201)
  /\ wire (snd run) = wire st ++ [enroll_request (to_wire (Py.get SECRETS kid)) kid].
Proof.
  intros Hs Hw Htr run. subst run.
  apply (run_split _ st _
           (fun s => wire s = wire st ++ [enroll_request (to_wire (Py.get SECRETS kid)) kid])).
  now apply enroll_with_secret_run.
Qed.

Lemma enroll_with_secret_posts_it_witness :
  let run := enroll_kaleido_identity Runs.loads
               (Runs.script [Runs.http_ok 201 EmptyString]) Runs.wire_form
               [(VStr "certifier_frank_tester", VStr "s3cr3t")]
               "certifier_frank_tester" Sample.fresh in
  fst run = Ok true
  /\ wire (snd run) = [enroll_request (PStr "s3cr3t") "certifier_frank_tester"].
Proof.
  apply (enroll_with_secret_posts_it Runs.loads
           (Runs.script [Runs.http_ok 201 EmptyString]) Runs.wire_form
           [(VStr "certifier_frank_tester", VStr "s3cr3t")]
           "certifier_frank_tester" Sample.fresh [(VStr "status", VInt 201)]).
  - reflexivity.
  - reflexivity.
  - vm_compute. reflexivity.
Defined.

(** X27.  Registration followed by enrollment: when the gateway answers the
    registration with a truthy secret, the enrollment that follows sends that
    very secret as the second request, to the enroll address of the same
    identity, and its verdict is whether the second record has status 200 or
    201. *)
Theorem register_then_enroll_uses_secret
        (json_loads : string -> result value) (network : nat -> request -> net_outcome)
        (py_str : value -> string) (to_wire : value -> pyobj)
        (SECRETS : dict) (kid : string) (st : state) (r r2 : dict) :
  transport_record json_loads network (List.length (wire st)) (register_request kid)
  = Ok r ->
  Py.truthy (Py.get r "secret") = true ->
  serializable (to_wire (Py.get r "secret")) = true ->
  transport_record json_loads network (S (List.length (wire st)))
                   (enroll_request (to_wire (Py.get r "secret")) kid) = Ok r2 ->
  let registered := register_kaleido_identity json_loads network py_str SECRETS kid st in
  exists SECRETS',
    fst registered = Ok (true, SECRETS')
    /\ let enrolled := enroll_kaleido_identity json_loads network to_wire SECRETS' kid
                                               (snd registered) in
       fst enrolled
       = Ok (Py.eq_int (Py.get r2 "status") 200 || Py.eq_int (Py.get r2 "status") 201)
       /\ wire (snd enrolled)
          = wire st ++ [register_request kid;
                        enroll_request (to_wire (Py.get r "secret")) kid].
Proof.
  intros Htr Hs Hw Htr2 registered.
  destruct (register_secret_run json_loads network py_str SECRETS kid st r Htr Hs)
    as [st1 [R W1]].
  exists (Py.set (VStr kid) (Py.get r "secret") SECRETS).
  subst registered. rewrite R. cbn [fst snd]. split; [reflexivity|].
  cbv zeta.
  apply (run_split _ st1 _
           (fun s => wire s = wire st ++ [register_request kid;
                                          enroll_request (to_wire (Py.get r "secret")) kid])).
  destruct (enroll_with_secret_run json_loads network to_wire
              (Py.set (VStr kid) (Py.get r "secret") SECRETS) kid st1 r2)
    as [st2 [E W2]].
  - now rewrite get_set_same.
  - now rewrite get_set_same.
  - rewrite get_set_same, W1, length_app, Nat.add_comm. exact Htr2.
  - exists st2. split; [exact E|].
    rewrite W2, W1, get_set_same. now rewrite <- app_assoc.
Qed.

Lemma register_then_enroll_uses_secret_witness :
  let peer := Runs.script [Runs.http_ok 200 Runs.body_secret; Runs.http_ok 201 EmptyString] in
  let registered := register_kaleido_identity Runs.loads peer Runs.str []
                                              "farmer_alice_tester" Sample.fresh in
  exists SECRETS',
    fst registered = Ok (true, SECRETS')
    /\ let enrolled := enroll_kaleido_identity Runs.loads peer Runs.wire_form SECRETS'
                                               "farmer_alice_tester" (snd registered) in
       fst enrolled = Ok true
       /\ wire (snd enrolled)
          = [register_request "farmer_alice_tester";
             enroll_request (PStr "s3cr3t") "farmer_alice_tester"].
Proof.
  apply (register_then_enroll_uses_secret Runs.loads
           (Runs.script [Runs.http_ok 200 Runs.body_secret; Runs.http_ok 201 EmptyString])
           Runs.str Runs.wire_form [] "farmer_alice_tester" Sample.fresh
           [(VStr "status", VInt 200); (VStr "secret", VStr "s3cr3t")]
           [(VStr "status", VInt 201)]).
  - vm_compute. reflexivity.
  - reflexivity.
  - reflexivity.
  - vm_compute. reflexivity.
Defined.
